(** * site-editor: editor state store, frame bridge and preview agent

    A shallow embedding of the TypeScript sources

    - [app/src/lib/communication/message-types.ts] (module [MessageTypes])
    - [app/src/lib/communication/iframe-bridge.ts] (module [IframeBridge])
    - the editor store imported as [@/lib/stores/editorStore]
      (module [editorStore])
    - the [useEditorState] hook (module [useEditorState])
    - [templates/business/src/lib/editor-bridge.ts]
      (modules [Dom] and [ClientEditorBridge])

    followed by the properties of undo/redo history, draft reconciliation
    and the cross-frame protocol that are proved about them.

    Conventions.  [Date.now()] and [Math.random()] are inputs of the
    functions that call them ([now], [rnd]).  A JavaScript [Map] keyed by
    strings is a [gmap string _]; none of the modelled code depends on the
    insertion order of a map.  JavaScript numbers are modelled by [Z]
    (no fractions, no NaN), strings by [string]. *)

From stdpp Require Import gmap strings list fin_maps pretty.
From Stdlib Require Import ZArith Lia Ascii.

Local Open Scope Z_scope.

(** ** JavaScript values *)

Module Js.

(** The primitive values that travel in message payloads and content
    maps ([ContentValue = string | boolean | number], plus the two
    absent values). *)
Inductive JsValue : Type :=
| JUndefined
| JNull
| JBool (b : bool)
| JNum (n : Z)
| JStr (s : string).

#[global] Instance JsValue_eq_dec : EqDecision JsValue.
Proof. solve_decision. Defined.

(** ToBoolean. *)
Definition truthy (v : JsValue) : bool :=
  match v with
  | JUndefined | JNull => false
  | JBool b => b
  | JNum n => negb (Z.eqb n 0)
  | JStr s => negb (String.eqb s "")
  end.

(** [a || b]. *)
Definition or (a b : JsValue) : JsValue := if truthy a then a else b.

(** [a === b] on primitives. *)
Definition strict_eq (a b : JsValue) : bool := bool_decide (a = b).

(** Truthiness of a [string | null | undefined]. *)
Definition truthy_str (o : option string) : bool :=
  match o with
  | Some s => negb (String.eqb s "")
  | None => false
  end.

(** Truthiness of an optional number. *)
Definition truthy_num (o : option Z) : bool :=
  match o with
  | Some n => negb (Z.eqb n 0)
  | None => false
  end.

(** The one-character string holding a double quote. *)
Definition dq : string := String "034"%char EmptyString.
Definition backslash : string := String "092"%char EmptyString.

(** [String(v)], also the conversion of a template literal.  Numbers are
    integers, printed in decimal digits as JS does below 10^21. *)
Definition String_ (v : JsValue) : string :=
  match v with
  | JUndefined => "undefined"
  | JNull => "null"
  | JBool true => "true"
  | JBool false => "false"
  | JNum n => pretty n
  | JStr s => s
  end.

Definition hex_digit (n : N) : string :=
  match N.to_nat n with
  | 0 => "0" | 1 => "1" | 2 => "2" | 3 => "3" | 4 => "4" | 5 => "5"
  | 6 => "6" | 7 => "7" | 8 => "8" | 9 => "9" | 10 => "a" | 11 => "b"
  | 12 => "c" | 13 => "d" | 14 => "e" | _ => "f"
  end%nat.

(** QuoteJSONString, one code unit at a time. *)
Definition json_escape_char (c : ascii) : string :=
  let n := N_of_ascii c in
  if N.eqb n 34 then backslash +:+ dq
  else if N.eqb n 92 then backslash +:+ backslash
  else if N.eqb n 8 then backslash +:+ "b"
  else if N.eqb n 9 then backslash +:+ "t"
  else if N.eqb n 10 then backslash +:+ "n"
  else if N.eqb n 12 then backslash +:+ "f"
  else if N.eqb n 13 then backslash +:+ "r"
  else if N.ltb n 32 then
    backslash +:+ "u00" +:+ hex_digit (n / 16)%N +:+ hex_digit (n mod 16)%N
  else String c EmptyString.

Fixpoint json_escape (s : string) : string :=
  match s with
  | EmptyString => EmptyString
  | String c rest => json_escape_char c +:+ json_escape rest
  end.

(** [JSON.stringify(v)]; [None] is the result [undefined]. *)
Definition JSON_stringify (v : JsValue) : option string :=
  match v with
  | JUndefined => None
  | JNull => Some "null"
  | JBool _ | JNum _ => Some (String_ v)
  | JStr s => Some (dq +:+ json_escape s +:+ dq)
  end.

(** [`${JSON.stringify(v)}`]. *)
Definition template_of_json (v : JsValue) : string :=
  default "undefined" (JSON_stringify v).

(** [s.slice(0, 30) + (s.length > 30 ? '...' : '')], a string being the
    sequence of its code units, each below 256. *)
Definition truncate30 (s : string) : string :=
  String.substring 0 30 s +:+ (if Nat.ltb 30 (String.length s) then "..." else "").

End Js.
Export Js.

(** ** app/src/lib/communication/message-types.ts *)

Module MessageTypes.

Inductive EditingMode : Type := preview | edit.

Inductive EditorMessageType : Type :=
| EDITOR_READY | UPDATE_CONTENT | SELECT_ELEMENT | ENTER_EDIT_MODE | EXIT_EDIT_MODE.

Definition EditorMessageType_name (t : EditorMessageType) : string :=
  match t with
  | EDITOR_READY => "EDITOR_READY"
  | UPDATE_CONTENT => "UPDATE_CONTENT"
  | SELECT_ELEMENT => "SELECT_ELEMENT"
  | ENTER_EDIT_MODE => "ENTER_EDIT_MODE"
  | EXIT_EDIT_MODE => "EXIT_EDIT_MODE"
  end.

(** Payload of an editor-to-iframe message; an absent optional field is
    [None] (or [JUndefined] for [content]). *)
Record EditorPayload : Type := mkEditorPayload {
  ep_siteId : option string;
  ep_editorMode : option bool;
  ep_selector : option string;
  ep_content : JsValue;
  ep_mode : option EditingMode;
  ep_elementId : option string
}.

Definition emptyPayload : EditorPayload :=
  mkEditorPayload None None None JUndefined None None.

(** [Omit<EditorMessage, 'messageId' | 'timestamp'>]. *)
Record EditorRequest : Type := mkEditorRequest {
  er_type : EditorMessageType;
  er_payload : EditorPayload
}.

Record EditorMessage : Type := mkEditorMessage {
  em_type : EditorMessageType;
  em_payload : EditorPayload;
  em_messageId : string;
  em_timestamp : Z
}.

Record DOMRect : Type := mkDOMRect {
  rect_top : Z; rect_left : Z; rect_right : Z; rect_bottom : Z;
  rect_width : Z; rect_height : Z; rect_x : Z; rect_y : Z
}.

Record ElementData : Type := mkElementData {
  ed_id : string;
  ed_tagName : string;
  ed_textContent : string;
  ed_attributes : gmap string string;
  ed_bounds : DOMRect
}.

(** Payload of an iframe-to-editor message. *)
Record IframePayload : Type := mkIframePayload {
  ip_element : option ElementData;
  ip_content : JsValue;
  ip_error : option string;
  ip_ready : option bool;
  ip_elementId : option string;
  ip_newContent : JsValue;
  ip_oldContent : JsValue;
  ip_type : option string
}.

Definition emptyIframePayload : IframePayload :=
  mkIframePayload None JUndefined None None None JUndefined JUndefined None.

(** What arrives as [event.data] on the editor side.  The envelope
    fields are optional because the bridge checks their presence. *)
Record IframeMessage : Type := mkIframeMessage {
  im_type : option string;
  im_payload : option IframePayload;
  im_messageId : option string;
  im_timestamp : option Z
}.

Inductive ChangeType : Type := text | image | toggle | config.

#[global] Instance ChangeType_eq_dec : EqDecision ChangeType.
Proof. solve_decision. Defined.

Record ContentUpdate : Type := mkContentUpdate {
  cu_elementId : string;
  cu_type : ChangeType;
  cu_oldValue : JsValue;
  cu_newValue : JsValue;
  cu_timestamp : Z;
  cu_imageId : option string;
  cu_optimizedImagePath : option string;
  cu_imageSrcset : option string;
  cu_imageAltText : option string
}.

(** [{ ...u, oldValue }] and [{ ...u, newValue, timestamp }]. *)
Definition with_oldValue (u : ContentUpdate) (v : JsValue) : ContentUpdate :=
  mkContentUpdate (cu_elementId u) (cu_type u) v (cu_newValue u) (cu_timestamp u)
    (cu_imageId u) (cu_optimizedImagePath u) (cu_imageSrcset u) (cu_imageAltText u).

Definition with_newValue (u : ContentUpdate) (v : JsValue) (now : Z) : ContentUpdate :=
  mkContentUpdate (cu_elementId u) (cu_type u) (cu_oldValue u) v now
    (cu_imageId u) (cu_optimizedImagePath u) (cu_imageSrcset u) (cu_imageAltText u).

(** An object literal with the five mandatory fields only. *)
Definition plainUpdate (elementId : string) (type : ChangeType)
    (oldValue newValue : JsValue) (timestamp : Z) : ContentUpdate :=
  mkContentUpdate elementId type oldValue newValue timestamp None None None None.

End MessageTypes.
Export MessageTypes.

(** ** app/src/lib/communication/iframe-bridge.ts *)

Module IframeBridge.

(** A React ref object handed to [setIframeRef].  The ref is shared with
    the component that renders the iframe, so whether
    [ref.current?.contentWindow] exists is read from the environment
    [win] at the moment a message is sent. *)
Definition Ref : Type := nat.

Section WithHandlers.

(** The callbacks registered with [on]; they are opaque to the bridge. *)
Context {H : Type}.

Record Bridge : Type := mkBridge {
  messageHandlers : gmap string H;
  allowedOrigins : list string;
  messageQueue : list EditorMessage;
  iframeRef : option Ref;
  isReady : bool;
  isInitialized : bool
}.

(** What a bridge method does to the outside world, in order:
    [iframe.contentWindow.postMessage(m, '*')] and [handler(message)]. *)
Inductive Effect : Type :=
| PostMessage (r : Ref) (m : EditorMessage)
| Invoke (h : H) (message : IframeMessage).

(** [new IframeBridge()]: the message listener is installed, and
    [isInitialized] set, only where [window] is defined. *)
Definition constructor (window_defined : bool) : Bridge :=
  mkBridge ∅ [] [] None false window_defined.

Definition setAllowedOrigins (origins : list string) (b : Bridge) : Bridge :=
  mkBridge (messageHandlers b) origins (messageQueue b) (iframeRef b)
    (isReady b) (isInitialized b).

Definition setIframeRef (ref : option Ref) (b : Bridge) : Bridge :=
  mkBridge (messageHandlers b) (allowedOrigins b) (messageQueue b) ref
    (isReady b) (isInitialized b).

Definition on (messageType : string) (handler : H) (b : Bridge) : Bridge :=
  mkBridge (<[messageType := handler]> (messageHandlers b)) (allowedOrigins b)
    (messageQueue b) (iframeRef b) (isReady b) (isInitialized b).

Definition off (messageType : string) (b : Bridge) : Bridge :=
  mkBridge (delete messageType (messageHandlers b)) (allowedOrigins b)
    (messageQueue b) (iframeRef b) (isReady b) (isInitialized b).

Definition generateMessageId (now : Z) (rnd : string) : string :=
  "msg_" +:+ pretty now +:+ "_" +:+ rnd.

(** [sendMessage]: without a frame window the message is logged as an
    error and dropped. *)
Definition sendMessage (win : Ref → bool) (b : Bridge) (message : EditorMessage)
    : list Effect :=
  match iframeRef b with
  | Some r => if win r then [PostMessage r message] else []
  | None => []
  end.

(** The [while (queue.length > 0) { shift; sendMessage }] loop, on the
    queue it empties. *)
Fixpoint flushMessages (win : Ref → bool) (b : Bridge) (queue : list EditorMessage)
    : list Effect :=
  match queue with
  | [] => []
  | message :: rest => sendMessage win b message ++ flushMessages win b rest
  end.

Definition flushMessageQueue (win : Ref → bool) (b : Bridge) : Bridge * list Effect :=
  (mkBridge (messageHandlers b) (allowedOrigins b) [] (iframeRef b)
     (isReady b) (isInitialized b),
   flushMessages win b (messageQueue b)).

(** [{ ...message, messageId: this.generateMessageId(), timestamp: Date.now() }];
    the two reads of the clock in one call are taken at the same
    instant [now]. *)
Definition stamp (rnd : string) (now : Z) (message : EditorRequest) : EditorMessage :=
  mkEditorMessage (er_type message) (er_payload message)
    (generateMessageId now rnd) now.

Definition sendToIframe (win : Ref → bool) (rnd : string) (now : Z)
    (message : EditorRequest) (b : Bridge) : Bridge * list Effect :=
  if negb (isInitialized b) then (b, [])
  else
    let fullMessage := stamp rnd now message in
    if negb (isReady b) then
      (mkBridge (messageHandlers b) (allowedOrigins b)
         (messageQueue b ++ [fullMessage]) (iframeRef b)
         (isReady b) (isInitialized b), [])
    else (b, sendMessage win b fullMessage).

Definition originAllowed (b : Bridge) (origin : string) : bool :=
  negb (Nat.ltb 0 (List.length (allowedOrigins b))
        && negb (bool_decide (origin ∈ allowedOrigins b))).

Definition validStructure (message : IframeMessage) : bool :=
  negb (negb (truthy_str (im_type message))
        || negb (truthy_str (im_messageId message))
        || negb (truthy_num (im_timestamp message))).

(** The listener installed by [setupMessageListener].  [data = None]
    stands for an [event.data] without fields: reading [type] of a
    nullish value throws into the [catch], a primitive has no [type]. *)
Definition messageListener (win : Ref → bool) (origin : string)
    (data : option IframeMessage) (b : Bridge) : Bridge * list Effect :=
  if negb (originAllowed b origin) then (b, [])
  else match data with
       | None => (b, [])
       | Some message =>
         if negb (validStructure message) then (b, [])
         else
           let '(b1, posted) :=
             if bool_decide (im_type message = Some "IFRAME_READY") then
               flushMessageQueue win
                 (mkBridge (messageHandlers b) (allowedOrigins b) (messageQueue b)
                    (iframeRef b) true (isInitialized b))
             else (b, []) in
           let invoked :=
             match im_type message with
             | Some type =>
               match messageHandlers b1 !! type with
               | Some handler => [Invoke handler message]
               | None => []
               end
             | None => []
             end in
           (b1, posted ++ invoked)
       end.

Definition selectElement (selector : string) : EditorRequest :=
  mkEditorRequest SELECT_ELEMENT
    (mkEditorPayload None None (Some selector) JUndefined None None).

Definition updateContent (elementId : string) (content : JsValue) : EditorRequest :=
  mkEditorRequest UPDATE_CONTENT
    (mkEditorPayload None None None content None (Some elementId)).

Definition enterEditMode (elementId : string) : EditorRequest :=
  mkEditorRequest ENTER_EDIT_MODE
    (mkEditorPayload None None None JUndefined (Some edit) (Some elementId)).

Definition exitEditMode : EditorRequest :=
  mkEditorRequest EXIT_EDIT_MODE
    (mkEditorPayload None None None JUndefined (Some preview) None).

Definition destroy (b : Bridge) : Bridge :=
  mkBridge ∅ (allowedOrigins b) [] (iframeRef b) false (isInitialized b).

(** [getIframeBridge]: the singleton is only ever created in a browser. *)
Definition getIframeBridge (window_defined : bool) (iframeBridge : option Bridge)
    : option Bridge :=
  match iframeBridge with
  | Some b => Some b
  | None => if window_defined then Some (constructor true) else None
  end.

(** *** The bridge as a transition system *)

Inductive Call : Type :=
| CallSetAllowedOrigins (origins : list string)
| CallSetIframeRef (ref : option Ref)
| CallOn (messageType : string) (handler : H)
| CallOff (messageType : string)
| CallSendToIframe (win : Ref → bool) (rnd : string) (now : Z) (message : EditorRequest)
| MessageEvent (win : Ref → bool) (origin : string) (data : option IframeMessage)
| CallDestroy.

Definition step (b : Bridge) (c : Call) : Bridge * list Effect :=
  match c with
  | CallSetAllowedOrigins origins => (setAllowedOrigins origins b, [])
  | CallSetIframeRef ref => (setIframeRef ref b, [])
  | CallOn t h => (on t h b, [])
  | CallOff t => (off t b, [])
  | CallSendToIframe win rnd now message => sendToIframe win rnd now message b
  | MessageEvent win origin data =>
    if isInitialized b then messageListener win origin data b else (b, [])
  | CallDestroy => (destroy b, [])
  end.

Fixpoint run (b : Bridge) (calls : list Call) : Bridge * list Effect :=
  match calls with
  | [] => (b, [])
  | c :: rest =>
    let '(b1, e1) := step b c in
    let '(b2, e2) := run b1 rest in
    (b2, e1 ++ e2)
  end.

(** The messages posted to a frame window, in order. *)
Definition postedMessages (effects : list Effect) : list (Ref * EditorMessage) :=
  omap (λ e, match e with PostMessage r m => Some (r, m) | Invoke _ _ => None end)
    effects.

(** The handler invocations, in order. *)
Definition invocations (effects : list Effect) : list (H * IframeMessage) :=
  omap (λ e, match e with Invoke h m => Some (h, m) | PostMessage _ _ => None end)
    effects.

(** The stamped messages of the [sendToIframe] calls of a trace. *)
Definition sentIn (calls : list Call) : list EditorMessage :=
  omap (λ c, match c with
             | CallSendToIframe _ rnd now message => Some (stamp rnd now message)
             | _ => None
             end) calls.

(** Calls that neither signal readiness nor tear the bridge down. *)
Definition preReady (c : Call) : bool :=
  match c with
  | CallDestroy => false
  | MessageEvent _ _ (Some message) =>
    negb (bool_decide (im_type message = Some "IFRAME_READY"))
  | _ => true
  end.

Definition setsOrigins (c : Call) : bool :=
  match c with CallSetAllowedOrigins _ => true | _ => false end.

Definition setsNonEmptyOrigins (c : Call) : bool :=
  match c with
  | CallSetAllowedOrigins origins => Nat.ltb 0 (List.length origins)
  | _ => false
  end.

(** The call is [destroy()]. *)
Definition destroys (c : Call) : bool :=
  match c with CallDestroy => true | _ => false end.

(** Calls that neither tear the bridge down nor rebind the frame. *)
Definition keepsFrame (c : Call) : bool :=
  match c with
  | CallDestroy | CallSetIframeRef _ => false
  | _ => true
  end.

(** The frame [r] has a window whenever the call looks for one. *)
Definition windowAt (r : Ref) (c : Call) : bool :=
  match c with
  | CallSendToIframe win _ _ _ | MessageEvent win _ _ => win r
  | _ => true
  end.

End WithHandlers.

Arguments Bridge : clear implicits.
Arguments Effect : clear implicits.
Arguments Call : clear implicits.

End IframeBridge.

(** ** The editor store ([@/lib/stores/editorStore]) *)

Module editorStore.

Record EditorChange : Type := mkEditorChange {
  ec_id : string;
  ec_elementId : string;
  ec_type : ChangeType;
  ec_oldValue : JsValue;
  ec_newValue : JsValue;
  ec_timestamp : Z;
  ec_description : string;
  ec_scopeName : option string
}.

Record EditorHistoryState : Type := mkHistory {
  past : list (list EditorChange);
  present : list EditorChange;
  future : list (list EditorChange)
}.

Record EditorState : Type := mkEditorState {
  siteId : option string;
  draftChanges : gmap string ContentUpdate;
  originalContent : gmap string JsValue;
  publishedContent : gmap string JsValue;
  history : EditorHistoryState;
  isSaving : bool;
  isExecutingCommand : bool;
  selectedElement : option string;
  editingMode : EditingMode;
  iframeReady : bool;
  lastSavedAt : option Z;
  isLoadingDrafts : bool;
  hasUnsavedEdits : bool;
  hasUnpublishedChanges : bool
}.

Definition initialState : EditorState :=
  mkEditorState None ∅ ∅ ∅ (mkHistory [] [] []) false false None edit false None
    false false false.

Definition generateChangeId (now : Z) (rnd : string) : string :=
  "change_" +:+ pretty now +:+ "_" +:+ rnd.

(** The [default] branch of the switch is excluded by [ChangeType].
    [truncate30] counts bytes where JavaScript counts UTF-16 units. *)
Definition createChangeDescription (elementId : string) (type : ChangeType)
    (oldValue newValue : JsValue) : string :=
  match type with
  | text =>
    let truncatedOld :=
      match oldValue with JStr s => truncate30 s | _ => String_ oldValue end in
    let truncatedNew :=
      match newValue with JStr s => truncate30 s | _ => String_ newValue end in
    "Change " +:+ dq +:+ elementId +:+ dq +:+ " from " +:+ dq +:+ truncatedOld
      +:+ dq +:+ " to " +:+ dq +:+ truncatedNew +:+ dq
  | config | toggle =>
    "Change " +:+ elementId +:+ " from " +:+ template_of_json oldValue
      +:+ " to " +:+ template_of_json newValue
  | image =>
    "Change " +:+ dq +:+ elementId +:+ dq +:+ " image from " +:+ dq
      +:+ String_ oldValue +:+ dq +:+ " to " +:+ dq +:+ String_ newValue +:+ dq
  end.

Definition hasActualChanges (draftChanges : gmap string ContentUpdate)
    (originalContent : gmap string JsValue) : bool :=
  existsb
    (λ '(elementId, draftChange),
       let originalValue := default JUndefined (originalContent !! elementId) in
       strict_eq originalValue JUndefined
       || negb (strict_eq (cu_newValue draftChange) originalValue))
    (map_to_list draftChanges).

(** *** Atomic actions and the recording step *)

(** A side-effect handler: what it hands to the bridge's [sendToIframe]. *)
Definition Handler : Type := string → JsValue → list EditorRequest.

Record ActionHandlers : Type := mkActionHandlers {
  onTextChange : option Handler;
  onConfigChange : option Handler;
  onImageChange : option Handler;
  onToggleChange : option Handler
}.

(** The module-level [globalActionHandlers] is passed explicitly. *)
Definition noHandlers : ActionHandlers := mkActionHandlers None None None None.

Definition setActionHandlers (handlers : ActionHandlers) : ActionHandlers := handlers.

(** [initializeEditor(siteId, handlers?)]: the handlers, when given,
    replace the global ones; the state is reset. *)
Definition initializeEditor_handlers (handlers : option ActionHandlers)
    (globalActionHandlers : ActionHandlers) : ActionHandlers :=
  match handlers with
  | Some h => setActionHandlers h
  | None => globalActionHandlers
  end.

Definition initializeEditor (siteId' : string) (state : EditorState) : EditorState :=
  mkEditorState (Some siteId') ∅ ∅ ∅ (mkHistory [] [] [])
    (isSaving state) (isExecutingCommand state) None (editingMode state) false None
    false false false.

(** The [change] object built before the state update. *)
Definition toEditorChange (rnd : string) (now : Z) (update : ContentUpdate)
    : EditorChange :=
  mkEditorChange (generateChangeId now rnd) (cu_elementId update) (cu_type update)
    (cu_oldValue update) (cu_newValue update) (cu_timestamp update)
    (createChangeDescription (cu_elementId update) (cu_type update)
       (cu_oldValue update) (cu_newValue update))
    (Some (cu_elementId update)).

Definition addContentChange (rnd : string) (now : Z) (update : ContentUpdate)
    (state : EditorState) : EditorState :=
  let change := toEditorChange rnd now update in
  let newOriginalContent :=
    if bool_decide (is_Some (originalContent state !! cu_elementId update))
    then originalContent state
    else <[cu_elementId update := cu_oldValue update]> (originalContent state) in
  let newPublishedContent :=
    if bool_decide (is_Some (publishedContent state !! cu_elementId update))
    then publishedContent state
    else <[cu_elementId update := cu_oldValue update]> (publishedContent state) in
  let updatedChange :=
    with_oldValue update
      (Js.or (default JUndefined (publishedContent state !! cu_elementId update))
             (cu_oldValue update)) in
  let newDraftChanges := <[cu_elementId update := updatedChange]> (draftChanges state) in
  let newHistory :=
    mkHistory (past (history state) ++ [present (history state)]) [change] [] in
  mkEditorState (siteId state) newDraftChanges newOriginalContent newPublishedContent
    newHistory (isSaving state) (isExecutingCommand state) (selectedElement state)
    (editingMode state) (iframeReady state) (lastSavedAt state)
    (isLoadingDrafts state) true true.

(** [changeText], [changeConfig], [changeImage], [changeToggle]: run the
    handler if one is set, then record.  The awaited handlers of this
    repository complete without yielding to another event.  The value
    arguments are the run-time values, whatever their declared type. *)
Definition runHandler (h : option Handler) (elementId : string) (newValue : JsValue)
    : list EditorRequest :=
  match h with Some f => f elementId newValue | None => [] end.

Definition changeText (handlers : ActionHandlers) (rnd : string) (now : Z)
    (elementId : string) (newValue oldValue : JsValue) (state : EditorState)
    : EditorState * list EditorRequest :=
  (addContentChange rnd now (plainUpdate elementId text oldValue newValue now) state,
   runHandler (onTextChange handlers) elementId newValue).

Definition changeConfig (handlers : ActionHandlers) (rnd : string) (now : Z)
    (configKey : string) (newValue oldValue : JsValue) (state : EditorState)
    : EditorState * list EditorRequest :=
  (addContentChange rnd now (plainUpdate configKey config oldValue newValue now) state,
   runHandler (onConfigChange handlers) configKey newValue).

Definition changeImage (handlers : ActionHandlers) (rnd : string) (now : Z)
    (elementId : string) (newImageUrl oldImageUrl : JsValue) (state : EditorState)
    : EditorState * list EditorRequest :=
  (addContentChange rnd now
     (plainUpdate elementId image oldImageUrl newImageUrl now) state,
   runHandler (onImageChange handlers) elementId newImageUrl).

Definition changeToggle (handlers : ActionHandlers) (rnd : string) (now : Z)
    (elementId : string) (newValue oldValue : JsValue) (state : EditorState)
    : EditorState * list EditorRequest :=
  (addContentChange rnd now (plainUpdate elementId toggle oldValue newValue now) state,
   runHandler (onToggleChange handlers) elementId newValue).

(** [addBatchChanges]; each update comes with the random suffix and the
    clock reading of its [generateChangeId()]. *)
Definition addBatchChanges (updates : list (string * Z * ContentUpdate))
    (state : EditorState) : EditorState :=
  let changes :=
    map (λ '(rnd, now, update),
           mkEditorChange (generateChangeId now rnd) (cu_elementId update)
             (cu_type update) (cu_oldValue update) (cu_newValue update)
             (cu_timestamp update)
             (createChangeDescription (cu_elementId update) (cu_type update)
                JUndefined JUndefined)
             (Some (cu_elementId update)))
        updates in
  let newDraftChanges :=
    fold_left (λ m '(_, _, update), <[cu_elementId update := update]> m)
      updates (draftChanges state) in
  let newHistory :=
    mkHistory (past (history state) ++ [present (history state)]) changes [] in
  mkEditorState (siteId state) newDraftChanges (originalContent state)
    (publishedContent state) newHistory (isSaving state) (isExecutingCommand state)
    (selectedElement state) (editingMode state) (iframeReady state)
    (lastSavedAt state) (isLoadingDrafts state) (hasUnsavedEdits state)
    (hasUnpublishedChanges state).

Definition markDraftsSaved (now : Z) (state : EditorState) : EditorState :=
  mkEditorState (siteId state) (draftChanges state) (originalContent state)
    (publishedContent state) (history state) (isSaving state)
    (isExecutingCommand state) (selectedElement state) (editingMode state)
    (iframeReady state) (Some now) (isLoadingDrafts state) false
    (hasUnpublishedChanges state).

Definition markDraftsPublished (state : EditorState) : EditorState :=
  let newPublishedContent :=
    map_fold (λ elementId change (m : gmap string JsValue),
                <[elementId := cu_newValue change]> m)
      (publishedContent state) (draftChanges state) in
  mkEditorState (siteId state) (draftChanges state) (originalContent state)
    newPublishedContent (history state) (isSaving state)
    (isExecutingCommand state) (selectedElement state) (editingMode state)
    (iframeReady state) (lastSavedAt state) (isLoadingDrafts state)
    (hasUnsavedEdits state) false.

Definition clearEditor (state : EditorState) : EditorState :=
  mkEditorState (siteId state) ∅ ∅ ∅ (mkHistory [] [] []) (isSaving state)
    (isExecutingCommand state) (selectedElement state) (editingMode state)
    (iframeReady state) (lastSavedAt state) (isLoadingDrafts state) false false.

Definition setSavingState (isSaving' : bool) (state : EditorState) : EditorState :=
  mkEditorState (siteId state) (draftChanges state) (originalContent state)
    (publishedContent state) (history state) isSaving'
    (isExecutingCommand state) (selectedElement state) (editingMode state)
    (iframeReady state) (lastSavedAt state) (isLoadingDrafts state)
    (hasUnsavedEdits state) (hasUnpublishedChanges state).

Definition setIframeReady (ready : bool) (state : EditorState) : EditorState :=
  mkEditorState (siteId state) (draftChanges state) (originalContent state)
    (publishedContent state) (history state) (isSaving state)
    (isExecutingCommand state) (selectedElement state) (editingMode state)
    ready (lastSavedAt state) (isLoadingDrafts state)
    (hasUnsavedEdits state) (hasUnpublishedChanges state).

Definition setSelectedElement (elementId : option string) (state : EditorState)
    : EditorState :=
  mkEditorState (siteId state) (draftChanges state) (originalContent state)
    (publishedContent state) (history state) (isSaving state)
    (isExecutingCommand state) elementId (editingMode state)
    (iframeReady state) (lastSavedAt state) (isLoadingDrafts state)
    (hasUnsavedEdits state) (hasUnpublishedChanges state).

Definition setEditingMode (mode : EditingMode) (state : EditorState) : EditorState :=
  mkEditorState (siteId state) (draftChanges state) (originalContent state)
    (publishedContent state) (history state) (isSaving state)
    (isExecutingCommand state) (selectedElement state) mode
    (iframeReady state) (lastSavedAt state) (isLoadingDrafts state)
    (hasUnsavedEdits state) (hasUnpublishedChanges state).

(** [editorStore.setState(prev => ({ ...prev, isExecutingCommand }))],
    used by undo and redo. *)
Definition setExecutingCommand (flag : bool) (state : EditorState) : EditorState :=
  mkEditorState (siteId state) (draftChanges state) (originalContent state)
    (publishedContent state) (history state) (isSaving state)
    flag (selectedElement state) (editingMode state)
    (iframeReady state) (lastSavedAt state) (isLoadingDrafts state)
    (hasUnsavedEdits state) (hasUnpublishedChanges state).

(** *** Loading persisted content *)

Inductive BlockStatus : Type := status_draft | status_published | status_empty.

#[global] Instance BlockStatus_eq_dec : EqDecision BlockStatus.
Proof. solve_decision. Defined.

(** [DraftContentBlock]; [None] is an absent or [null] field. *)
Record DraftContentBlock : Type := mkBlock {
  blk_value : string;
  blk_publishedValue : option string;
  blk_draftValue : option string;
  blk_status : BlockStatus;
  blk_hasUnpublishedChanges : bool;
  blk_publishedAt : option string
}.

Record SiteConfig : Type := mkSiteConfig {
  brand_color : string;
  cta_button_enabled : bool
}.

Record Metadata : Type := mkMetadata {
  lastUpdated : option string;
  totalBlocks : Z;
  draftBlocks : Z;
  publishedBlocks : Z;
  unpublishedChanges : Z;
  cacheKey : string
}.

(** [content] lists pages and blocks in [Object.entries] order. *)
Record DraftContentResponse : Type := mkResponse {
  organization_slug : string;
  organization_name : string;
  resp_config : SiteConfig;
  content : list (string * list (string * DraftContentBlock));
  metadata : Metadata
}.

(** A block of the file-based format: a string, or any other JSON value
    given by its [JSON.stringify] image. *)
Inductive RawBlock : Type :=
| RawString (s : string)
| RawOther (stringified : string).

Definition rawToString (value : RawBlock) : string :=
  match value with RawString s => s | RawOther j => j end.

Record SiteData : Type := mkSiteData {
  site_slug : string;
  site_name : string;
  site_config : SiteConfig;
  pages : list (string * list (string * RawBlock));
  lastModified : option string
}.

(** The three maps rebuilt by the load. *)
Record ContentMaps : Type := mkMaps {
  newDraftChanges : gmap string ContentUpdate;
  newOriginalContent : gmap string JsValue;
  newPublishedContent : gmap string JsValue
}.

Definition shouldImport (blockData : DraftContentBlock) : bool :=
  blk_hasUnpublishedChanges blockData
  || bool_decide (blk_status blockData = status_draft).

Section Clock.

(** [new Date(s).getTime()] and [new Date(t).toISOString()]. *)
Variable Date_getTime : string → Z.
Variable Date_toISOString : Z → string.

(** The pair [(oldValue, newValue)] chosen for an imported block. *)
Definition blockValues (blockData : DraftContentBlock) : JsValue * JsValue :=
  if truthy_str (blk_publishedValue blockData)
     && truthy_str (blk_draftValue blockData) then
    (JStr (default "" (blk_publishedValue blockData)),
     JStr (default "" (blk_draftValue blockData)))
  else if truthy_str (blk_draftValue blockData)
          && negb (truthy_str (blk_publishedValue blockData)) then
    (JStr "", JStr (default "" (blk_draftValue blockData)))
  else
    (JStr (if bool_decide (blk_status blockData = status_published)
           then blk_value blockData else ""),
     JStr (blk_value blockData)).

(** [blockData.publishedValue || '']. *)
Definition publishedOrEmpty (blockData : DraftContentBlock) : JsValue :=
  JStr (if truthy_str (blk_publishedValue blockData)
        then default "" (blk_publishedValue blockData) else "").

(** One iteration of the inner loop over the blocks of a page. *)
Definition importBlock (now : Z) (maps : ContentMaps)
    (entry : string * DraftContentBlock) : ContentMaps :=
  let '(blockKey, blockData) := entry in
  if shouldImport blockData then
    let '(oldValue, newValue) := blockValues blockData in
    let contentUpdate :=
      plainUpdate blockKey text oldValue newValue
        (if truthy_str (blk_publishedAt blockData)
         then Date_getTime (default "" (blk_publishedAt blockData))
         else now) in
    mkMaps (<[blockKey := contentUpdate]> (newDraftChanges maps))
           (<[blockKey := publishedOrEmpty blockData]> (newOriginalContent maps))
           (<[blockKey := publishedOrEmpty blockData]> (newPublishedContent maps))
  else maps.

(** The inner loop over the blocks of one page, and both loops from
    three empty maps. *)
Definition importBlocks (now : Z) (blocks : list (string * DraftContentBlock))
    (maps : ContentMaps) : ContentMaps :=
  fold_left (importBlock now) blocks maps.

Definition importContent (now : Z)
    (content : list (string * list (string * DraftContentBlock))) : ContentMaps :=
  fold_left (λ maps '(_, blocks), importBlocks now blocks maps)
    content (mkMaps ∅ ∅ ∅).

(** Conversion of the file-based format. *)
Definition convertBlock (now : Z) (lastModified' : option string) (value : RawBlock)
    : DraftContentBlock :=
  mkBlock (rawToString value) (Some (rawToString value)) None status_published false
    (Some (if truthy_str lastModified' then default "" lastModified'
           else Date_toISOString now)).

Definition convertSiteData (siteId' : string) (now : Z) (siteData : SiteData)
    : DraftContentResponse :=
  mkResponse (site_slug siteData) (site_name siteData) (site_config siteData)
    (map (λ '(pageSlug, blocks),
           (pageSlug,
            map (λ '(blockKey, value),
                   (blockKey, convertBlock now (lastModified siteData) value))
                blocks))
         (pages siteData))
    (mkMetadata
       (if truthy_str (lastModified siteData) then lastModified siteData else None)
       0 0 0 0 siteId').

Definition setLoadingDrafts (flag : bool) (state : EditorState) : EditorState :=
  mkEditorState (siteId state) (draftChanges state) (originalContent state)
    (publishedContent state) (history state) (isSaving state)
    (isExecutingCommand state) (selectedElement state) (editingMode state)
    (iframeReady state) (lastSavedAt state) flag
    (hasUnsavedEdits state) (hasUnpublishedChanges state).

(** The state update that installs the reconciled maps. *)
Definition installDrafts (draftData : DraftContentResponse) (maps : ContentMaps)
    (state : EditorState) : EditorState :=
  mkEditorState (siteId state) (newDraftChanges maps) (newOriginalContent maps)
    (newPublishedContent maps) (history state) (isSaving state)
    (isExecutingCommand state) (selectedElement state) (editingMode state)
    (iframeReady state)
    (if truthy_str (lastUpdated (metadata draftData))
     then Some (Date_getTime (default "" (lastUpdated (metadata draftData))))
     else None)
    false false
    (Nat.ltb 0 (size (newDraftChanges maps))).

(** [loadDraftContent] after the awaited fetch: [response] is what the
    fetch produced, [None] when it failed, was not ok, or did not
    parse; [state] is the store at that moment. *)
Definition loadDraftContent_finish (siteId' : string) (now : Z)
    (response : option SiteData) (state : EditorState)
    : EditorState * option DraftContentResponse :=
  match response with
  | None => (setLoadingDrafts false state, None)
  | Some siteData =>
    let draftData := convertSiteData siteId' now siteData in
    (installDrafts draftData (importContent now (content draftData)) state,
     Some draftData)
  end.

(** The whole action when no other update interleaves with the fetch. *)
Definition loadDraftContent (siteId' : string) (now : Z) (response : option SiteData)
    (state : EditorState) : EditorState * option DraftContentResponse :=
  loadDraftContent_finish siteId' now response (setLoadingDrafts true state).

End Clock.

(** *** Selectors *)

Definition useCanUndo (state : EditorState) : bool :=
  Nat.ltb 0 (length (past (history state))) && negb (isExecutingCommand state).

Definition useCanRedo (state : EditorState) : bool :=
  Nat.ltb 0 (length (future (history state))) && negb (isExecutingCommand state).

Definition useHasUnsavedChanges (state : EditorState) : bool := hasUnsavedEdits state.

Definition describeChanges (changes : list EditorChange) : string :=
  match changes with
  | [change] => ec_description change
  | _ => pretty (length changes) +:+ " changes"
  end.

Definition useUndoDescription (state : EditorState) : option string :=
  match last (past (history state)) with
  | None => None
  | Some lastChanges => Some (describeChanges lastChanges)
  end.

Definition useRedoDescription (state : EditorState) : option string :=
  match future (history state) with
  | [] => None
  | nextChanges :: _ => Some (describeChanges nextChanges)
  end.

(** *** A sequence of recorded changes *)

(** One call of [addContentChange], with what it reads from the
    environment. *)
Record Recording : Type := mkRecording {
  rec_rnd : string;
  rec_now : Z;
  rec_update : ContentUpdate
}.

Definition record (state : EditorState) (r : Recording) : EditorState :=
  addContentChange (rec_rnd r) (rec_now r) (rec_update r) state.

Definition recordAll (state : EditorState) (rs : list Recording) : EditorState :=
  fold_left record rs state.

Definition recordedChange (r : Recording) : EditorChange :=
  toEditorChange (rec_rnd r) (rec_now r) (rec_update r).

(** A map that a recording seeds with the old value of the first change of
    an element. *)
Definition seededOnce (proj : EditorState → gmap string JsValue) : Prop :=
  ∀ state r k,
    proj (record state r) !! k
    = match proj state !! k with
      | Some v => Some v
      | None =>
        if decide (cu_elementId (rec_update r) = k)
        then Some (cu_oldValue (rec_update r)) else None
      end.

End editorStore.

(** ** The [useEditorState] hook *)

Module useEditorState.
Import editorStore.

(** The store values a render of the hook has read.  The callbacks built
    in that render ([handleContentChanged], [saveDraft], the wrapped
    atomic actions) see these values, not the store of the moment they
    run; a callback of the latest render sees [render state]. *)
Record Render : Type := mkRender {
  r_draftChanges : gmap string ContentUpdate;
  r_hasUnsavedChanges : bool;
  r_isExecutingCommand : bool
}.

Definition render (state : EditorState) : Render :=
  mkRender (draftChanges state) (useHasUnsavedChanges state) (isExecutingCommand state).

(** The action handlers of the hook; [bridge] tells whether the bridge
    singleton exists. *)
Definition handleTextChange (bridge : bool) : Handler :=
  λ elementId newValue,
    if bridge then [IframeBridge.updateContent elementId newValue] else [].

Definition handleConfigChange : Handler := λ _ _, [].

Definition handleImageChange (bridge : bool) : Handler :=
  λ elementId newImageUrl,
    if bridge then [IframeBridge.updateContent elementId newImageUrl] else [].

Definition handleToggleChange : Handler := λ _ _, [].

Definition actionHandlers (bridge : bool) : ActionHandlers :=
  mkActionHandlers (Some (handleTextChange bridge)) (Some handleConfigChange)
    (Some (handleImageChange bridge)) (Some handleToggleChange).

(** The value taken as the old one of a reported change. *)
Definition actualOldValue (r : Render) (elementId : string) (oldContent : JsValue)
    : JsValue :=
  if negb (strict_eq oldContent JUndefined) then oldContent
  else match r_draftChanges r !! elementId with
       | Some currentDraftChange => cu_newValue currentDraftChange
       | None => JStr ""
       end.

(** The [switch (type)] of the handler. *)
Definition changeTypeOfTag (type : string) : option ChangeType :=
  if bool_decide (type = "text") then Some text
  else if bool_decide (type = "config") then Some config
  else if bool_decide (type = "toggle") then Some toggle
  else if bool_decide (type = "image") then Some image
  else None.

(** The handler registered for [CONTENT_CHANGED]. *)
Definition handleContentChanged (r : Render) (rnd : string) (now : Z)
    (message : IframeMessage) (state : EditorState) : EditorState :=
  if r_isExecutingCommand r then state
  else
    match im_payload message with
    | None => state
    | Some payload =>
      match ip_elementId payload with
      | None => state
      | Some elementId =>
        if truthy_str (Some elementId)
           && negb (strict_eq (ip_newContent payload) JUndefined) then
          let type := default "text" (ip_type payload) in
          let old := actualOldValue r elementId (ip_oldContent payload) in
          if strict_eq old (ip_newContent payload) then state
          else
            match changeTypeOfTag type with
            | Some t =>
              addContentChange rnd now
                (plainUpdate elementId t old (ip_newContent payload) now) state
            | None => state
            end
        else state
      end
    end.

(** [undo]: the new state and the requests handed to [sendToIframe].
    The function runs to completion without awaiting. *)
Definition undoDraftChanges (now : Z) (present' : list EditorChange)
    (drafts : gmap string ContentUpdate) : gmap string ContentUpdate :=
  fold_left
    (λ newDrafts change,
       match newDrafts !! ec_elementId change with
       | Some existingChange =>
         <[ec_elementId change := with_newValue existingChange (ec_oldValue change) now]>
           newDrafts
       | None => newDrafts
       end)
    present' drafts.

Definition undo_finish (bridge : bool) (now : Z) (state prev : EditorState)
    : EditorState * list EditorRequest :=
  let previousChanges := default [] (last (past (history state))) in
  let newPast := removelast (past (history state)) in
  let newFuture := present (history state) :: future (history state) in
  let requests :=
    if bridge then
      map (λ change,
             IframeBridge.updateContent (ec_elementId change) (ec_oldValue change))
          (rev (present (history state)))
    else [] in
  let newDraftChanges :=
    undoDraftChanges now (present (history state)) (draftChanges state) in
  (mkEditorState (siteId prev) newDraftChanges (originalContent prev)
     (publishedContent prev) (mkHistory newPast previousChanges newFuture)
     (isSaving prev) false (selectedElement prev) (editingMode prev)
     (iframeReady prev) (lastSavedAt prev) (isLoadingDrafts prev)
     (hasUnsavedEdits prev) (hasUnpublishedChanges prev),
   requests).

(** The store between the two updates of an undo or redo. *)
Definition inFlight (state : EditorState) : EditorState :=
  setExecutingCommand true state.

Definition undo (bridge : bool) (now : Z) (state : EditorState)
    : EditorState * list EditorRequest :=
  if Nat.eqb (length (past (history state))) 0 || isExecutingCommand state
  then (state, [])
  else undo_finish bridge now state (inFlight state).

Definition redoDraftChanges (now : Z) (nextChanges : list EditorChange)
    (drafts : gmap string ContentUpdate) : gmap string ContentUpdate :=
  fold_left
    (λ newDrafts change,
       match newDrafts !! ec_elementId change with
       | Some existingChange =>
         <[ec_elementId change := with_newValue existingChange (ec_newValue change) now]>
           newDrafts
       | None =>
         <[ec_elementId change :=
             plainUpdate (ec_elementId change) (ec_type change) (ec_oldValue change)
               (ec_newValue change) now]> newDrafts
       end)
    nextChanges drafts.

Definition redo_finish (bridge : bool) (now : Z) (state prev : EditorState)
    : EditorState * list EditorRequest :=
  let nextChanges := default [] (head (future (history state))) in
  let newPast := past (history state) ++ [present (history state)] in
  let newFuture := tail (future (history state)) in
  let requests :=
    if bridge then
      map (λ change,
             IframeBridge.updateContent (ec_elementId change) (ec_newValue change))
          nextChanges
    else [] in
  let newDraftChanges := redoDraftChanges now nextChanges (draftChanges state) in
  (mkEditorState (siteId prev) newDraftChanges (originalContent prev)
     (publishedContent prev) (mkHistory newPast nextChanges newFuture)
     (isSaving prev) false (selectedElement prev) (editingMode prev)
     (iframeReady prev) (lastSavedAt prev) (isLoadingDrafts prev)
     (hasUnsavedEdits prev) (hasUnpublishedChanges prev),
   requests).

Definition redo (bridge : bool) (now : Z) (state : EditorState)
    : EditorState * list EditorRequest :=
  if Nat.eqb (length (future (history state))) 0 || isExecutingCommand state
  then (state, [])
  else redo_finish bridge now state (inFlight state).

(** [saveDraft]: [response_ok] is the outcome of the POST.  The request
    body built from the draft values is not part of the model. *)
Inductive SaveOutcome : Type := SaveSkipped | SaveDone | SaveThrew.

Definition saveDraft (r : Render) (now : Z) (response_ok : bool) (state : EditorState)
    : EditorState * SaveOutcome :=
  if negb (r_hasUnsavedChanges r) then (state, SaveSkipped)
  else
    let saving := setSavingState true state in
    if response_ok then (setSavingState false (markDraftsSaved now saving), SaveDone)
    else (setSavingState false saving, SaveThrew).

Definition clearDrafts : EditorState → EditorState := clearEditor.
Definition markPublished : EditorState → EditorState := markDraftsPublished.
Definition addChange : string → Z → ContentUpdate → EditorState → EditorState :=
  addContentChange.

(** The wrapped atomic actions returned by the hook: the old value is
    the draft value the render has seen. *)
Definition currentValue (r : Render) (elementId : string) (fallback : JsValue) : JsValue :=
  match r_draftChanges r !! elementId with
  | Some currentChange => cu_newValue currentChange
  | None => fallback
  end.

Definition changeText (r : Render) (handlers : ActionHandlers) (rnd : string) (now : Z)
    (elementId : string) (newValue : JsValue) :=
  editorStore.changeText handlers rnd now elementId newValue
    (currentValue r elementId (JStr "")).

Definition changeConfig (r : Render) (handlers : ActionHandlers) (rnd : string) (now : Z)
    (configKey : string) (newValue : JsValue) :=
  editorStore.changeConfig handlers rnd now configKey newValue
    (currentValue r configKey (JStr "")).

Definition changeImage (r : Render) (handlers : ActionHandlers) (rnd : string) (now : Z)
    (elementId : string) (newImageUrl : JsValue) :=
  editorStore.changeImage handlers rnd now elementId newImageUrl
    (currentValue r elementId (JStr "")).

Definition changeToggle (r : Render) (handlers : ActionHandlers) (rnd : string) (now : Z)
    (elementId : string) (newValue : JsValue) :=
  editorStore.changeToggle handlers rnd now elementId newValue
    (currentValue r elementId (JBool false)).

(** *** Recording, saving and publishing as actions on the store *)

Inductive Action : Type :=
| Record_ (r : Recording)
| SaveDraft (now : Z) (response_ok : bool)
| MarkDraftsSaved (now : Z)
| MarkDraftsPublished.

(** [saveDraft] is the callback of the latest render. *)
Definition act (state : EditorState) (a : Action) : EditorState :=
  match a with
  | Record_ r => record state r
  | SaveDraft now response_ok => (saveDraft (render state) now response_ok state).1
  | MarkDraftsSaved now => markDraftsSaved now state
  | MarkDraftsPublished => markDraftsPublished state
  end.

Definition actAll (state : EditorState) (actions : list Action) : EditorState :=
  fold_left act actions state.

Definition isPublish (a : Action) : bool :=
  match a with MarkDraftsPublished => true | _ => false end.

(** The confirmation that the preview agent posts after it has applied an
    [UPDATE_CONTENT] for [elementId] with [content]. *)
Definition confirmation (elementId : string) (content : JsValue) (messageId : string)
    (timestamp : Z) : IframeMessage :=
  mkIframeMessage (Some "CONTENT_CHANGED")
    (Some (mkIframePayload None JUndefined None None (Some elementId) content
             JUndefined None))
    (Some messageId) (Some timestamp).

(** The type tags the handler of [CONTENT_CHANGED] knows. *)
Definition knownTags : list string := ["text"; "config"; "toggle"; "image"].

(** Actions that clear the unsaved flag, and actions that set it. *)
Definition isSave (a : Action) : bool :=
  match a with
  | SaveDraft _ true | MarkDraftsSaved _ => true
  | _ => false
  end.

Definition isRecord (a : Action) : bool :=
  match a with Record_ _ => true | _ => false end.

(** Several undos in a row, each with its clock reading. *)
Definition undoAll (bridge : bool) (nows : list Z) (state : EditorState) : EditorState :=
  fold_left (λ s now, (undo bridge now s).1) nows state.

(** [loadDrafts]: after a load that produced data, and with a bridge, the
    current value of every block with draft changes is sent to the frame. *)
Definition draftRequests (draftData : DraftContentResponse) : list EditorRequest :=
  flat_map
    (λ '(_, blocks),
       flat_map
         (λ '(blockKey, blockData),
            if shouldImport blockData
            then [IframeBridge.updateContent blockKey (JStr (blk_value blockData))]
            else [])
         blocks)
    (content draftData).

Definition loadDrafts (Date_getTime : string → Z) (Date_toISOString : Z → string)
    (bridge : bool) (organizationSlug : string) (now : Z) (response : option SiteData)
    (state : EditorState) : EditorState * list EditorRequest :=
  let '(state', draftData) :=
    loadDraftContent Date_getTime Date_toISOString organizationSlug now response state in
  (state',
   match draftData with
   | Some draftData => if bridge then draftRequests draftData else []
   | None => []
   end).

End useEditorState.

(** ** The previewed document *)

Module Dom.

Definition NodeId : Type := nat.

(** A document tree.  An element carries its identity, its upper-case
    tag name and its attributes; reflected properties ([title], [src],
    [alt], [contentEditable]) are read and written as attributes. *)
#[warnings="-register-all"]
Inductive Node : Type :=
| TextNode (data : string)
| ElementNode (id : NodeId) (tagName : string) (attributes : gmap string string)
    (children : list Node).

Definition Document : Type := list Node.

Definition node_id (n : Node) : option NodeId :=
  match n with TextNode _ => None | ElementNode id _ _ _ => Some id end.

Definition tagName (n : Node) : string :=
  match n with TextNode _ => "" | ElementNode _ tag _ _ => tag end.

(** [getAttribute]; [None] is [null]. *)
Definition getAttribute (name : string) (n : Node) : option string :=
  match n with TextNode _ => None | ElementNode _ _ attrs _ => attrs !! name end.

Fixpoint textContent (n : Node) : string :=
  match n with
  | TextNode data => data
  | ElementNode _ _ _ children => String.concat "" (map textContent children)
  end.

(** The element and its descendant elements, in document order. *)
Fixpoint elementsOf (n : Node) : list Node :=
  match n with
  | TextNode _ => []
  | ElementNode _ _ _ children => n :: flat_map elementsOf children
  end.

Definition allElements (doc : Document) : list Node := flat_map elementsOf doc.

(** The inclusive ancestors of the element [target], nearest first. *)
Fixpoint pathTo (target : NodeId) (n : Node) : option (list Node) :=
  match n with
  | TextNode _ => None
  | ElementNode id _ _ children =>
    if Nat.eqb id target then Some [n]
    else
      (fix among (l : list Node) : option (list Node) :=
         match l with
         | [] => None
         | c :: rest =>
           match pathTo target c with
           | Some p => Some (p ++ [n])
           | None => among rest
           end
         end) children
  end.

Fixpoint ancestorsIn (target : NodeId) (doc : Document) : list Node :=
  match doc with
  | [] => []
  | n :: rest =>
    match pathTo target n with
    | Some p => p
    | None => ancestorsIn target rest
    end
  end.

Definition getElement (doc : Document) (target : NodeId) : option Node :=
  head (ancestorsIn target doc).

(** Rewrite the element [target] with [f]. *)
Fixpoint updateNode (target : NodeId) (f : Node → Node) (n : Node) : Node :=
  match n with
  | TextNode _ => n
  | ElementNode id tag attrs children =>
    if Nat.eqb id target then f n
    else ElementNode id tag attrs (map (updateNode target f) children)
  end.

Definition updateElement (target : NodeId) (f : Node → Node) (doc : Document)
    : Document :=
  map (updateNode target f) doc.

Definition setAttribute (name value : string) (n : Node) : Node :=
  match n with
  | TextNode _ => n
  | ElementNode id tag attrs children =>
    ElementNode id tag (<[name := value]> attrs) children
  end.

Definition removeAttribute (name : string) (n : Node) : Node :=
  match n with
  | TextNode _ => n
  | ElementNode id tag attrs children => ElementNode id tag (delete name attrs) children
  end.

(** [element.textContent = s]: the children are replaced by one text
    node, by none when [s] is empty. *)
Definition setTextContent (s : string) (n : Node) : Node :=
  match n with
  | TextNode _ => n
  | ElementNode id tag attrs _ =>
    ElementNode id tag attrs (if String.eqb s "" then [] else [TextNode s])
  end.

(** *** The selectors written in the agent *)

Inductive Simple : Type :=
| ByTag (tag : string)
| HasAttr (name : string)
| AttrEq (name value : string).

(** A comma-separated selector list. *)
Definition Selector : Type := list Simple.

Definition matchesSimple (s : Simple) (n : Node) : bool :=
  match s with
  | ByTag tag => bool_decide (tagName n = tag)
  | HasAttr name => bool_decide (is_Some (getAttribute name n))
  | AttrEq name value => bool_decide (getAttribute name n = Some value)
  end.

Definition matches (sel : Selector) (n : Node) : bool :=
  existsb (λ s, matchesSimple s n) sel.

Definition querySelectorAll (sel : Selector) (doc : Document) : list Node :=
  filter (λ n, matches sel n = true) (allElements doc).

Definition querySelector (sel : Selector) (doc : Document) : option Node :=
  head (querySelectorAll sel doc).

(** [target.closest(sel)]. *)
Definition closest (sel : Selector) (target : NodeId) (doc : Document) : option Node :=
  head (filter (λ n, matches sel n = true) (ancestorsIn target doc)).

(** ASCII white space, which separates the tokens of a class attribute. *)
Definition isSpace (c : ascii) : bool :=
  let n := N_of_ascii c in
  N.eqb n 32 || N.eqb n 9 || N.eqb n 10 || N.eqb n 12 || N.eqb n 13.

Fixpoint tokens (current : string) (s : string) : list string :=
  match s with
  | EmptyString => if String.eqb current "" then [] else [current]
  | String c rest =>
    if isSpace c then
      (if String.eqb current "" then [] else [current]) ++ tokens "" rest
    else tokens (current +:+ String c EmptyString) rest
  end.

(** [element.classList.contains(token)]. *)
Definition classListContains (token : string) (n : Node) : bool :=
  bool_decide (token ∈ tokens "" (default "" (getAttribute "class" n))).

(** [haystack.includes(needle)]. *)
Fixpoint includes (needle haystack : string) : bool :=
  String.prefix needle haystack
  || match haystack with
     | EmptyString => false
     | String _ rest => includes needle rest
     end.

End Dom.

(** ** templates/business/src/lib/editor-bridge.ts *)

Module ClientEditorBridge.
Import Dom.

(** The fields of the [ClientEditorBridge] instance. *)
Record Agent : Type := mkAgent {
  isInEditorMode : bool;
  editorOrigin : option string;
  selectedElement : option NodeId
}.

(** The page the agent runs in: the document, the focused element, the
    element whose contents the selection range covers, and the elements
    on which [enterEditMode] has added a blur or keydown listener (one
    entry per listener added). *)
Record Page : Type := mkPage {
  document : Document;
  activeElement : option NodeId;
  selectionRange : option NodeId;
  blurListeners : list NodeId;
  keydownListeners : list NodeId
}.

(** What the agent does to the outside of the page:
    [window.parent.postMessage(m, '*')] and the two calls on a click
    event. *)
Inductive Effect : Type :=
| PostToParent (m : IframeMessage)
| PreventDefault
| StopPropagation.

Record World : Type := mkWorld {
  agent : Agent;
  page : Page;
  effects : list Effect
}.

Definition setAgent (a : Agent) (w : World) : World := mkWorld a (page w) (effects w).
Definition setPage (p : Page) (w : World) : World := mkWorld (agent w) p (effects w).
Definition emit (e : Effect) (w : World) : World :=
  mkWorld (agent w) (page w) (effects w ++ [e]).

Definition setDocument (doc : Document) (w : World) : World :=
  setPage (mkPage doc (activeElement (page w)) (selectionRange (page w))
             (blurListeners (page w)) (keydownListeners (page w))) w.

Definition onElement (target : NodeId) (f : Node → Node) (w : World) : World :=
  setDocument (updateElement target f (document (page w))) w.

(** What one event reads from the clock and the random generator; every
    message sent while handling the event is stamped with it. *)
Record Stamp : Type := mkStamp { rnd : string; now : Z }.

Definition sendToEditor (st : Stamp) (type : string) (payload : IframePayload)
    (w : World) : World :=
  if negb (isInEditorMode (agent w)) then w
  else
    emit (PostToParent
            (mkIframeMessage (Some type) (Some payload)
               (Some ("msg_" +:+ pretty (now st) +:+ "_" +:+ rnd st))
               (Some (now st)))) w.

Definition editableSelector : Selector := [AttrEq "data-editable" "true"].

Definition interactiveSelector : Selector :=
  [ByTag "BUTTON"; ByTag "A"; ByTag "INPUT"; ByTag "SELECT"; ByTag "TEXTAREA";
   AttrEq "role" "button"; HasAttr "data-editable"].

(** Identifiers that denote themselves when spliced between the quotes
    of [`[data-editor-id="${elementId}"]`]: no quote, no backslash, no
    line break and no NUL. *)
Definition plainChar (c : ascii) : bool :=
  let n := N_of_ascii c in
  negb (N.eqb n 34 || N.eqb n 92 || N.eqb n 10 || N.eqb n 12 || N.eqb n 13
        || N.eqb n 0).

Fixpoint plainId (s : string) : bool :=
  match s with
  | EmptyString => true
  | String c rest => plainChar c && plainId rest
  end.

(** The selector [`[data-editor-id="${elementId}"]`] for an identifier
    that is [plainId]: it matches the elements whose attribute is exactly
    the identifier.  For other identifiers the spliced text is another
    selector, or none. *)
Definition editorIdSelector (elementId : string) : Selector :=
  [AttrEq "data-editor-id" elementId].

Definition highlightEditableElements (w : World) : World :=
  fold_left
    (λ w element,
       match node_id element with
       | Some id => onElement id (setAttribute "title" "Click to edit") w
       | None => w
       end)
    (querySelectorAll editableSelector (document (page w))) w.

Definition deselectElement (st : Stamp) (w : World) : World :=
  let w1 :=
    match selectedElement (agent w) with
    | Some sel =>
      setAgent (mkAgent (isInEditorMode (agent w)) (editorOrigin (agent w)) None)
        (onElement sel (removeAttribute "data-editor-selected") w)
    | None => w
    end in
  sendToEditor st "ELEMENT_DESELECTED" emptyIframePayload w1.

(** [exitEditMode]: every element that is editable when the call starts
    is made non-editable and reported. *)
Definition exitEditMode (st : Stamp) (w : World) : World :=
  fold_left
    (λ w element,
       match node_id element with
       | Some id =>
         let w1 := onElement id (setAttribute "contenteditable" "false") w in
         match getAttribute "data-editor-id" element with
         | Some elementId =>
           if truthy_str (Some elementId) then
             sendToEditor st "CONTENT_CHANGED"
               (mkIframePayload None JUndefined None None (Some elementId)
                  (JStr (textContent element)) JUndefined None) w1
           else w1
         | None => w1
         end
       | None => w
       end)
    (querySelectorAll [AttrEq "contenteditable" "true"] (document (page w))) w.

(** The blur event on [target]: each listener added to it runs
    [exitEditMode]. *)
Definition dispatchBlur (st : Stamp) (target : NodeId) (w : World) : World :=
  fold_left (λ w _, exitEditMode st w)
    (filter (λ id, id = target) (blurListeners (page w))) w.

(** [element.blur()]. *)
Definition blur (st : Stamp) (target : NodeId) (w : World) : World :=
  if bool_decide (activeElement (page w) = Some target) then
    dispatchBlur st target
      (setPage (mkPage (document (page w)) None (selectionRange (page w))
                  (blurListeners (page w)) (keydownListeners (page w))) w)
  else w.

(** [element.focus()]: the element that loses the focus gets a blur
    event. *)
Definition focus (st : Stamp) (target : NodeId) (w : World) : World :=
  if bool_decide (activeElement (page w) = Some target) then w
  else
    let w1 :=
      setPage (mkPage (document (page w)) (Some target) (selectionRange (page w))
                 (blurListeners (page w)) (keydownListeners (page w))) w in
    match activeElement (page w) with
    | Some old => dispatchBlur st old w1
    | None => w1
    end.

(** [`${elementId}`] of a possibly absent field. *)
Definition idText (elementId : option string) : string := default "undefined" elementId.

Section Browser.

(** The browser's selector engine on an arbitrary selector text
    ([None]: no match, or a syntax error thrown into the listener's
    [catch]; a match is an element of the document) and its layout. *)
Variable cssQuery : string → Document → option NodeId.
Variable getBoundingClientRect : Document → NodeId → DOMRect.

(** The descriptor sent with [ELEMENT_SELECTED].  [src] and [alt] of an
    image are the attribute texts; the browser reports [src] resolved
    against the document URL, which for an absolute URL is the text
    itself. *)
Definition elementData (doc : Document) (id : NodeId) (element : Node) : ElementData :=
  let attributes : gmap string string :=
    <["data-editor-page" := default "" (getAttribute "data-editor-page" element)]>
      (<["data-editor-type" := default "" (getAttribute "data-editor-type" element)]>
         (<["data-editor-id" := default "" (getAttribute "data-editor-id" element)]> ∅)) in
  let attributes :=
    if bool_decide (tagName element = "IMG") then
      <["alt" := default "" (getAttribute "alt" element)]>
        (<["src" := default "" (getAttribute "src" element)]> attributes)
    else attributes in
  mkElementData (default "" (getAttribute "data-editor-id" element))
    (tagName element) (textContent element) attributes
    (getBoundingClientRect doc id).

(** [selectElement] on an element (or on nothing). *)
Definition selectElement (st : Stamp) (element : option NodeId) (w : World) : World :=
  match element with
  | None => w
  | Some id =>
    let w1 :=
      match selectedElement (agent w) with
      | Some sel => onElement sel (removeAttribute "data-editor-selected") w
      | None => w
      end in
    let w2 :=
      setAgent (mkAgent (isInEditorMode (agent w1)) (editorOrigin (agent w1)) (Some id))
        (onElement id (setAttribute "data-editor-selected" "true") w1) in
    match getElement (document (page w2)) id with
    | Some element =>
      sendToEditor st "ELEMENT_SELECTED"
        (mkIframePayload (Some (elementData (document (page w2)) id element))
           JUndefined None None None JUndefined JUndefined None) w2
    | None => w2
    end
  end.

Definition updateElementContent (st : Stamp) (elementId : option string)
    (content : JsValue) (w : World) : World :=
  match querySelector (editorIdSelector (idText elementId)) (document (page w)) with
  | Some element =>
    let w1 :=
      match node_id element with
      | Some id =>
        if bool_decide (getAttribute "data-editor-type" element = Some "image")
           && bool_decide (tagName element = "IMG") then
          onElement id (setAttribute "src" (String_ content)) w
        else match content with
             | JStr s => onElement id (setTextContent s) w
             | _ => w
             end
      | None => w
      end in
    sendToEditor st "CONTENT_CHANGED"
      (mkIframePayload None JUndefined None None elementId content
         JUndefined None) w1
  | None => w
  end.

Definition enterEditMode (st : Stamp) (elementId : option string) (w : World) : World :=
  match querySelector (editorIdSelector (idText elementId)) (document (page w)) with
  | Some element =>
    match node_id element with
    | Some id =>
      if bool_decide (getAttribute "data-editor-type" element = Some "text") then
        let w1 := onElement id (setAttribute "contenteditable" "true") w in
        let w2 := focus st id w1 in
        setPage (mkPage (document (page w2)) (activeElement (page w2)) (Some id)
                   (blurListeners (page w2) ++ [id])
                   (keydownListeners (page w2) ++ [id])) w2
      else w
    | None => w
    end
  | None => w
  end.

(** A message as the agent reads it: [None] fields are absent. *)
Record Inbound : Type := mkInbound {
  in_type : option string;
  in_payload : option EditorPayload
}.

(** [handleEditorMessage]; reading a field of an absent payload throws
    before the method is called. *)
Definition handleEditorMessage (st : Stamp) (message : Inbound) (w : World) : World :=
  match in_type message with
  | None => w
  | Some type =>
    if bool_decide (type = "EDITOR_READY") then
      highlightEditableElements
        (setAgent (mkAgent true (editorOrigin (agent w)) (selectedElement (agent w))) w)
    else if bool_decide (type = "SELECT_ELEMENT") then
      match in_payload message with
      | Some payload =>
        selectElement st
          (match ep_selector payload with
           | Some selector => cssQuery selector (document (page w))
           | None => None
           end) w
      | None => w
      end
    else if bool_decide (type = "UPDATE_CONTENT") then
      match in_payload message with
      | Some payload =>
        updateElementContent st (ep_elementId payload) (ep_content payload) w
      | None => w
      end
    else if bool_decide (type = "ENTER_EDIT_MODE") then
      match in_payload message with
      | Some payload => enterEditMode st (ep_elementId payload) w
      | None => w
      end
    else if bool_decide (type = "EXIT_EDIT_MODE") then exitEditMode st w
    else w
  end.

(** The listener of [setupMessageListener]; [data = None] is a nullish
    [event.data], whose [type] cannot be read. *)
Definition messageListener (st : Stamp) (origin : string) (data : option Inbound)
    (w : World) : World :=
  let w1 :=
    if negb (truthy_str (editorOrigin (agent w))) && includes "localhost:3000" origin
    then setAgent (mkAgent (isInEditorMode (agent w)) (Some origin)
                     (selectedElement (agent w))) w
    else w in
  if truthy_str (editorOrigin (agent w1))
     && negb (bool_decide (editorOrigin (agent w1) = Some origin))
  then w1
  else match data with
       | Some message => handleEditorMessage st message w1
       | None => w1
       end.

(** The listener of [setupClickHandlers]. *)
Definition clickListener (st : Stamp) (target : NodeId) (w : World) : World :=
  if negb (isInEditorMode (agent w)) then w
  else
    let doc := document (page w) in
    match closest editableSelector target doc with
    | Some editableElement =>
      selectElement st (node_id editableElement)
        (emit StopPropagation (emit PreventDefault w))
    | None =>
      let isBodyOrBackground :=
        match getElement doc target with
        | Some t =>
          bool_decide (tagName t = "BODY")
          || bool_decide (tagName t = "HTML")
          || classListContains "bg-" t
          || negb (bool_decide (is_Some (closest interactiveSelector target doc)))
        | None => false
        end in
      if isBodyOrBackground
         && negb (bool_decide (selectedElement (agent w) = Some target))
      then deselectElement st w
      else w
    end.

(** The keydown listener added by [enterEditMode] to [target]. *)
Definition keydownListener (st : Stamp) (target : NodeId) (key : string)
    (shiftKey : bool) (w : World) : World :=
  if bool_decide (key = "Enter") && negb shiftKey
  then blur st target (emit PreventDefault w)
  else w.

Definition detectEditorMode (st : Stamp) (embedded : bool) (w : World) : World :=
  if embedded then
    sendToEditor st "IFRAME_READY"
      (mkIframePayload None JUndefined None (Some true) None JUndefined JUndefined None)
      (setAgent (mkAgent true (editorOrigin (agent w)) (selectedElement (agent w))) w)
  else w.

(** [new ClientEditorBridge()] in a page: both listeners are installed,
    then the mode is detected; [embedded] is [window.parent !== window]. *)
Definition constructor (st : Stamp) (embedded : bool) (p : Page) : World :=
  detectEditorMode st embedded (mkWorld (mkAgent false None None) p []).

(** *** The agent as a transition system *)

Inductive Event : Type :=
| Click (st : Stamp) (target : NodeId)
| Message (st : Stamp) (origin : string) (data : option Inbound)
| Blur (st : Stamp) (target : NodeId)
| Keydown (st : Stamp) (target : NodeId) (key : string) (shiftKey : bool).

Definition step (w : World) (e : Event) : World :=
  match e with
  | Click st target => clickListener st target w
  | Message st origin data => messageListener st origin data w
  | Blur st target => blur st target w
  | Keydown st target key shiftKey =>
    fold_left (λ w _, keydownListener st target key shiftKey w)
      (filter (λ id, id = target) (keydownListeners (page w))) w
  end.

Definition run (w : World) (events : list Event) : World := fold_left step events w.

Definition isClick (e : Event) : bool :=
  match e with Click _ _ => true | _ => false end.

(** Events other than an inbound [EDITOR_READY]. *)
Definition notEditorReady (e : Event) : bool :=
  match e with
  | Message _ _ (Some message) =>
    negb (bool_decide (in_type message = Some "EDITOR_READY"))
  | _ => true
  end.

End Browser.

(** The messages posted to the parent window, in order. *)
Definition postedToParent (effects : list Effect) : list IframeMessage :=
  omap (λ e, match e with PostToParent m => Some m | _ => None end) effects.

(** [w'] is in normal mode and has posted no more than [w]. *)
Definition quiet (w w' : World) : Prop :=
  isInEditorMode (agent w') = false
  ∧ postedToParent (effects w') = postedToParent (effects w).

(** The message types that the agent passes to [sendToEditor]. *)
Definition vocabulary : list string :=
  ["IFRAME_READY"; "ELEMENT_SELECTED"; "ELEMENT_DESELECTED"; "CONTENT_CHANGED"].

(** The clock reading of an event is not the epoch itself. *)
Definition clockSet (e : Event) : bool :=
  match e with
  | Click st _ | Message st _ _ | Blur st _ | Keydown st _ _ _ => negb (Z.eqb (now st) 0)
  end.

(** A posted message that the bridge of the editor takes as well formed:
    it passes the structure check, carries a payload and has one of the
    types of the agent. *)
Definition wellFormed (m : IframeMessage) : Prop :=
  IframeBridge.validStructure m = true
  ∧ is_Some (im_payload m)
  ∧ ∃ type, im_type m = Some type ∧ type ∈ vocabulary.

(** Message events whose origin contains [localhost:3000]. *)
Definition fromLocalEditor (e : Event) : bool :=
  match e with
  | Message _ origin _ => includes "localhost:3000" origin
  | _ => false
  end.

End ClientEditorBridge.

(** ** Sample data *)

Module Samples.
Import editorStore useEditorState.

Definition sample_update (elementId old new : string) : ContentUpdate :=
  plainUpdate elementId text (JStr old) (JStr new) 1700000000000.

Definition sample_recording (elementId old new : string) : Recording :=
  mkRecording "k3j5x9q2a" 1700000000000 (sample_update elementId old new).

(** The frame's announcement, as the agent stamps it. *)
Definition ready_message : IframeMessage :=
  mkIframeMessage (Some "IFRAME_READY")
    (Some (mkIframePayload None JUndefined None (Some true) None JUndefined JUndefined None))
    (Some "msg_1700000000100_q1w2e3r4t") (Some 1700000000100).

Definition everyWindow : IframeBridge.Ref → bool := λ _, true.

(** Three sends issued before the frame is ready. *)
Definition three_sends : list (IframeBridge.Call nat) :=
  [IframeBridge.CallSendToIframe everyWindow "a1b2c3d4e" 1700000000001
     (IframeBridge.updateContent "hero-title" (JStr "Hello"));
   IframeBridge.CallSendToIframe everyWindow "f5g6h7i8j" 1700000000002
     (IframeBridge.selectElement "#hero-title");
   IframeBridge.CallSendToIframe everyWindow "k9l0m1n2o" 1700000000003
     (IframeBridge.enterEditMode "hero-title")].

Definition three_messages : list EditorMessage :=
  [IframeBridge.stamp "a1b2c3d4e" 1700000000001
     (IframeBridge.updateContent "hero-title" (JStr "Hello"));
   IframeBridge.stamp "f5g6h7i8j" 1700000000002
     (IframeBridge.selectElement "#hero-title");
   IframeBridge.stamp "k9l0m1n2o" 1700000000003
     (IframeBridge.enterEditMode "hero-title")].

Definition content_changed_message : IframeMessage :=
  mkIframeMessage (Some "CONTENT_CHANGED")
    (Some (mkIframePayload None JUndefined None None (Some "hero-title")
             (JStr "Hello") JUndefined None))
    (Some "msg_1700000000200_z9y8x7w6v") (Some 1700000000200).

(** Two persisted blocks: one published and edited, one never published. *)
Definition edited_block : DraftContentBlock :=
  mkBlock "Hello there" (Some "Hello") (Some "Hello there") status_draft true None.

Definition new_block : DraftContentBlock :=
  mkBlock "New" None (Some "New") status_draft true None.

Definition published_block : DraftContentBlock :=
  mkBlock "About us" (Some "About us") None status_published false None.

Definition sample_content : list (string * list (string * DraftContentBlock)) :=
  [("home", [("hero-title", edited_block); ("hero-subtitle", new_block)]);
   ("about", [("about-title", published_block)])].

Definition epoch : string → Z := λ _, 0.

Definition isoDate : Z → string := λ _, "2023-11-14T22:13:20.003Z".

(** [JSON.stringify] of an object whose values are given stringified. *)
Definition json_object (fields : list (string * string)) : string :=
  "{" +:+ String.concat ","
            (map (λ '(name, value), dq +:+ name +:+ dq +:+ ":" +:+ value) fields)
      +:+ "}".

Definition json_string (s : string) : string := dq +:+ s +:+ dq.

(** Site content as the content route serves it, in which two blocks are
    persisted with the fields of a draft: one published and edited, one
    never published. *)
Definition persisted_site : SiteData :=
  mkSiteData "demo" "Demo" (mkSiteConfig "#000000" true)
    [("home",
      [("hero-title",
        RawOther (json_object
                    [("value", json_string "Hello there");
                     ("publishedValue", json_string "Hello");
                     ("draftValue", json_string "Hello there");
                     ("status", json_string "draft");
                     ("hasUnpublishedChanges", "true")]));
       ("hero-subtitle",
        RawOther (json_object
                    [("value", json_string "New");
                     ("draftValue", json_string "New");
                     ("status", json_string "draft");
                     ("hasUnpublishedChanges", "true")]))])]
    None.


(** A page with one editable heading. *)
Definition heading : Dom.Node :=
  Dom.ElementNode 3%nat "H1"
    (list_to_map [("data-editable", "true"); ("data-editor-id", "hero-title");
                  ("data-editor-type", "text"); ("data-editor-page", "home")])
    [Dom.TextNode "Welcome"].

Definition sample_document : Dom.Document :=
  [Dom.ElementNode 1%nat "HTML" ∅ [Dom.ElementNode 2%nat "BODY" ∅ [heading]]].

Definition sample_page : ClientEditorBridge.Page :=
  ClientEditorBridge.mkPage sample_document None None [] [].

Definition noCss : string → Dom.Document → option Dom.NodeId := λ _ _, None.

Definition noLayout : Dom.Document → Dom.NodeId → DOMRect :=
  λ _ _, mkDOMRect 0 0 0 0 0 0 0 0.

Definition sample_stamp : ClientEditorBridge.Stamp :=
  ClientEditorBridge.mkStamp "r4t5y6u7i" 1700000000300.

Definition update_command : ClientEditorBridge.Inbound :=
  ClientEditorBridge.mkInbound (Some "UPDATE_CONTENT")
    (Some (mkEditorPayload None None None (JStr "Changed") None (Some "hero-title"))).

Definition editor_ready_command : ClientEditorBridge.Inbound :=
  ClientEditorBridge.mkInbound (Some "EDITOR_READY")
    (Some (mkEditorPayload (Some "demo") (Some true) None JUndefined None None)).

End Samples.

(** * Properties of the editor state store *)

Section History.
Import editorStore useEditorState Samples.

(** Recording appends the previous [present] to [past]. *)
Lemma record_history (state : EditorState) (r : Recording) :
  history (record state r)
  = mkHistory (past (history state) ++ [present (history state)])
      [recordedChange r] [].
Proof. reflexivity. Qed.

Lemma recordAll_snoc (state : EditorState) (rs : list Recording) (r : Recording) :
  recordAll state (rs ++ [r]) = record (recordAll state rs) r.
Proof. unfold recordAll. by rewrite fold_left_app. Qed.

Lemma recordAll_past_length (state : EditorState) (rs : list Recording) :
  length (past (history (recordAll state rs)))
  = (length (past (history state)) + length rs)%nat.
Proof.
  induction rs as [|r rs IH] using rev_ind.
  - simpl. lia.
  - rewrite recordAll_snoc, record_history. simpl.
    rewrite !length_app, IH. simpl. lia.
Qed.

(** The entries of [past] after a series of recordings: the [present] of
    the start, then every change but the last. *)
Lemma recordAll_past (state : EditorState) (rs : list Recording) (r : Recording) :
  past (history (recordAll state (rs ++ [r])))
  = past (history state) ++ present (history state)
      :: map (λ r', [recordedChange r']) rs.
Proof.
  revert r. induction rs as [|r' rs IH] using rev_ind; intros r.
  - reflexivity.
  - rewrite recordAll_snoc, record_history. simpl.
    rewrite IH. rewrite recordAll_snoc, record_history. simpl.
    rewrite map_app. simpl. rewrite <- app_assoc. reflexivity.
Qed.

Lemma initializeEditor_history (siteId' : string) (state : EditorState) :
  history (initializeEditor siteId' state) = mkHistory [] [] [].
Proof. reflexivity. Qed.

(** C1, as the code has it: starting from a freshly initialized editor,
    after [N >= 1] changes to distinct elements recorded with
    [addContentChange] and no undo or redo in between, [past] has [N]
    entries (the empty initial [present] and the first [N-1] changes),
    [present] is the one-entry list holding the [N]th change, and
    [future] is empty. *)
Theorem history_after_recordings (siteId' : string) (state : EditorState)
    (rs : list Recording) (r : Recording) :
  NoDup (map (λ r', cu_elementId (rec_update r')) (rs ++ [r])) →
  let s := recordAll (initializeEditor siteId' state) (rs ++ [r]) in
  length (past (history s)) = length (rs ++ [r])
  ∧ past (history s) = [] :: map (λ r', [recordedChange r']) rs
  ∧ present (history s) = [recordedChange r]
  ∧ ec_elementId (recordedChange r) = cu_elementId (rec_update r)
  ∧ ec_oldValue (recordedChange r) = cu_oldValue (rec_update r)
  ∧ ec_newValue (recordedChange r) = cu_newValue (rec_update r)
  ∧ future (history s) = [].
Proof.
  intros _ s. subst s. split_and!; try reflexivity.
  - rewrite recordAll_past_length. simpl. reflexivity.
  - rewrite recordAll_past. reflexivity.
  - by rewrite recordAll_snoc, record_history.
  - by rewrite recordAll_snoc, record_history.
Qed.

Lemma history_after_recordings_witness :
  let s := recordAll (initializeEditor "demo" initialState)
             ([sample_recording "hero-title" "Welcome" "Hello"]
              ++ [sample_recording "hero-subtitle" "" "Subtitle"]) in
  length (past (history s)) = 2%nat
  ∧ present (history s) = [recordedChange (sample_recording "hero-subtitle" "" "Subtitle")]
  ∧ future (history s) = [].
Proof.
  pose proof (history_after_recordings "demo" initialState
                [sample_recording "hero-title" "Welcome" "Hello"]
                (sample_recording "hero-subtitle" "" "Subtitle")) as Hthm.
  simpl in Hthm.
  destruct Hthm as (Hlen & _ & Hpresent & _ & _ & _ & Hfuture).
  - compute_done.
  - repeat split; assumption.
Defined.

(** C1 as the claim states it fails already for [N = 1]: after the first
    change of a fresh editor, [past] has one entry, not [N - 1 = 0]. *)
Lemma past_length_counterexample :
  let s := recordAll (initializeEditor "demo" initialState)
             [sample_recording "hero-title" "Welcome" "Hello"] in
  length (past (history s)) = 1%nat
  ∧ length (past (history s)) ≠ (1 - 1)%nat.
Proof. split; [reflexivity | discriminate]. Qed.

(** ** Undo followed by redo *)

Lemma addContentChange_draft (rnd : string) (now : Z) (c : ContentUpdate)
    (state : EditorState) :
  draftChanges (addContentChange rnd now c state) !! cu_elementId c
  = Some (with_oldValue c
            (Js.or (default JUndefined (publishedContent state !! cu_elementId c))
                   (cu_oldValue c))).
Proof. unfold addContentChange. simpl. by rewrite lookup_insert_eq. Qed.

Lemma addContentChange_executing (rnd : string) (now : Z) (c : ContentUpdate)
    (state : EditorState) :
  isExecutingCommand (addContentChange rnd now c state) = isExecutingCommand state.
Proof. reflexivity. Qed.

(** While a command is executing, undo and redo do nothing. *)
Lemma undo_executing (bridge : bool) (now : Z) (state : EditorState) :
  isExecutingCommand state = true → undo bridge now state = (state, []).
Proof. intros He. unfold undo. rewrite He. by rewrite orb_true_r. Qed.

Lemma redo_executing (bridge : bool) (now : Z) (state : EditorState) :
  isExecutingCommand state = true → redo bridge now state = (state, []).
Proof. intros He. unfold redo. rewrite He. by rewrite orb_true_r. Qed.

(** Undo right after a recording: the history steps back and the draft
    entry of the element takes the old value of the change. *)
Lemma undo_after_recording (bridge : bool) (rnd : string) (now now1 : Z)
    (c : ContentUpdate) (state : EditorState) :
  isExecutingCommand state = false →
  let applied := addContentChange rnd now c state in
  let undone := (undo bridge now1 applied).1 in
  history undone
  = mkHistory (past (history state)) (present (history state))
      [[toEditorChange rnd now c]]
  ∧ isExecutingCommand undone = false
  ∧ ∃ u, draftChanges undone !! cu_elementId c = Some u
         ∧ cu_newValue u = cu_oldValue c.
Proof.
  intros He applied undone. subst undone. unfold undo.
  assert (Hlen : Nat.eqb (length (past (history applied))) 0 = false).
  { subst applied. simpl. rewrite length_app. simpl. apply Nat.eqb_neq. lia. }
  rewrite Hlen. subst applied. rewrite addContentChange_executing, He. simpl.
  rewrite last_snoc, removelast_last. simpl. split_and!; try reflexivity.
  rewrite lookup_insert_eq. eexists. split; [apply lookup_insert_eq | reflexivity].
Qed.

(** C2, as the code has it: after a change [c] is recorded with
    [addContentChange], undo followed by redo leaves the draft entry of
    [c]'s element with [newValue = c.newValue], and the history (past,
    present, future) is then the very history of the state that was never
    undone. *)
Theorem undo_redo_restores (bridge : bool) (rnd : string) (now now1 now2 : Z)
    (c : ContentUpdate) (state : EditorState) :
  let applied := addContentChange rnd now c state in
  let restored := (redo bridge now2 (undo bridge now1 applied).1).1 in
  (∃ u, draftChanges applied !! cu_elementId c = Some u
        ∧ cu_newValue u = cu_newValue c)
  ∧ (∃ u, draftChanges restored !! cu_elementId c = Some u
          ∧ cu_newValue u = cu_newValue c)
  ∧ history restored = history applied.
Proof.
  intros applied restored.
  assert (Hd : ∃ u, draftChanges applied !! cu_elementId c = Some u
                    ∧ cu_newValue u = cu_newValue c).
  { subst applied. rewrite addContentChange_draft. eauto. }
  split; [exact Hd|].
  assert (Hexec : isExecutingCommand applied = isExecutingCommand state)
    by reflexivity.
  destruct (isExecutingCommand state) eqn:He.
  - subst restored.
    rewrite (undo_executing bridge now1 applied Hexec). cbn [fst].
    rewrite (redo_executing bridge now2 applied Hexec). cbn [fst].
    split; [exact Hd | reflexivity].
  - destruct (undo_after_recording bridge rnd now now1 c state He)
      as (Hh & Hx & u & Hu & _).
    fold applied in Hh, Hx, Hu. subst restored.
    set (undone := (undo bridge now1 applied).1) in *.
    unfold redo. rewrite Hh, Hx. simpl.
    rewrite Hh. unfold redoDraftChanges. simpl. rewrite Hu.
    rewrite lookup_insert_eq. split; [eauto|reflexivity].
Qed.

(** Outside a command, the restored draft entry is the recorded one with a
    fresh timestamp. *)
Lemma undo_redo_draft_entry (bridge : bool) (rnd : string) (now now1 now2 : Z)
    (c : ContentUpdate) (state : EditorState) :
  isExecutingCommand state = false →
  let applied := addContentChange rnd now c state in
  let restored := (redo bridge now2 (undo bridge now1 applied).1).1 in
  ∃ entry, draftChanges applied !! cu_elementId c = Some entry
           ∧ draftChanges restored !! cu_elementId c
             = Some (with_newValue entry (cu_newValue c) now2).
Proof.
  intros He applied restored. eexists. split.
  { subst applied. apply addContentChange_draft. }
  destruct (undo_after_recording bridge rnd now now1 c state He) as (Hh & Hx & _).
  fold applied in Hh, Hx.
  assert (Hu : draftChanges (undo bridge now1 applied).1 !! cu_elementId c
               = Some (with_newValue
                         (with_oldValue c
                            (Js.or (default JUndefined
                                      (publishedContent state !! cu_elementId c))
                                   (cu_oldValue c)))
                         (cu_oldValue c) now1)).
  { unfold undo.
    assert (Hlen : Nat.eqb (length (past (history applied))) 0 = false).
    { subst applied. simpl. rewrite length_app. simpl. apply Nat.eqb_neq. lia. }
    rewrite Hlen. subst applied. rewrite addContentChange_executing, He. simpl.
    rewrite lookup_insert_eq. apply lookup_insert_eq. }
  subst restored. set (undone := (undo bridge now1 applied).1) in *.
  unfold redo. rewrite Hh, Hx. simpl. rewrite Hh. unfold redoDraftChanges. simpl.
  rewrite Hu. apply lookup_insert_eq.
Qed.

(** C2 as the claim states it fails: on a fresh editor, after recording a
    change, undo and redo restore the draft value, and the history does
    not differ from the one of the state that was never undone. *)
Lemma history_pointers_counterexample :
  let applied :=
    addContentChange "k3j5x9q2a" 1700000000000
      (sample_update "hero-title" "Welcome" "Hello")
      (initializeEditor "demo" initialState) in
  let restored := (redo true 1700000000002 (undo true 1700000000001 applied).1).1 in
  history restored = history applied
  ∧ ¬ ((∃ u, draftChanges restored !! "hero-title" = Some u
             ∧ cu_newValue u = JStr "Hello")
       ∧ history restored ≠ history applied).
Proof.
  assert (Heq : history (redo true 1700000000002 (undo true 1700000000001
             (addContentChange "k3j5x9q2a" 1700000000000
                (sample_update "hero-title" "Welcome" "Hello")
                (initializeEditor "demo" initialState))).1).1
          = history (addContentChange "k3j5x9q2a" 1700000000000
                (sample_update "hero-title" "Welcome" "Hello")
                (initializeEditor "demo" initialState))) by reflexivity.
  split; [exact Heq | intros [_ Hne]; exact (Hne Heq)].
Qed.

(** ** A new edit discards the redo branch *)

(** C3: whatever [future] held, in particular after any number of undos,
    it is empty after [addContentChange]. *)
Theorem addContentChange_clears_future (rnd : string) (now : Z) (update : ContentUpdate)
    (state : EditorState) :
  future (history (addContentChange rnd now update state)) = []
  ∧ length (future (history (addContentChange rnd now update state))) = 0%nat
  ∧ ∀ bridge nows,
      future (history (addContentChange rnd now update (undoAll bridge nows state)))
      = [].
Proof. split_and!; reflexivity. Qed.

(** The redo branch does grow with every undo, so the property is not
    vacuous. *)
Lemma undo_grows_future (bridge : bool) (now : Z) (state : EditorState) :
  isExecutingCommand state = false →
  past (history state) ≠ [] →
  future (history (undo bridge now state).1)
  = present (history state) :: future (history state).
Proof.
  intros He Hp. unfold undo. rewrite He.
  destruct (past (history state)) as [|e l] eqn:E; [done|]. reflexivity.
Qed.

(** Two recordings and two undos leave two entries to redo; a new edit
    then leaves none. *)
Lemma redo_branch_discarded :
  let recorded :=
    recordAll (initializeEditor "demo" initialState)
      [sample_recording "hero-title" "Welcome" "Hello";
       sample_recording "hero-subtitle" "" "Subtitle"] in
  let undone := undoAll true [1700000000001; 1700000000002] recorded in
  length (future (history undone)) = 2%nat
  ∧ future (history (addContentChange "z1x2c3v4b" 1700000000003
                       (sample_update "hero-title" "Welcome" "Hi") undone)) = [].
Proof. split; reflexivity. Qed.

(** ** The unpublished-changes flag *)

Lemma saveDraft_unpublished (r : Render) (now : Z) (response_ok : bool)
    (state : EditorState) :
  hasUnpublishedChanges (saveDraft r now response_ok state).1
  = hasUnpublishedChanges state.
Proof.
  unfold saveDraft. destruct (r_hasUnsavedChanges r), response_ok; reflexivity.
Qed.

Lemma act_unpublished (state : EditorState) (a : Action) :
  hasUnpublishedChanges (act state a)
  = match a with
    | Record_ _ => true
    | MarkDraftsPublished => false
    | _ => hasUnpublishedChanges state
    end.
Proof. destruct a; simpl; try reflexivity. apply saveDraft_unpublished. Qed.

Lemma actAll_no_publish (state : EditorState) (actions : list Action) :
  Forall (λ a, isPublish a = false) actions →
  hasUnpublishedChanges state = true →
  hasUnpublishedChanges (actAll state actions) = true.
Proof.
  intros Hall. revert state. induction Hall as [|a l Ha _ IH]; intros state Hs.
  - exact Hs.
  - simpl. apply IH. rewrite act_unpublished. by destruct a.
Qed.

(** C8: over [addContentChange], [saveDraft] ([markDraftsSaved]) and
    [markDraftsPublished], [hasUnpublishedChanges] is true right after any
    recorded change, is left as it is by a save (so it stays true after a
    successful one), is false after [markDraftsPublished], and only
    [markDraftsPublished] turns it from true to false; hence it is true
    after any run of these actions whose last recorded change is followed
    by no publish. *)
Theorem unpublished_flag_lifecycle (state : EditorState) :
  (∀ r, hasUnpublishedChanges (record state r) = true)
  ∧ (∀ now response_ok,
       hasUnpublishedChanges (saveDraft (render state) now response_ok state).1
       = hasUnpublishedChanges state)
  ∧ (∀ now, hasUnpublishedChanges (markDraftsSaved now state)
            = hasUnpublishedChanges state)
  ∧ hasUnpublishedChanges (markDraftsPublished state) = false
  ∧ (∀ a, hasUnpublishedChanges state = true →
          hasUnpublishedChanges (act state a) = false →
          a = MarkDraftsPublished)
  ∧ (∀ before r after,
       Forall (λ a, isPublish a = false) after →
       hasUnpublishedChanges (actAll state (before ++ Record_ r :: after)) = true).
Proof.
  split_and!; try reflexivity.
  - intros now ok. apply saveDraft_unpublished.
  - intros a Hs Ha. rewrite act_unpublished in Ha. destruct a; congruence.
  - intros before r after Hall. unfold actAll. rewrite fold_left_app. simpl.
    apply actAll_no_publish; [exact Hall | reflexivity].
Qed.

Lemma unpublished_flag_lifecycle_witness :
  let state := initializeEditor "demo" initialState in
  let r := sample_recording "hero-title" "Welcome" "Hello" in
  hasUnpublishedChanges
    (actAll state [Record_ r; SaveDraft 1700000000010 true;
                   MarkDraftsSaved 1700000000020]) = true
  ∧ hasUnpublishedChanges (markDraftsPublished (record state r)) = false.
Proof.
  intros state r. split.
  - refine (proj2 (proj2 (proj2 (proj2 (proj2 (unpublished_flag_lifecycle state)))))
              [] r [SaveDraft 1700000000010 true; MarkDraftsSaved 1700000000020] _).
    repeat constructor.
  - exact (proj1 (proj2 (proj2 (proj2 (unpublished_flag_lifecycle (record state r)))))).
Defined.

(** A successful save does clear the other flag, so a save is not a
    no-op. *)
Lemma saveDraft_clears_unsaved (now : Z) (state : EditorState) :
  hasUnsavedEdits state = true →
  hasUnsavedEdits (saveDraft (render state) now true state).1 = false
  ∧ (saveDraft (render state) now true state).2 = SaveDone.
Proof. intros Hs. unfold saveDraft, render, useHasUnsavedChanges. simpl. by rewrite Hs. Qed.

(** ** Content reports from the frame *)

(** The guard of the handler: a render that saw [isExecutingCommand] set
    leaves the store as it is. *)
Lemma handleContentChanged_guard (r : Render) (rnd : string) (now : Z)
    (message : IframeMessage) (state : EditorState) :
  r_isExecutingCommand r = true →
  handleContentChanged r rnd now message state = state.
Proof. intros Hr. unfold handleContentChanged. by rewrite Hr. Qed.

(** [undo] and [redo] clear the flag in their last update, before they
    return: the store is never left with the flag set. *)
Lemma undo_redo_leave_flag_clear (bridge : bool) (now : Z) (state : EditorState) :
  isExecutingCommand state = false →
  isExecutingCommand (undo bridge now state).1 = false
  ∧ isExecutingCommand (redo bridge now state).1 = false.
Proof.
  intros He. unfold undo, redo.
  destruct (Nat.eqb (length (past (history state))) 0 || isExecutingCommand state);
    destruct (Nat.eqb (length (future (history state))) 0 || isExecutingCommand state);
    done.
Qed.

(** Outside a command the same report is recorded, so the guard is what
    keeps it out. *)
Lemma content_changed_recorded_otherwise :
  draftChanges
    (handleContentChanged (mkRender ∅ false false) "k3j5x9q2a" 1700000000000
       (mkIframeMessage (Some "CONTENT_CHANGED")
          (Some (mkIframePayload None JUndefined None None (Some "hero-title")
                   (JStr "Hello") JUndefined None))
          (Some "msg_1") (Some 1700000000000))
       initialState) !! "hero-title"
  = Some (plainUpdate "hero-title" text (JStr "") (JStr "Hello") 1700000000000).
Proof. reflexivity. Qed.

(** C10: a [CONTENT_CHANGED] report handled outside a command records
    nothing when its new content equals the resolved old value, which is
    the message's [oldContent] when provided, else the [newValue] of the
    element's draft entry when there is one, else the empty string: the
    store (draft map, history, both flags) is returned as it was. *)
Theorem content_changed_deduplicated (r : Render) (rnd : string) (now : Z)
    (message : IframeMessage) (payload : IframePayload) (elementId : string)
    (state : EditorState) :
  r_isExecutingCommand r = false →
  im_payload message = Some payload →
  ip_elementId payload = Some elementId →
  (ip_oldContent payload ≠ JUndefined
   ∧ ip_oldContent payload = ip_newContent payload)
  ∨ (ip_oldContent payload = JUndefined
     ∧ ∃ draft, r_draftChanges r !! elementId = Some draft
                ∧ cu_newValue draft = ip_newContent payload)
  ∨ (ip_oldContent payload = JUndefined
     ∧ r_draftChanges r !! elementId = None
     ∧ ip_newContent payload = JStr "") →
  handleContentChanged r rnd now message state = state.
Proof.
  intros Hr Hp He Hcases. unfold handleContentChanged.
  rewrite Hr, Hp, He.
  destruct (truthy_str (Some elementId)
            && negb (strict_eq (ip_newContent payload) JUndefined)); [|reflexivity].
  assert (Hold : actualOldValue r elementId (ip_oldContent payload)
                 = ip_newContent payload).
  { unfold actualOldValue, strict_eq.
    destruct Hcases as [[Hne Heq] | [[Hu (d & Hd & Hv)] | (Hu & Hd & Hv)]].
    - rewrite bool_decide_eq_false_2 by exact Hne. simpl. exact Heq.
    - rewrite Hu. simpl. by rewrite Hd.
    - rewrite Hu. simpl. by rewrite Hd, Hv. }
  rewrite Hold. unfold strict_eq. by rewrite bool_decide_eq_true_2.
Qed.

Lemma content_changed_deduplicated_witness :
  let draft := plainUpdate "hero-title" text (JStr "Welcome") (JStr "Hello") 1700000000000 in
  let state := addContentChange "k3j5x9q2a" 1700000000000 draft
                 (initializeEditor "demo" initialState) in
  handleContentChanged (render state) "p0o9i8u7y" 1700000000005
    (mkIframeMessage (Some "CONTENT_CHANGED")
       (Some (mkIframePayload None JUndefined None None (Some "hero-title")
                (JStr "Hello") JUndefined None))
       (Some "msg_2") (Some 1700000000005))
    state
  = state.
Proof.
  intros draft state.
  apply (content_changed_deduplicated (render state) "p0o9i8u7y" 1700000000005 _
           (mkIframePayload None JUndefined None None (Some "hero-title")
              (JStr "Hello") JUndefined None) "hero-title" state).
  - reflexivity.
  - reflexivity.
  - reflexivity.
  - right. left. split; [reflexivity|]. eexists. split; reflexivity.
Defined.

End History.

(** * Properties of the frame bridge *)

Section BridgeProperties.
Import IframeBridge Samples.
Context {H : Type}.
Implicit Types (b : Bridge H) (c : Call H) (calls : list (Call H)).

Lemma run_cons b c calls :
  run b (c :: calls)
  = ((run (step b c).1 calls).1, (step b c).2 ++ (run (step b c).1 calls).2).
Proof.
  simpl. destruct (step b c) as [b1 e1]. simpl.
  by destruct (run b1 calls) as [b2 e2].
Qed.

Lemma postedMessages_app (e1 e2 : list (Effect H)) :
  postedMessages (e1 ++ e2) = postedMessages e1 ++ postedMessages e2.
Proof. unfold postedMessages. apply omap_app. Qed.

Lemma invocations_app (e1 e2 : list (Effect H)) :
  invocations (e1 ++ e2) = invocations e1 ++ invocations e2.
Proof. unfold invocations. apply omap_app. Qed.

(** The listener never touches the handlers, the allow-list, the frame
    reference or the initialisation flag. *)
Lemma messageListener_frame win origin data b :
  let b' := (messageListener win origin data b).1 in
  messageHandlers b' = messageHandlers b
  ∧ allowedOrigins b' = allowedOrigins b
  ∧ iframeRef b' = iframeRef b
  ∧ isInitialized b' = isInitialized b.
Proof.
  unfold messageListener.
  destruct (negb (originAllowed b origin)); [done|].
  destruct data as [message|]; [|done].
  destruct (negb (validStructure message)); [done|].
  destruct (bool_decide (im_type message = Some "IFRAME_READY")); done.
Qed.

(** A message that is not [IFRAME_READY] leaves the bridge as it is and
    posts nothing. *)
Lemma messageListener_not_ready win origin message b :
  im_type message ≠ Some "IFRAME_READY" →
  (messageListener win origin (Some message) b).1 = b
  ∧ postedMessages (messageListener win origin (Some message) b).2 = [].
Proof.
  intros Hne. unfold messageListener.
  destruct (negb (originAllowed b origin)); [done|].
  destruct (negb (validStructure message)); [done|].
  rewrite bool_decide_eq_false_2 by exact Hne. simpl.
  split; [reflexivity|].
  destruct (im_type message) as [type|]; [|done].
  by destruct (messageHandlers b !! type).
Qed.

Lemma step_isInitialized b c : isInitialized (step b c).1 = isInitialized b.
Proof.
  destruct c; simpl; try reflexivity.
  - unfold sendToIframe. destruct (isInitialized b) eqn:Hi; simpl; [|done].
    by destruct (isReady b).
  - destruct (isInitialized b) eqn:Hi; [|done].
    rewrite <- Hi. apply messageListener_frame.
Qed.

Lemma run_isInitialized b calls : isInitialized (run b calls).1 = isInitialized b.
Proof.
  revert b. induction calls as [|c calls IH]; intros b; [done|].
  rewrite run_cons. simpl. by rewrite IH, step_isInitialized.
Qed.

Lemma step_allowedOrigins b c :
  setsOrigins c = false → allowedOrigins (step b c).1 = allowedOrigins b.
Proof.
  destruct c; simpl; try done.
  - intros _. unfold sendToIframe. destruct (isInitialized b); simpl; [|done].
    by destruct (isReady b).
  - intros _. destruct (isInitialized b); [|done]. apply messageListener_frame.
Qed.

Lemma run_allowedOrigins b calls :
  Forall (λ c, setsOrigins c = false) calls →
  allowedOrigins (run b calls).1 = allowedOrigins b.
Proof.
  intros Hall. revert b. induction Hall as [|c calls Hc _ IH]; intros b; [done|].
  rewrite run_cons. simpl. by rewrite IH, step_allowedOrigins.
Qed.

Lemma run_allowedOrigins_empty b calls :
  Forall (λ c, setsNonEmptyOrigins c = false) calls →
  allowedOrigins b = [] →
  allowedOrigins (run b calls).1 = [].
Proof.
  intros Hall. revert b. induction Hall as [|c calls Hc _ IH]; intros b Hb; [done|].
  rewrite run_cons. simpl. apply IH.
  destruct c as [origins| | | | | |]; try (by rewrite step_allowedOrigins).
  simpl in *. destruct origins; [done|discriminate].
Qed.

(** With a frame window at hand, the flush posts the queue as it stands. *)
Lemma flushMessages_bound win b r (queue : list EditorMessage) :
  iframeRef b = Some r → win r = true →
  flushMessages win b queue = map (PostMessage r) queue.
Proof.
  intros Hr Hw. induction queue as [|m queue IH]; [done|].
  simpl. unfold sendMessage. rewrite Hr, Hw. simpl. by rewrite IH.
Qed.

(** Without one, the flush posts nothing. *)
Lemma flushMessages_unbound win b (queue : list EditorMessage) :
  iframeRef b = None → flushMessages win b queue = [].
Proof.
  intros Hr. induction queue as [|m queue IH]; [done|].
  simpl. unfold sendMessage. by rewrite Hr.
Qed.

Lemma postedMessages_posts (r : Ref) (queue : list EditorMessage) :
  postedMessages (map (PostMessage (H:=H) r) queue) = map (λ m, (r, m)) queue.
Proof. induction queue as [|m queue IH]; [done|]. simpl. by rewrite <- IH. Qed.

(** Before readiness every send is appended to the queue and nothing is
    posted. *)
Lemma step_preReady b c :
  isInitialized b = true → isReady b = false → preReady c = true →
  isReady (step b c).1 = false
  ∧ messageQueue (step b c).1 = messageQueue b ++ sentIn [c]
  ∧ postedMessages (step b c).2 = [].
Proof.
  intros Hi Hr Hc. destruct c as [| | | |win rnd now message|win origin data|];
    simpl in *; try (rewrite app_nil_r; done).
  - unfold sendToIframe. rewrite Hi, Hr. done.
  - rewrite Hi. rewrite app_nil_r. destruct data as [message|].
    + apply negb_true_iff, bool_decide_eq_false in Hc.
      destruct (messageListener_not_ready win origin message b Hc) as [-> ->].
      done.
    + unfold messageListener. by destruct (negb (originAllowed b origin)).
Qed.

Lemma run_preReady b calls :
  isInitialized b = true → isReady b = false →
  Forall (λ c, preReady c = true) calls →
  isReady (run b calls).1 = false
  ∧ messageQueue (run b calls).1 = messageQueue b ++ sentIn calls
  ∧ postedMessages (run b calls).2 = [].
Proof.
  intros Hi Hr Hall. revert b Hi Hr.
  induction Hall as [|c calls Hc _ IH]; intros b Hi Hr.
  - simpl. by rewrite app_nil_r.
  - rewrite run_cons. simpl.
    destruct (step_preReady b c Hi Hr Hc) as (Hr1 & Hq1 & Hp1).
    destruct (IH (step b c).1) as (Hr2 & Hq2 & Hp2).
    { by rewrite step_isInitialized. }
    { exact Hr1. }
    rewrite postedMessages_app, Hp1, Hp2, Hq2, Hq1, Hr2.
    split_and!; try done.
    rewrite <- app_assoc. f_equal. by destruct c.
Qed.

(** Once the queue is empty, no message event posts anything. *)
Lemma messageListener_empty_queue win origin data b :
  messageQueue b = [] →
  postedMessages (messageListener win origin data b).2 = []
  ∧ messageQueue (messageListener win origin data b).1 = [].
Proof.
  intros Hq. unfold messageListener.
  destruct (negb (originAllowed b origin)); [done|].
  destruct data as [message|]; [|done].
  destruct (negb (validStructure message)); [done|].
  destruct (bool_decide (im_type message = Some "IFRAME_READY")); simpl;
    rewrite ?Hq; simpl;
    (split; [|done]);
    (destruct (im_type message) as [type|]; [|done]);
    by destruct (_ !! type).
Qed.

(** Once ready, a bridge that is not destroyed stays ready. *)
Lemma step_stays_ready b c :
  destroys c = false → isReady b = true → isReady (step b c).1 = true.
Proof.
  intros Hc Hr. destruct c as [| | | |win rnd now message|win origin data|];
    simpl in *; try done.
  - unfold sendToIframe. rewrite Hr. by destruct (negb (isInitialized b)).
  - destruct (isInitialized b); [|done]. unfold messageListener.
    destruct (negb (originAllowed b origin)); [done|].
    destruct data as [message|]; [|done].
    destruct (negb (validStructure message)); [done|].
    by destruct (bool_decide (im_type message = Some "IFRAME_READY")).
Qed.

Lemma run_stays_ready b calls :
  Forall (λ c, destroys c = false) calls →
  isReady b = true → isReady (run b calls).1 = true.
Proof.
  intros Hall. revert b. induction Hall as [|c calls Hc _ IH]; intros b Hr; [done|].
  rewrite run_cons. simpl. by apply IH, step_stays_ready.
Qed.

(** A call after which the bridge is not ready was made before readiness:
    a send was queued, and nothing was posted. *)
Lemma step_not_ready b c :
  isInitialized b = true →
  destroys c = false →
  isReady (step b c).1 = false →
  isReady b = false
  ∧ messageQueue (step b c).1 = messageQueue b ++ sentIn [c]
  ∧ postedMessages (step b c).2 = [].
Proof.
  intros Hi Hc Hr'.
  assert (Hr : isReady b = false).
  { destruct (isReady b) eqn:Hr; [|done].
    by rewrite (step_stays_ready b c Hc Hr) in Hr'. }
  split; [done|].
  destruct c as [| | | |win rnd now message|win origin data|];
    simpl in *; try (rewrite app_nil_r; done).
  - unfold sendToIframe. by rewrite Hi, Hr.
  - rewrite Hi in *. rewrite app_nil_r. revert Hr'. unfold messageListener.
    destruct (negb (originAllowed b origin)); [done|].
    destruct data as [message|]; [|done].
    destruct (negb (validStructure message)); [done|].
    destruct (bool_decide (im_type message = Some "IFRAME_READY")); [done|].
    intros _. simpl. split; [done|].
    destruct (im_type message) as [type|]; [|done].
    by destruct (messageHandlers b !! type).
Qed.

Lemma run_not_ready b calls :
  isInitialized b = true →
  Forall (λ c, destroys c = false) calls →
  isReady (run b calls).1 = false →
  messageQueue (run b calls).1 = messageQueue b ++ sentIn calls
  ∧ postedMessages (run b calls).2 = [].
Proof.
  intros Hi Hall. revert b Hi.
  induction Hall as [|c calls Hc Hall IH]; intros b Hi Hr.
  - simpl. by rewrite app_nil_r.
  - rewrite run_cons in *. simpl in *.
    assert (Hr1 : isReady (step b c).1 = false).
    { destruct (isReady (step b c).1) eqn:Hr1; [|done].
      by rewrite (run_stays_ready _ calls Hall Hr1) in Hr. }
    destruct (step_not_ready b c Hi Hc Hr1) as (_ & Hq1 & Hp1).
    destruct (IH (step b c).1) as (Hq2 & Hp2);
      [by rewrite step_isInitialized | exact Hr |].
    rewrite Hq2, Hq1, postedMessages_app, Hp1, Hp2.
    split; [|done]. rewrite <- app_assoc. f_equal.
    unfold sentIn. by destruct c.
Qed.

(** C5, as the code has it: on a bridge created in a browser and not
    destroyed in the meantime, every message passed to [sendToIframe]
    while the bridge has not observed readiness is appended to the queue
    and nothing is posted, whatever else is called and whatever message
    events are refused or handled in between; when a well-formed
    [IFRAME_READY] from an accepted origin then arrives, and the bridge is
    bound to a frame whose window is available at that moment, the whole
    queue is posted to that frame in send order and emptied, so that no
    later message event posts any of it again. *)
Theorem queue_flushed_in_order b calls (win : Ref → bool) (origin : string)
    (message : IframeMessage) (r : Ref) :
  isInitialized b = true →
  Forall (λ c, destroys c = false) calls →
  let queued := run b calls in
  isReady queued.1 = false →
  validStructure message = true →
  im_type message = Some "IFRAME_READY" →
  originAllowed queued.1 origin = true →
  iframeRef queued.1 = Some r →
  win r = true →
  let flushed := step queued.1 (MessageEvent win origin (Some message)) in
  messageQueue queued.1 = messageQueue b ++ sentIn calls
  ∧ postedMessages queued.2 = []
  ∧ postedMessages flushed.2 = map (λ m, (r, m)) (messageQueue b ++ sentIn calls)
  ∧ messageQueue flushed.1 = []
  ∧ isReady flushed.1 = true
  ∧ ∀ win' origin' data',
      postedMessages (step flushed.1 (MessageEvent win' origin' data')).2 = [].
Proof.
  intros Hi Hall queued Hr1 Hvalid Htype Horigin Href Hwin flushed.
  destruct (run_not_ready b calls Hi Hall Hr1) as (Hq1 & Hp1).
  fold queued in Hq1, Hp1.
  assert (Hi1 : isInitialized queued.1 = true).
  { subst queued. by rewrite run_isInitialized. }
  assert (Hflushed :
    flushed
    = (mkBridge (messageHandlers queued.1) (allowedOrigins queued.1) []
         (iframeRef queued.1) true true,
       map (PostMessage r) (messageQueue queued.1)
       ++ match messageHandlers queued.1 !! "IFRAME_READY" with
          | Some handler => [Invoke handler message]
          | None => []
          end)).
  { subst flushed. simpl. rewrite Hi1. unfold messageListener.
    rewrite Horigin, Hvalid, Htype. simpl.
    rewrite (flushMessages_bound win _ r); [by rewrite Hi1 | exact Href | exact Hwin]. }
  rewrite Hflushed. simpl. split_and!; try done.
  - rewrite postedMessages_app, postedMessages_posts, Hq1.
    destruct (messageHandlers queued.1 !! "IFRAME_READY"); simpl;
      by rewrite app_nil_r.
  - intros win' origin' data'. by apply messageListener_empty_queue.
Qed.

(** C6: once [setAllowedOrigins] has been given a non-empty list, and
    until it is called again, a message event whose origin is not in the
    list changes nothing and reaches no handler; and as long as only
    empty lists have been set on a bridge created in a browser, every
    origin passes the check, so a well-formed message of any origin is
    handed to the handler registered for its type. *)
Theorem origin_gate b (origins : list string) calls (win : Ref → bool)
    (origin : string) (data : option IframeMessage) :
  (origins ≠ [] →
   origin ∉ origins →
   Forall (λ c, setsOrigins c = false) calls →
   let b' := (run (setAllowedOrigins origins b) calls).1 in
   step b' (MessageEvent win origin data) = (b', [])
   ∧ invocations (step b' (MessageEvent win origin data)).2 = [])
  ∧ (Forall (λ c, setsNonEmptyOrigins c = false) calls →
     let b' := (run (constructor (H:=H) true) calls).1 in
     originAllowed b' origin = true
     ∧ ∀ message type handler,
         data = Some message →
         validStructure message = true →
         im_type message = Some type →
         messageHandlers b' !! type = Some handler →
         invocations (step b' (MessageEvent win origin data)).2
         = [(handler, message)]).
Proof.
  split.
  - intros Hne Hnotin Hall b'.
    assert (Ho : allowedOrigins b' = origins).
    { subst b'. by rewrite run_allowedOrigins. }
    assert (Hgate : originAllowed b' origin = false).
    { unfold originAllowed. rewrite Ho.
      rewrite bool_decide_eq_false_2 by exact Hnotin.
      destruct origins; [done|reflexivity]. }
    assert (Hstep : step b' (MessageEvent win origin data) = (b', [])).
    { simpl. unfold messageListener. rewrite Hgate. simpl.
      by destruct (isInitialized b'). }
    by rewrite Hstep.
  - intros Hall b'.
    assert (Ho : allowedOrigins b' = []).
    { subst b'. by apply run_allowedOrigins_empty. }
    assert (Hgate : originAllowed b' origin = true).
    { unfold originAllowed. by rewrite Ho. }
    split; [exact Hgate|].
    intros message type handler -> Hvalid Htype Hhandler.
    assert (Hi : isInitialized b' = true).
    { subst b'. by rewrite run_isInitialized. }
    simpl. rewrite Hi. unfold messageListener. rewrite Hgate, Hvalid. simpl.
    destruct (bool_decide (im_type message = Some "IFRAME_READY")); simpl;
      rewrite Htype, Hhandler;
      rewrite ?invocations_app; simpl; [|done].
    assert (Hnone : ∀ queue,
      invocations (flushMessages win
        (mkBridge (messageHandlers b') (allowedOrigins b') (messageQueue b')
           (iframeRef b') true (isInitialized b')) queue) = []).
    { induction queue as [|m queue IH]; [done|]. simpl.
      rewrite invocations_app, IH, app_nil_r. unfold sendMessage. simpl.
      destruct (iframeRef b') as [r|]; [|done]. by destruct (win r). }
    by rewrite Hnone.
Qed.

End BridgeProperties.

Section BridgeScenarios.
Import IframeBridge Samples.

Lemma queue_flushed_in_order_witness :
  let bound :=
    CallSetAllowedOrigins (H:=nat) ["http://localhost:3001"]
    :: CallSetIframeRef (Some 0%nat)
    :: MessageEvent everyWindow "http://localhost:9999" (Some ready_message)
    :: three_sends in
  postedMessages
    (step (run (constructor true) bound).1
       (MessageEvent everyWindow "http://localhost:3001" (Some ready_message))).2
  = map (λ m, (0%nat, m)) three_messages.
Proof.
  intros bound.
  refine (proj1 (proj2 (proj2
    (queue_flushed_in_order (constructor true) bound everyWindow
       "http://localhost:3001" ready_message 0%nat _ _ _ _ _ _ _ _)))).
  - reflexivity.
  - subst bound. unfold three_sends. repeat constructor.
  - reflexivity.
  - reflexivity.
  - reflexivity.
  - reflexivity.
  - reflexivity.
  - reflexivity.
Defined.

(** [destroy] empties the queue: what was sent before it is never
    posted. *)
Lemma destroy_drops_queued :
  let calls :=
    [CallSetIframeRef (H:=nat) (Some 0%nat);
     CallSendToIframe everyWindow "a1b2c3d4e" 1700000000001
       (updateContent "hero-title" (JStr "Hello"));
     CallDestroy;
     CallSendToIframe everyWindow "f5g6h7i8j" 1700000000002
       (selectElement "#hero-title")] in
  postedMessages
    (step (run (constructor true) calls).1
       (MessageEvent everyWindow "http://localhost:3001" (Some ready_message))).2
  = [(0%nat, stamp "f5g6h7i8j" 1700000000002 (selectElement "#hero-title"))].
Proof. reflexivity. Qed.

(** C5 as the claim states it fails when no frame is bound at the moment
    of readiness: the three queued messages leave the queue and none of
    them is posted. *)
Lemma unbound_flush_counterexample :
  let queued := run (H:=nat) (constructor true) three_sends in
  let flushed :=
    step queued.1
      (MessageEvent everyWindow "http://localhost:3001" (Some ready_message)) in
  messageQueue queued.1 = three_messages
  ∧ isReady flushed.1 = true
  ∧ messageQueue flushed.1 = []
  ∧ postedMessages flushed.2 = []
  ∧ postedMessages (queued.2 ++ flushed.2) ≠ map (λ m, (0%nat, m)) three_messages.
Proof. split_and!; try reflexivity. discriminate. Qed.

Lemma origin_gate_witness :
  let b := on "CONTENT_CHANGED" 7%nat (constructor true) in
  step (setAllowedOrigins ["http://localhost:3001"] b)
    (MessageEvent everyWindow "http://evil.example" (Some content_changed_message))
  = (setAllowedOrigins ["http://localhost:3001"] b, [])
  ∧ invocations
      (step b (MessageEvent everyWindow "http://evil.example"
                 (Some content_changed_message))).2
    = [(7%nat, content_changed_message)].
Proof.
  intros b. split.
  - refine (proj1 (proj1 (origin_gate b ["http://localhost:3001"] []
              everyWindow "http://evil.example" (Some content_changed_message))
              _ _ _)).
    + discriminate.
    + compute_done.
    + constructor.
  - refine (proj2 (proj2 (origin_gate (constructor true) []
              [CallOn "CONTENT_CHANGED" 7%nat]
              everyWindow "http://evil.example" (Some content_changed_message))
              _) content_changed_message "CONTENT_CHANGED" 7%nat _ _ _ _).
    + repeat constructor.
    + reflexivity.
    + reflexivity.
    + reflexivity.
    + reflexivity.
Defined.

End BridgeScenarios.

(** * Properties of the reconciliation *)

Section Reconciliation.
Import editorStore Samples.
Variable Date_getTime : string → Z.
Variable now : Z.
Implicit Types (maps : ContentMaps) (blocks : list (string * DraftContentBlock)).

Local Abbreviation importAll := (importBlocks Date_getTime now).

(** The two loops visit the blocks of all pages in order. *)
Lemma importBlocks_cons k b blocks maps :
  importAll ((k, b) :: blocks) maps
  = importAll blocks (importBlock Date_getTime now maps (k, b)).
Proof. reflexivity. Qed.

Lemma importBlocks_app blocks1 blocks2 maps :
  importAll (blocks1 ++ blocks2) maps = importAll blocks2 (importAll blocks1 maps).
Proof. unfold importBlocks. apply fold_left_app. Qed.

Lemma importContent_flat (content : list (string * list (string * DraftContentBlock))) :
  importContent Date_getTime now content = importAll (flat_map snd content) (mkMaps ∅ ∅ ∅).
Proof.
  unfold importContent. generalize (mkMaps ∅ ∅ ∅).
  induction content as [|[page blocks] content IH]; intros maps; [done|].
  simpl. rewrite importBlocks_app. apply IH.
Qed.

Lemma shouldImport_spec (b : DraftContentBlock) :
  shouldImport b = true
  ↔ blk_hasUnpublishedChanges b = true ∨ blk_status b = status_draft.
Proof.
  unfold shouldImport. rewrite orb_true_iff, bool_decide_eq_true. done.
Qed.

(** A block that is not imported, or has another key, leaves the entries of
    [k] alone. *)
Lemma importBlock_other maps k k' b :
  (k' = k → shouldImport b = false) →
  newDraftChanges (importBlock Date_getTime now maps (k', b)) !! k
  = newDraftChanges maps !! k
  ∧ newOriginalContent (importBlock Date_getTime now maps (k', b)) !! k
    = newOriginalContent maps !! k
  ∧ newPublishedContent (importBlock Date_getTime now maps (k', b)) !! k
    = newPublishedContent maps !! k.
Proof.
  intros Hk. unfold importBlock. destruct (shouldImport b) eqn:Hb; [|done].
  assert (k' ≠ k) by (intros ->; by specialize (Hk eq_refl)).
  destruct (blockValues b) as [oldValue newValue]. simpl.
  by rewrite !lookup_insert_ne.
Qed.

Lemma importAll_other maps k blocks :
  (∀ b, (k, b) ∈ blocks → shouldImport b = false) →
  newDraftChanges (importAll blocks maps) !! k = newDraftChanges maps !! k
  ∧ newOriginalContent (importAll blocks maps) !! k = newOriginalContent maps !! k
  ∧ newPublishedContent (importAll blocks maps) !! k = newPublishedContent maps !! k.
Proof.
  revert maps. induction blocks as [|[k' b] blocks IH]; intros maps Hall; [done|].
  rewrite importBlocks_cons.
  destruct (IH (importBlock Date_getTime now maps (k', b))) as (Hd & Ho & Hp).
  { intros b' Hin. apply Hall. by right. }
  destruct (importBlock_other maps k k' b) as (Hd' & Ho' & Hp').
  { intros ->. apply Hall. by left. }
  rewrite Hd, Ho, Hp. done.
Qed.

(** What an imported block writes under its key. *)
Lemma importBlock_same maps k b :
  shouldImport b = true →
  newDraftChanges (importBlock Date_getTime now maps (k, b)) !! k
  = Some (plainUpdate k text (blockValues b).1 (blockValues b).2
            (if truthy_str (blk_publishedAt b)
             then Date_getTime (default "" (blk_publishedAt b)) else now))
  ∧ newOriginalContent (importBlock Date_getTime now maps (k, b)) !! k
    = Some (publishedOrEmpty b)
  ∧ newPublishedContent (importBlock Date_getTime now maps (k, b)) !! k
    = Some (publishedOrEmpty b).
Proof.
  intros Hb. unfold importBlock. rewrite Hb.
  destruct (blockValues b) as [oldValue newValue]. simpl.
  by rewrite !lookup_insert_eq.
Qed.

(** The three maps always have the same keys: those of the imported
    blocks. *)
Lemma importAll_keys maps k blocks :
  (is_Some (newDraftChanges (importAll blocks maps) !! k)
   ↔ is_Some (newDraftChanges maps !! k)
     ∨ ∃ b, (k, b) ∈ blocks ∧ shouldImport b = true)
  ∧ (is_Some (newOriginalContent (importAll blocks maps) !! k)
     ↔ is_Some (newOriginalContent maps !! k)
       ∨ ∃ b, (k, b) ∈ blocks ∧ shouldImport b = true)
  ∧ (is_Some (newPublishedContent (importAll blocks maps) !! k)
     ↔ is_Some (newPublishedContent maps !! k)
       ∨ ∃ b, (k, b) ∈ blocks ∧ shouldImport b = true).
Proof.
  revert maps. induction blocks as [|[k' b] blocks IH]; intros maps.
  - simpl. split_and!; (split; [auto | intros [?|(b & Hin & _)]; [done|]]);
      by apply elem_of_nil in Hin.
  - rewrite importBlocks_cons.
    destruct (IH (importBlock Date_getTime now maps (k', b))) as (Hd & Ho & Hp).
    rewrite Hd, Ho, Hp. clear Hd Ho Hp IH.
    destruct (decide (k' = k ∧ shouldImport b = true)) as [[-> Hb]|Hno].
    + destruct (importBlock_same maps k b Hb) as (-> & -> & ->).
      split_and!; (split; [intros _; right; exists b; split; [by left|done]
                          | intros _; left; eauto]).
    + destruct (importBlock_other maps k k' b) as (-> & -> & ->).
      { intros ->. destruct (shouldImport b) eqn:Hb; [|done]. by destruct Hno. }
      split_and!;
        (split;
         [ intros [?|(b' & Hin & Hb')]; [by left | right; exists b'; split; [by right|done]]
         | intros [?|(b' & Hin & Hb')]; [by left|];
           apply elem_of_cons in Hin as [[= <- <-]|Hin];
           [ by destruct Hno | right; eauto ] ]).
Qed.

(** The two loops import exactly the blocks that have unpublished changes
    or status [draft], and the three maps get the same keys.  For an
    imported block (the last one imported under its key, the
    maps being keyed by block key): when both a published and a draft value
    exist (present and non-empty, as the code tests them), the draft entry
    has [oldValue = publishedValue] and [newValue = draftValue], and the
    Original and Published maps hold the published value; when only a draft
    value exists, the draft entry has [oldValue = ""] and
    [newValue = draftValue], and Original and Published hold [""];
    otherwise the persisted current value is the draft entry's [newValue]
    (and its [oldValue] when the status is [published]). *)
Lemma importContent_rules
    (content : list (string * list (string * DraftContentBlock))) :
  let maps := importContent Date_getTime now content in
  let blocks := flat_map snd content in
  (∀ k,
     (is_Some (newDraftChanges maps !! k)
      ↔ ∃ b, (k, b) ∈ blocks
             ∧ (blk_hasUnpublishedChanges b = true ∨ blk_status b = status_draft))
     ∧ (is_Some (newOriginalContent maps !! k) ↔ is_Some (newDraftChanges maps !! k))
     ∧ (is_Some (newPublishedContent maps !! k) ↔ is_Some (newDraftChanges maps !! k)))
  ∧ (∀ before k b after,
       blocks = before ++ (k, b) :: after →
       blk_hasUnpublishedChanges b = true ∨ blk_status b = status_draft →
       (∀ b', (k, b') ∈ after →
              blk_hasUnpublishedChanges b' = false ∧ blk_status b' ≠ status_draft) →
       ∃ u original published,
         newDraftChanges maps !! k = Some u
         ∧ newOriginalContent maps !! k = Some original
         ∧ newPublishedContent maps !! k = Some published
         ∧ cu_elementId u = k
         ∧ (∀ p d, blk_publishedValue b = Some p → p ≠ "" →
                   blk_draftValue b = Some d → d ≠ "" →
                   cu_oldValue u = JStr p ∧ cu_newValue u = JStr d
                   ∧ original = JStr p ∧ published = JStr p)
         ∧ (∀ d, blk_draftValue b = Some d → d ≠ "" →
                 blk_publishedValue b = None ∨ blk_publishedValue b = Some "" →
                 cu_oldValue u = JStr "" ∧ cu_newValue u = JStr d
                 ∧ original = JStr "" ∧ published = JStr "")
         ∧ (blk_draftValue b = None ∨ blk_draftValue b = Some "" →
            cu_newValue u = JStr (blk_value b)
            ∧ cu_oldValue u
              = JStr (if bool_decide (blk_status b = status_published)
                      then blk_value b else "")
            ∧ original = JStr (default "" (blk_publishedValue b))
            ∧ published = JStr (default "" (blk_publishedValue b)))).
Proof.
  intros maps blocks. subst maps. rewrite importContent_flat. fold blocks.
  split.
  - intros k. destruct (importAll_keys (mkMaps ∅ ∅ ∅) k blocks) as (Hd & Ho & Hp).
    simpl in Hd, Ho, Hp. rewrite Hd, Ho, Hp.
    assert (Hnone : ¬ is_Some ((∅ : gmap string ContentUpdate) !! k)).
    { rewrite lookup_empty. by intros [? ?]. }
    assert (Hnone' : ¬ is_Some ((∅ : gmap string JsValue) !! k)).
    { rewrite lookup_empty. by intros [? ?]. }
    split_and!.
    + split.
      * intros [?|(b & Hin & Hb)]; [done|]. exists b. by rewrite <- shouldImport_spec.
      * intros (b & Hin & Hb). right. exists b. by rewrite shouldImport_spec.
    + split; (intros [?|?]; [done|by right]).
    + split; (intros [?|?]; [done|by right]).
  - intros before k b after -> Hb Hafter.
    apply shouldImport_spec in Hb.
    rewrite importBlocks_app, importBlocks_cons.
    destruct (importAll_other
                (importBlock Date_getTime now (importAll before (mkMaps ∅ ∅ ∅)) (k, b))
                k after) as (-> & -> & ->).
    { intros b' Hin. destruct (Hafter b' Hin) as [H1 H2].
      unfold shouldImport. rewrite H1. simpl. by apply bool_decide_eq_false. }
    destruct (importBlock_same (importAll before (mkMaps ∅ ∅ ∅)) k b Hb)
      as (-> & -> & ->).
    eexists _, _, _. split_and!; try reflexivity.
    + intros p d Hp Hpne Hd Hdne. unfold blockValues, publishedOrEmpty.
      rewrite Hp, Hd. simpl.
      destruct (String.eqb_spec p ""); [done|].
      destruct (String.eqb_spec d ""); [done|]. done.
    + intros d Hd Hdne Hp. unfold blockValues, publishedOrEmpty.
      rewrite Hd. simpl. destruct (String.eqb_spec d ""); [done|].
      destruct Hp as [-> | ->]; done.
    + intros Hd. unfold blockValues, publishedOrEmpty.
      assert (Hfalse : truthy_str (blk_draftValue b) = false)
        by (destruct Hd as [-> | ->]; done).
      rewrite Hfalse, andb_false_r. simpl. split_and!; try reflexivity.
      * destruct (blk_publishedValue b) as [p|]; [|done]. simpl.
        by destruct (String.eqb_spec p "") as [->|].
      * destruct (blk_publishedValue b) as [p|]; [|done]. simpl.
        by destruct (String.eqb_spec p "") as [->|].
Qed.

(** The file-based content that [loadDraftContent] itself converts has no
    draft values, so from it nothing is imported. *)
Lemma converted_content_imports_nothing (Date_toISOString : Z → string)
    (siteId' : string) (siteData : SiteData) :
  importContent Date_getTime now
    (content (convertSiteData Date_toISOString siteId' now siteData))
  = mkMaps ∅ ∅ ∅.
Proof.
  rewrite importContent_flat. simpl. generalize (mkMaps ∅ ∅ ∅).
  induction (pages siteData) as [|[page blocks] rest IH]; intros maps; [done|].
  simpl. rewrite importBlocks_app. rewrite IH. clear IH.
  induction blocks as [|[k v] blocks IH]; [done|]. simpl. exact IH.
Qed.

(** Every block that [loadDraftContent] builds from the file-based
    content is published and carries no draft. *)
Lemma converted_blocks_published (Date_toISOString : Z → string)
    (siteId' : string) (siteData : SiteData) k b :
  (k, b) ∈ flat_map snd (content (convertSiteData Date_toISOString siteId' now siteData)) →
  blk_status b = status_published
  ∧ blk_hasUnpublishedChanges b = false
  ∧ blk_draftValue b = None
  ∧ blk_publishedValue b = Some (blk_value b)
  ∧ ∃ (page : string) (persisted : list (string * RawBlock)) value,
      (page, persisted) ∈ pages siteData ∧ (k, value) ∈ persisted
      ∧ blk_value b = rawToString value.
Proof.
  simpl. induction (pages siteData) as [|[page persisted] rest IH].
  - intros Hin. by apply elem_of_nil in Hin.
  - simpl. rewrite elem_of_app. intros [Hin|Hin].
    + apply list_elem_of_fmap in Hin as ([k' value] & [= -> ->] & Hin).
      split_and!; try reflexivity. exists page, persisted, value.
      split_and!; [by left|done|done].
    + destruct (IH Hin) as (? & ? & ? & ? & page' & persisted' & value & ? & ? & ?).
      split_and!; try done. exists page', persisted', value.
      split_and!; [by right|done|done].
Qed.

(** C4, as the code has it: the reconciliation loops of
    [loadDraftContent] import exactly the blocks that have unpublished
    changes or status [draft], by the rules of the claim (both values
    exist: old value and Original and Published are the published value,
    new value is the draft value; only a draft value: old value, Original
    and Published are the empty string; otherwise the current value), and
    the store receives the maps they build.  But every block that
    [loadDraftContent] hands to the loops is built from the file-based
    content as published, without draft value and without unpublished
    changes, its published value being the persisted value; so no
    persisted block is imported: after a successful load the Draft,
    Original and Published maps are empty and [hasUnpublishedChanges] is
    false, whatever is persisted. *)
Theorem reconciliation_imports (Date_toISOString : Z → string) (siteId' : string)
    (siteData : SiteData) (state : EditorState) :
  let draftData := convertSiteData Date_toISOString siteId' now siteData in
  let loaded :=
    (loadDraftContent Date_getTime Date_toISOString siteId' now (Some siteData) state).1 in
  (draftChanges loaded = newDraftChanges (importContent Date_getTime now (content draftData))
   ∧ originalContent loaded
     = newOriginalContent (importContent Date_getTime now (content draftData))
   ∧ publishedContent loaded
     = newPublishedContent (importContent Date_getTime now (content draftData))
   ∧ hasUnpublishedChanges loaded
     = Nat.ltb 0 (size (newDraftChanges
                          (importContent Date_getTime now (content draftData)))))
  ∧ (∀ content' : list (string * list (string * DraftContentBlock)),
       let maps := importContent Date_getTime now content' in
       let blocks := flat_map snd content' in
       (∀ k,
          (is_Some (newDraftChanges maps !! k)
           ↔ ∃ b, (k, b) ∈ blocks
                  ∧ (blk_hasUnpublishedChanges b = true ∨ blk_status b = status_draft))
          ∧ (is_Some (newOriginalContent maps !! k) ↔ is_Some (newDraftChanges maps !! k))
          ∧ (is_Some (newPublishedContent maps !! k)
             ↔ is_Some (newDraftChanges maps !! k)))
       ∧ (∀ before k b after,
            blocks = before ++ (k, b) :: after →
            blk_hasUnpublishedChanges b = true ∨ blk_status b = status_draft →
            (∀ b', (k, b') ∈ after →
                   blk_hasUnpublishedChanges b' = false ∧ blk_status b' ≠ status_draft) →
            ∃ u original published,
              newDraftChanges maps !! k = Some u
              ∧ newOriginalContent maps !! k = Some original
              ∧ newPublishedContent maps !! k = Some published
              ∧ cu_elementId u = k
              ∧ (∀ p d, blk_publishedValue b = Some p → p ≠ "" →
                        blk_draftValue b = Some d → d ≠ "" →
                        cu_oldValue u = JStr p ∧ cu_newValue u = JStr d
                        ∧ original = JStr p ∧ published = JStr p)
              ∧ (∀ d, blk_draftValue b = Some d → d ≠ "" →
                      blk_publishedValue b = None ∨ blk_publishedValue b = Some "" →
                      cu_oldValue u = JStr "" ∧ cu_newValue u = JStr d
                      ∧ original = JStr "" ∧ published = JStr "")
              ∧ (blk_draftValue b = None ∨ blk_draftValue b = Some "" →
                 cu_newValue u = JStr (blk_value b)
                 ∧ cu_oldValue u
                   = JStr (if bool_decide (blk_status b = status_published)
                           then blk_value b else "")
                 ∧ original = JStr (default "" (blk_publishedValue b))
                 ∧ published = JStr (default "" (blk_publishedValue b)))))
  ∧ (∀ k b, (k, b) ∈ flat_map snd (content draftData) →
            blk_status b = status_published
            ∧ blk_hasUnpublishedChanges b = false
            ∧ blk_draftValue b = None
            ∧ blk_publishedValue b = Some (blk_value b)
            ∧ ∃ (page : string) (persisted : list (string * RawBlock)) value,
                (page, persisted) ∈ pages siteData ∧ (k, value) ∈ persisted
                ∧ blk_value b = rawToString value)
  ∧ draftChanges loaded = ∅
  ∧ originalContent loaded = ∅
  ∧ publishedContent loaded = ∅
  ∧ hasUnpublishedChanges loaded = false.
Proof.
  intros draftData loaded.
  split; [subst loaded draftData; split_and!; reflexivity|].
  split; [intros content'; apply importContent_rules|].
  split; [intros k b; apply converted_blocks_published|].
  subst loaded. unfold loadDraftContent, loadDraftContent_finish. cbv zeta.
  rewrite converted_content_imports_nothing. split_and!; reflexivity.
Qed.

End Reconciliation.

Section ReconciliationScenarios.
Import editorStore Samples.

Lemma reconciliation_imports_witness :
  let loaded :=
    (loadDraftContent epoch isoDate "demo" 1700000000003 (Some persisted_site)
       (initializeEditor "demo" initialState)).1 in
  draftChanges loaded = ∅
  ∧ (∃ u, newDraftChanges (importContent epoch 1700000000003 sample_content)
          !! "hero-title" = Some u
          ∧ cu_oldValue u = JStr "Hello" ∧ cu_newValue u = JStr "Hello there").
Proof.
  intros loaded.
  pose proof (reconciliation_imports epoch 1700000000003 isoDate "demo" persisted_site
                (initializeEditor "demo" initialState)) as (_ & Hrules & _ & Hd & _).
  split; [exact Hd|].
  destruct (proj2 (Hrules sample_content) [] "hero-title" edited_block
              [("hero-subtitle", new_block); ("about-title", published_block)])
    as (u & o & p & Hu & _ & _ & _ & Hboth & _).
  - reflexivity.
  - by left.
  - intros b' Hin. exfalso. revert Hin. rewrite !elem_of_cons, elem_of_nil.
    intros [[=]|[[=]|[]]].
  - destruct (Hboth "Hello" "Hello there") as (? & ? & _); try done.
    by exists u.
Defined.

(** C4 as the claim states it fails: content persisted with a published
    value [Hello], a draft value [Hello there] and unpublished changes for
    one block, and with only a draft value [New] for another, is loaded
    without any entry in the Draft, Original and Published maps; and no
    persisted content at all, on any store and with any clock, makes a
    load yield a Draft entry. *)
Lemma persisted_draft_not_imported :
  let loaded :=
    (loadDraftContent epoch isoDate "demo" 1700000000003 (Some persisted_site)
       (initializeEditor "demo" initialState)).1 in
  draftChanges loaded !! "hero-title" = None
  ∧ originalContent loaded !! "hero-title" = None
  ∧ publishedContent loaded !! "hero-title" = None
  ∧ draftChanges loaded !! "hero-subtitle" = None
  ∧ originalContent loaded !! "hero-subtitle" = None
  ∧ hasUnpublishedChanges loaded = false
  ∧ ¬ (∃ u, draftChanges loaded !! "hero-title" = Some u
            ∧ cu_oldValue u = JStr "Hello" ∧ cu_newValue u = JStr "Hello there")
  ∧ ¬ (∃ (Date_getTime : string → Z) (Date_toISOString : Z → string)
         (siteId' : string) (now : Z) (siteData : SiteData) (state : EditorState)
         (k : string) (u : ContentUpdate),
         draftChanges
           (loadDraftContent Date_getTime Date_toISOString siteId' now (Some siteData)
              state).1 !! k
         = Some u).
Proof.
  intros loaded. split_and!; try reflexivity.
  - intros (u & Hu & _). discriminate Hu.
  - intros (getTime & toISOString & siteId' & now & siteData & state & k & u & Hu).
    unfold loadDraftContent, loadDraftContent_finish in Hu. cbv zeta in Hu.
    rewrite converted_content_imports_nothing in Hu. simpl in Hu.
    by rewrite lookup_empty in Hu.
Qed.

(** The two scenarios, by running the loops. *)
Lemma reconciliation_scenarios :
  let maps := importContent epoch 1700000000000 sample_content in
  newDraftChanges maps !! "hero-title"
  = Some (plainUpdate "hero-title" text (JStr "Hello") (JStr "Hello there") 1700000000000)
  ∧ newOriginalContent maps !! "hero-title" = Some (JStr "Hello")
  ∧ newPublishedContent maps !! "hero-title" = Some (JStr "Hello")
  ∧ newDraftChanges maps !! "hero-subtitle"
    = Some (plainUpdate "hero-subtitle" text (JStr "") (JStr "New") 1700000000000)
  ∧ newOriginalContent maps !! "hero-subtitle" = Some (JStr "")
  ∧ newDraftChanges maps !! "about-title" = None
  ∧ size (newDraftChanges maps) = 2%nat.
Proof. vm_compute. done. Qed.

End ReconciliationScenarios.

(** * Properties of the preview agent *)

Section AgentProperties.
Import Dom ClientEditorBridge.
Variable cssQuery : string → Document → option NodeId.
Variable getBoundingClientRect : Document → NodeId → DOMRect.
Implicit Types (w : World) (st : Stamp).

Lemma quiet_refl w : isInEditorMode (agent w) = false → quiet w w.
Proof. by split. Qed.

Lemma quiet_sendToEditor w w1 st type payload :
  quiet w w1 → quiet w (sendToEditor st type payload w1).
Proof. intros [Hm Hp]. unfold sendToEditor. by rewrite Hm. Qed.

Lemma quiet_setPage w w1 p : quiet w w1 → quiet w (setPage p w1).
Proof. by intros [Hm Hp]. Qed.

Lemma quiet_setDocument w w1 doc : quiet w w1 → quiet w (setDocument doc w1).
Proof. by intros [Hm Hp]. Qed.

Lemma quiet_onElement w w1 id f : quiet w w1 → quiet w (onElement id f w1).
Proof. by intros [Hm Hp]. Qed.

Lemma quiet_setAgent w w1 a :
  quiet w w1 → isInEditorMode a = false → quiet w (setAgent a w1).
Proof. by intros [Hm Hp] Ha. Qed.

Lemma quiet_emit w w1 e :
  quiet w w1 → postedToParent [e] = [] → quiet w (emit e w1).
Proof.
  intros [Hm Hp] He. split; [done|]. simpl. unfold postedToParent in *.
  by rewrite omap_app, He, app_nil_r.
Qed.

Lemma quiet_fold {A} w w1 (f : World → A → World) (l : list A) :
  (∀ w2 a, quiet w w2 → quiet w (f w2 a)) →
  quiet w w1 → quiet w (fold_left f l w1).
Proof.
  intros Hf. revert w1. induction l as [|a l IH]; intros w1 Hq; [done|].
  simpl. apply IH, Hf, Hq.
Qed.

Ltac quiet_step :=
  first
    [ assumption
    | apply quiet_sendToEditor
    | apply quiet_setPage
    | apply quiet_setDocument
    | apply quiet_onElement
    | apply quiet_emit; [|reflexivity]
    | apply quiet_setAgent; [|simpl; match goal with H : quiet _ _ |- _ => apply H end]
    | apply quiet_fold; [intros ? ? ?|]
    | case_match ].

Lemma quiet_exitEditMode w w1 st : quiet w w1 → quiet w (exitEditMode st w1).
Proof. intros Hq. unfold exitEditMode. repeat quiet_step. Qed.

Lemma quiet_dispatchBlur w w1 st target :
  quiet w w1 → quiet w (dispatchBlur st target w1).
Proof.
  intros Hq. unfold dispatchBlur. apply quiet_fold; [|done].
  intros w2 _ Hq2. by apply quiet_exitEditMode.
Qed.

Lemma quiet_blur w w1 st target : quiet w w1 → quiet w (blur st target w1).
Proof.
  intros Hq. unfold blur. case_match; [|done].
  by apply quiet_dispatchBlur, quiet_setPage.
Qed.

Lemma quiet_focus w w1 st target : quiet w w1 → quiet w (focus st target w1).
Proof.
  intros Hq. unfold focus. case_match; [done|].
  case_match; [apply quiet_dispatchBlur|]; by apply quiet_setPage.
Qed.

Lemma quiet_selectElement w w1 st element :
  quiet w w1 → quiet w (selectElement getBoundingClientRect st element w1).
Proof.
  intros Hq. unfold selectElement. destruct element as [id|]; [|done].
  set (wa := match selectedElement (agent w1) with
             | Some sel => onElement sel (removeAttribute "data-editor-selected") w1
             | None => w1
             end).
  assert (Hqa : quiet w wa).
  { subst wa. case_match; [by apply quiet_onElement|done]. }
  clearbody wa.
  set (wb := setAgent _ (onElement id _ wa)).
  assert (Hqb : quiet w wb).
  { subst wb. apply quiet_setAgent; [by apply quiet_onElement|]. apply Hqa. }
  clearbody wb.
  case_match; [by apply quiet_sendToEditor|done].
Qed.

Lemma quiet_updateElementContent w w1 st elementId content :
  quiet w w1 → quiet w (updateElementContent st elementId content w1).
Proof. intros Hq. unfold updateElementContent. repeat quiet_step. Qed.

Lemma quiet_enterEditMode w w1 st elementId :
  quiet w w1 → quiet w (enterEditMode st elementId w1).
Proof.
  intros Hq. unfold enterEditMode. repeat case_match; try done.
  by apply quiet_setPage, quiet_focus, quiet_onElement.
Qed.

(** Any message but [EDITOR_READY] keeps the agent in normal mode and
    posts nothing. *)
Lemma quiet_handleEditorMessage w w1 st message :
  in_type message ≠ Some "EDITOR_READY" →
  quiet w w1 →
  quiet w (handleEditorMessage cssQuery getBoundingClientRect st message w1).
Proof.
  intros Hne Hq. unfold handleEditorMessage.
  destruct (in_type message) as [type|]; [|done].
  rewrite bool_decide_eq_false_2 by congruence.
  repeat case_match; try done;
    first [ by apply quiet_selectElement
          | by apply quiet_updateElementContent
          | by apply quiet_enterEditMode
          | by apply quiet_exitEditMode ].
Qed.

Lemma quiet_step_event w w1 (e : Event) :
  notEditorReady e = true →
  quiet w w1 →
  quiet w (step cssQuery getBoundingClientRect w1 e).
Proof.
  intros He Hq. destruct e as [st target|st origin data|st target|st target key shift];
    simpl.
  - unfold clickListener. destruct Hq as [Hm Hp]. rewrite Hm. by split.
  - unfold messageListener.
    set (w2 := if negb (truthy_str (editorOrigin (agent w1)))
                  && includes "localhost:3000" origin
               then setAgent (mkAgent (isInEditorMode (agent w1)) (Some origin)
                                (selectedElement (agent w1))) w1
               else w1).
    assert (Hq2 : quiet w w2).
    { subst w2. case_match; [|done]. apply quiet_setAgent; [done|]. apply Hq. }
    case_match; [done|].
    destruct data as [message|]; [|done].
    apply quiet_handleEditorMessage; [|done].
    simpl in He. by apply negb_true_iff, bool_decide_eq_false in He.
  - by apply quiet_blur.
  - apply quiet_fold; [|done]. intros w2 _ Hq2. unfold keydownListener.
    case_match; [|done]. apply quiet_blur. by apply quiet_emit.
Qed.

Lemma quiet_run w w1 (events : list Event) :
  Forall (λ e, notEditorReady e = true) events →
  quiet w w1 →
  quiet w (run cssQuery getBoundingClientRect w1 events).
Proof.
  intros Hall. revert w1. induction Hall as [|e events He _ IH]; intros w1 Hq; [done|].
  simpl. apply IH. by apply quiet_step_event.
Qed.

(** In normal mode a click is not handled at all. *)
Lemma clicks_ignored w (events : list Event) :
  isInEditorMode (agent w) = false →
  Forall (λ e, isClick e = true) events →
  run cssQuery getBoundingClientRect w events = w.
Proof.
  intros Hm Hall. induction Hall as [|e events He _ IH]; [done|].
  destruct e; try discriminate. simpl. unfold clickListener. rewrite Hm. simpl.
  exact IH.
Qed.

(** C9, as the code has it: in a document that is not embedded the agent
    starts in normal mode, announces nothing and leaves the page as it is;
    every sequence of click events then leaves agent and page unchanged and
    produces no effect; and along every sequence of events without an
    inbound [EDITOR_READY] the agent stays in normal mode and posts no
    message to the parent window. *)
Theorem inactive_outside_editor st (p : Page) (events : list Event) :
  let w0 := constructor st false p in
  w0 = mkWorld (mkAgent false None None) p []
  ∧ (Forall (λ e, isClick e = true) events →
     run cssQuery getBoundingClientRect w0 events = w0)
  ∧ (Forall (λ e, notEditorReady e = true) events →
     isInEditorMode (agent (run cssQuery getBoundingClientRect w0 events)) = false
     ∧ postedToParent (effects (run cssQuery getBoundingClientRect w0 events)) = []).
Proof.
  intros w0. split_and!.
  - reflexivity.
  - intros Hall. by apply clicks_ignored.
  - intros Hall. by apply (quiet_run w0 w0 events Hall), quiet_refl.
Qed.

End AgentProperties.

Section AgentScenarios.
Import Dom ClientEditorBridge Samples.

Lemma inactive_outside_editor_witness :
  let w0 := constructor sample_stamp false sample_page in
  run noCss noLayout w0 [Click sample_stamp 3%nat; Click sample_stamp 2%nat] = w0
  ∧ postedToParent
      (effects (run noCss noLayout w0
                  [Click sample_stamp 3%nat;
                   Message sample_stamp "http://localhost:3000" (Some update_command)]))
    = [].
Proof.
  intros w0. split.
  - refine (proj1 (proj2 (inactive_outside_editor noCss noLayout sample_stamp
                            sample_page _)) _).
    repeat constructor.
  - refine (proj2 (proj2 (proj2 (inactive_outside_editor noCss noLayout sample_stamp
                            sample_page _)) _)).
    repeat constructor.
Defined.

(** C9 as the claim states it fails: in a document that is not embedded,
    an inbound [UPDATE_CONTENT] rewrites the heading, and after an inbound
    [EDITOR_READY] a click on the heading marks it as selected and posts
    [ELEMENT_SELECTED] to [window.parent]. *)
Lemma standalone_page_counterexample :
  let w0 := constructor sample_stamp false sample_page in
  let updated :=
    run noCss noLayout w0
      [Message sample_stamp "http://localhost:3000" (Some update_command)] in
  let clicked :=
    run noCss noLayout w0
      [Message sample_stamp "http://localhost:3000" (Some editor_ready_command);
       Click sample_stamp 3%nat] in
  document (page w0) = sample_document
  ∧ document (page updated) ≠ document (page w0)
  ∧ (textContent <$> getElement (document (page updated)) 3%nat) = Some "Changed"
  ∧ document (page clicked) ≠ document (page w0)
  ∧ (im_type <$> postedToParent (effects clicked)) = [Some "ELEMENT_SELECTED"].
Proof.
  split_and!.
  - reflexivity.
  - vm_compute. discriminate.
  - vm_compute. reflexivity.
  - vm_compute. discriminate.
  - vm_compute. reflexivity.
Qed.

End AgentScenarios.

(** * Further properties of the editor store *)

Section StoreBaselines.
Import editorStore useEditorState Samples.
Implicit Types (state : EditorState) (r : Recording) (rs : list Recording) (k : string).

Lemma originalContent_seededOnce : seededOnce originalContent.
Proof.
  intros state r k. unfold record, addContentChange. simpl.
  case_bool_decide as Hin.
  - destruct (originalContent state !! k) eqn:E; [done|].
    case_decide as Hk; [|done]. subst k. rewrite E in Hin. by destruct Hin.
  - destruct (decide (cu_elementId (rec_update r) = k)) as [<-|Hne].
    + rewrite lookup_insert_eq.
      destruct (originalContent state !! _) eqn:E; [|done].
      exfalso. apply Hin. eauto.
    + rewrite lookup_insert_ne by done. by destruct (_ !! k).
Qed.

Lemma publishedContent_seededOnce : seededOnce publishedContent.
Proof.
  intros state r k. unfold record, addContentChange. simpl.
  case_bool_decide as Hin.
  - destruct (publishedContent state !! k) eqn:E; [done|].
    case_decide as Hk; [|done]. subst k. rewrite E in Hin. by destruct Hin.
  - destruct (decide (cu_elementId (rec_update r) = k)) as [<-|Hne].
    + rewrite lookup_insert_eq.
      destruct (publishedContent state !! _) eqn:E; [|done].
      exfalso. apply Hin. eauto.
    + rewrite lookup_insert_ne by done. by destruct (_ !! k).
Qed.

Lemma seededOnce_kept proj state rs k v :
  seededOnce proj → proj state !! k = Some v → proj (recordAll state rs) !! k = Some v.
Proof.
  intros Hs. revert state. induction rs as [|r rs IH]; intros state Hk; [done|].
  simpl. apply IH. by rewrite Hs, Hk.
Qed.

Lemma seededOnce_untouched proj state rs k :
  seededOnce proj →
  proj state !! k = None →
  (∀ r, r ∈ rs → cu_elementId (rec_update r) ≠ k) →
  proj (recordAll state rs) !! k = None.
Proof.
  intros Hs. revert state. induction rs as [|r rs IH]; intros state Hk Hall; [done|].
  simpl. apply IH.
  - rewrite Hs, Hk. rewrite decide_False; [done|]. apply Hall. by left.
  - intros r' Hin. apply Hall. by right.
Qed.

Lemma seededOnce_first proj state before r after k :
  seededOnce proj →
  proj state !! k = None →
  cu_elementId (rec_update r) = k →
  (∀ r', r' ∈ before → cu_elementId (rec_update r') ≠ k) →
  proj (recordAll state (before ++ r :: after)) !! k = Some (cu_oldValue (rec_update r)).
Proof.
  intros Hs Hk Hr Hbefore. unfold recordAll. rewrite fold_left_app. simpl.
  apply (seededOnce_kept proj _ after k _ Hs).
  rewrite Hs. fold (recordAll state before).
  rewrite (seededOnce_untouched proj state before k Hs Hk Hbefore).
  by rewrite decide_True.
Qed.

(** X1: the Original and Published maps are seeded once.  Along any
    sequence of recordings an entry that exists is never overwritten, and
    an element without an entry gets the old value of its first recorded
    change. *)
Theorem baselines_set_once state rs k :
  (∀ v, originalContent state !! k = Some v →
        originalContent (recordAll state rs) !! k = Some v)
  ∧ (∀ v, publishedContent state !! k = Some v →
          publishedContent (recordAll state rs) !! k = Some v)
  ∧ (∀ before r after,
       rs = before ++ r :: after →
       cu_elementId (rec_update r) = k →
       (∀ r', r' ∈ before → cu_elementId (rec_update r') ≠ k) →
       (originalContent state !! k = None →
        originalContent (recordAll state rs) !! k = Some (cu_oldValue (rec_update r)))
       ∧ (publishedContent state !! k = None →
          publishedContent (recordAll state rs) !! k
          = Some (cu_oldValue (rec_update r)))).
Proof.
  split_and!.
  - intros v. apply seededOnce_kept, originalContent_seededOnce.
  - intros v. apply seededOnce_kept, publishedContent_seededOnce.
  - intros before r after -> Hr Hbefore. split; intros Hk.
    + by apply seededOnce_first; [apply originalContent_seededOnce|..].
    + by apply seededOnce_first; [apply publishedContent_seededOnce|..].
Qed.

Lemma baselines_set_once_witness :
  let s := recordAll (initializeEditor "demo" initialState)
             [sample_recording "hero-title" "Welcome" "Hello";
              sample_recording "hero-title" "Hello" "Hi"] in
  originalContent s !! "hero-title" = Some (JStr "Welcome").
Proof.
  intros s.
  refine (proj1 (proj2 (proj2 (baselines_set_once (initializeEditor "demo" initialState)
            [sample_recording "hero-title" "Welcome" "Hello";
             sample_recording "hero-title" "Hello" "Hi"] "hero-title"))
            [] (sample_recording "hero-title" "Welcome" "Hello")
            [sample_recording "hero-title" "Hello" "Hi"] _ _ _) _).
  - reflexivity.
  - reflexivity.
  - intros r' Hin. by apply elem_of_nil in Hin.
  - reflexivity.
Defined.

Lemma record_draftChanges state r k :
  draftChanges (record state r) !! k
  = if decide (cu_elementId (rec_update r) = k)
    then Some (with_oldValue (rec_update r)
                 (Js.or (default JUndefined (publishedContent state !! k))
                        (cu_oldValue (rec_update r))))
    else draftChanges state !! k.
Proof.
  unfold record, addContentChange. simpl. case_decide as Hk.
  - subst k. apply lookup_insert_eq.
  - by apply lookup_insert_ne.
Qed.

Lemma recordAll_draft_untouched state rs k :
  (∀ r, r ∈ rs → cu_elementId (rec_update r) ≠ k) →
  draftChanges (recordAll state rs) !! k = draftChanges state !! k.
Proof.
  revert state. induction rs as [|r rs IH]; intros state Hall; [done|].
  simpl. rewrite IH by (intros r' Hin; apply Hall; by right).
  rewrite record_draftChanges, decide_False; [done|]. apply Hall. by left.
Qed.

(** X2: the Draft map is last-write-wins per element.  After a sequence of
    recordings the entry of an element is the one written by its last
    recording (same element, type, new value and timestamp), and elements
    that were not recorded keep the entry they had. *)
Theorem draft_last_write_wins state rs k :
  ((∀ r, r ∈ rs → cu_elementId (rec_update r) ≠ k) →
   draftChanges (recordAll state rs) !! k = draftChanges state !! k)
  ∧ (∀ before r after,
       rs = before ++ r :: after →
       cu_elementId (rec_update r) = k →
       (∀ r', r' ∈ after → cu_elementId (rec_update r') ≠ k) →
       ∃ u, draftChanges (recordAll state rs) !! k = Some u
            ∧ cu_elementId u = k
            ∧ cu_type u = cu_type (rec_update r)
            ∧ cu_newValue u = cu_newValue (rec_update r)
            ∧ cu_timestamp u = cu_timestamp (rec_update r)).
Proof.
  split; [apply recordAll_draft_untouched|].
  intros before r after -> Hr Hafter.
  unfold recordAll. rewrite fold_left_app. simpl.
  fold (recordAll state before). fold (recordAll (record (recordAll state before) r) after).
  rewrite recordAll_draft_untouched by exact Hafter.
  rewrite record_draftChanges, decide_True by exact Hr.
  eexists. split; [reflexivity|]. by rewrite <- Hr.
Qed.

Lemma draft_last_write_wins_witness :
  let s := recordAll (initializeEditor "demo" initialState)
             [sample_recording "hero-title" "Welcome" "Hello";
              sample_recording "hero-title" "Hello" "Hi"] in
  ∃ u, draftChanges s !! "hero-title" = Some u ∧ cu_newValue u = JStr "Hi".
Proof.
  intros s.
  destruct (proj2 (draft_last_write_wins (initializeEditor "demo" initialState)
              [sample_recording "hero-title" "Welcome" "Hello";
               sample_recording "hero-title" "Hello" "Hi"] "hero-title")
              [sample_recording "hero-title" "Welcome" "Hello"]
              (sample_recording "hero-title" "Hello" "Hi") [])
    as (u & Hu & _ & _ & Hv & _).
  - reflexivity.
  - reflexivity.
  - intros r' Hin. by apply elem_of_nil in Hin.
  - exists u. split; [exact Hu | exact Hv].
Defined.

End StoreBaselines.

Section StorePublishing.
Import editorStore useEditorState Samples.
Implicit Types (state : EditorState) (r : Recording) (k : string).

Lemma markDraftsPublished_lookup state k :
  publishedContent (markDraftsPublished state) !! k
  = match draftChanges state !! k with
    | Some d => Some (cu_newValue d)
    | None => publishedContent state !! k
    end.
Proof.
  unfold markDraftsPublished. simpl. revert k.
  apply (map_fold_weak_ind
           (λ (res : gmap string JsValue) (m : gmap string ContentUpdate),
              ∀ k, res !! k = match m !! k with
                              | Some d => Some (cu_newValue d)
                              | None => publishedContent state !! k
                              end)).
  - intros k. by rewrite lookup_empty.
  - intros i x m res Hnone IH k. destruct (decide (i = k)) as [->|Hne].
    + by rewrite !lookup_insert_eq.
    + rewrite !lookup_insert_ne by done. apply IH.
Qed.

(** X3: publishing copies every draft value into the Published map and
    clears the unpublished flag, and nothing else: entries of elements
    without a draft stay as they are, and the Draft map, the Original map,
    the history and the unsaved flag are untouched. *)
Theorem publish_copies_drafts state :
  (∀ k d, draftChanges state !! k = Some d →
          publishedContent (markDraftsPublished state) !! k = Some (cu_newValue d))
  ∧ (∀ k, draftChanges state !! k = None →
          publishedContent (markDraftsPublished state) !! k
          = publishedContent state !! k)
  ∧ draftChanges (markDraftsPublished state) = draftChanges state
  ∧ originalContent (markDraftsPublished state) = originalContent state
  ∧ history (markDraftsPublished state) = history state
  ∧ hasUnsavedEdits (markDraftsPublished state) = hasUnsavedEdits state
  ∧ hasUnpublishedChanges (markDraftsPublished state) = false.
Proof.
  split_and!; try reflexivity.
  - intros k d Hd. by rewrite markDraftsPublished_lookup, Hd.
  - intros k Hd. by rewrite markDraftsPublished_lookup, Hd.
Qed.

Lemma publish_copies_drafts_witness :
  let s := record (initializeEditor "demo" initialState)
             (sample_recording "hero-title" "Welcome" "Hello") in
  publishedContent s !! "hero-title" = Some (JStr "Welcome")
  ∧ publishedContent (markDraftsPublished s) !! "hero-title" = Some (JStr "Hello").
Proof.
  intros s. split; [reflexivity|].
  refine (proj1 (publish_copies_drafts s) "hero-title"
            (plainUpdate "hero-title" text (JStr "Welcome") (JStr "Hello") 1700000000000) _).
  reflexivity.
Defined.

(** X4: the draft entry written by a recording shows the published value
    as its old value.  After a publish, the next change of an element that
    had a draft gets that draft's value as [oldValue] when the value is
    truthy; a published value that is falsy (empty string, [false], [0])
    is passed over for the old value the caller gave. *)
Theorem draft_old_value_after_publish state r d :
  draftChanges state !! cu_elementId (rec_update r) = Some d →
  let s := record (markDraftsPublished state) r in
  ∃ u, draftChanges s !! cu_elementId (rec_update r) = Some u
       ∧ cu_newValue u = cu_newValue (rec_update r)
       ∧ (truthy (cu_newValue d) = true → cu_oldValue u = cu_newValue d)
       ∧ (truthy (cu_newValue d) = false → cu_oldValue u = cu_oldValue (rec_update r)).
Proof.
  intros Hd s. subst s. unfold record. rewrite addContentChange_draft.
  rewrite markDraftsPublished_lookup, Hd. simpl.
  eexists. split; [reflexivity|]. simpl. unfold Js.or.
  split_and!; [reflexivity| |]; intros Ht; by rewrite Ht.
Qed.

Lemma draft_old_value_after_publish_witness :
  let s0 := record (initializeEditor "demo" initialState)
              (sample_recording "hero-title" "Welcome" "Hello") in
  let s := record (markDraftsPublished s0) (sample_recording "hero-title" "typed" "Hi") in
  ∃ u, draftChanges s !! "hero-title" = Some u
       ∧ cu_newValue u = JStr "Hi" ∧ cu_oldValue u = JStr "Hello".
Proof.
  intros s0 s.
  destruct (draft_old_value_after_publish s0 (sample_recording "hero-title" "typed" "Hi")
              (plainUpdate "hero-title" text (JStr "Welcome") (JStr "Hello") 1700000000000))
    as (u & Hu & Hn & Ht & _).
  - reflexivity.
  - exists u. split; [exact Hu|]. split; [exact Hn|]. by apply Ht.
Defined.

(** X5: [hasActualChanges] is false exactly when every draft value is
    strictly equal to a recorded original that is not [undefined]; an
    element without an original counts as changed. *)
Theorem hasActualChanges_false_iff (drafts : gmap string ContentUpdate)
    (original : gmap string JsValue) :
  hasActualChanges drafts original = false
  ↔ ∀ k d, drafts !! k = Some d →
           original !! k = Some (cu_newValue d) ∧ cu_newValue d ≠ JUndefined.
Proof.
  unfold hasActualChanges. rewrite <- not_true_iff_false, existsb_exists. split.
  - intros Hno k d Hd.
    destruct (decide (original !! k = Some (cu_newValue d) ∧ cu_newValue d ≠ JUndefined))
      as [|Hbad]; [done|].
    exfalso. apply Hno. exists (k, d). split.
    + apply list_elem_of_In. by apply elem_of_map_to_list.
    + unfold strict_eq. apply orb_true_iff.
      destruct (original !! k) as [v|] eqn:E; simpl.
      * destruct (decide (v = JUndefined)) as [->|Hv].
        { left. by apply bool_decide_eq_true. }
        right. apply negb_true_iff, bool_decide_eq_false. intros Heq.
        apply Hbad. by subst v.
      * by left.
  - intros Hall [[k d] [Hin Hbad]].
    apply list_elem_of_In, elem_of_map_to_list in Hin.
    destruct (Hall k d Hin) as [Ho Hne]. rewrite Ho in Hbad. simpl in Hbad.
    unfold strict_eq in Hbad. apply orb_true_iff in Hbad as [Hb|Hb].
    + by apply bool_decide_eq_true in Hb.
    + apply negb_true_iff, bool_decide_eq_false in Hb. done.
Qed.

Lemma undo_single_change (bridge : bool) (rnd : string) (now now1 : Z)
    (c : ContentUpdate) (state : EditorState) :
  isExecutingCommand state = false →
  draftChanges state = ∅ →
  originalContent state = ∅ →
  let undone := (undo bridge now1 (addContentChange rnd now c state)).1 in
  originalContent undone = {[cu_elementId c := cu_oldValue c]}
  ∧ ∃ u, draftChanges undone = {[cu_elementId c := u]}
         ∧ cu_newValue u = cu_oldValue c.
Proof.
  intros He Hd Ho undone. subst undone. unfold undo.
  assert (Hlen : Nat.eqb (length (past (history (addContentChange rnd now c state)))) 0
                 = false).
  { simpl. rewrite length_app. simpl. apply Nat.eqb_neq. lia. }
  rewrite Hlen, addContentChange_executing, He. simpl.
  rewrite Hd, Ho. rewrite lookup_empty. simpl. rewrite lookup_insert_eq.
  split; [by rewrite insert_empty|].
  eexists. split; [by rewrite insert_insert_eq, insert_empty|]. reflexivity.
Qed.

(** X6: undoing the only change of a fresh editor brings the draft value
    back to the original, so [hasActualChanges] is false, yet the unsaved
    flag that drives the save button stays set. *)
Theorem undo_to_baseline_keeps_unsaved (bridge : bool) (siteId' rnd : string)
    (now now1 : Z) (c : ContentUpdate) (state : EditorState) :
  isExecutingCommand state = false →
  cu_oldValue c ≠ JUndefined →
  let undone :=
    (undo bridge now1 (addContentChange rnd now c (initializeEditor siteId' state))).1 in
  hasActualChanges (draftChanges undone) (originalContent undone) = false
  ∧ useHasUnsavedChanges undone = true
  ∧ hasUnpublishedChanges undone = true.
Proof.
  intros He Hold undone.
  destruct (undo_single_change bridge rnd now now1 c (initializeEditor siteId' state))
    as (Ho & u & Hd & Hu); [exact He | reflexivity | reflexivity |].
  fold undone in Ho, Hd. split_and!.
  - unfold hasActualChanges. rewrite Hd, Ho, map_to_list_singleton. simpl.
    rewrite lookup_singleton_eq, Hu. simpl. unfold strict_eq.
    rewrite bool_decide_eq_false_2 by done.
    by rewrite bool_decide_eq_true_2.
  - subst undone. unfold undo. simpl. by rewrite He.
  - subst undone. unfold undo. simpl. by rewrite He.
Qed.

Lemma undo_to_baseline_keeps_unsaved_witness :
  let undone :=
    (undo true 1700000000001
       (addContentChange "k3j5x9q2a" 1700000000000
          (sample_update "hero-title" "Welcome" "Hello")
          (initializeEditor "demo" initialState))).1 in
  hasActualChanges (draftChanges undone) (originalContent undone) = false
  ∧ useHasUnsavedChanges undone = true.
Proof.
  intros undone.
  destruct (undo_to_baseline_keeps_unsaved true "demo" "k3j5x9q2a" 1700000000000
              1700000000001 (sample_update "hero-title" "Welcome" "Hello") initialState)
    as (H1 & H2 & _).
  - reflexivity.
  - discriminate.
  - split; [exact H1 | exact H2].
Defined.

End StorePublishing.

(** * Further properties of undo and redo *)

Section UndoRedo.
Import editorStore useEditorState Samples.
Implicit Types (state : EditorState) (bridge : bool) (k : string).

Lemma undo_guard state :
  Nat.eqb (length (past (history state))) 0 || isExecutingCommand state
  = negb (useCanUndo state).
Proof.
  unfold useCanUndo. destruct (past (history state)); simpl; [done|].
  by rewrite negb_involutive.
Qed.

Lemma redo_guard state :
  Nat.eqb (length (future (history state))) 0 || isExecutingCommand state
  = negb (useCanRedo state).
Proof.
  unfold useCanRedo. destruct (future (history state)); simpl; [done|].
  by rewrite negb_involutive.
Qed.

Lemma useCanUndo_true state :
  useCanUndo state = true →
  isExecutingCommand state = false
  ∧ ∃ l e, past (history state) = l ++ [e].
Proof.
  unfold useCanUndo. intros [Hp He%negb_true_iff]%andb_true_iff. split; [done|].
  destruct (past (history state)) as [|x l] using rev_ind; [done|]. eauto.
Qed.

Lemma useCanRedo_true state :
  useCanRedo state = true →
  isExecutingCommand state = false
  ∧ ∃ e l, future (history state) = e :: l.
Proof.
  unfold useCanRedo. intros [Hp He%negb_true_iff]%andb_true_iff. split; [done|].
  destruct (future (history state)) as [|e l]; [done|]. eauto.
Qed.

Lemma undo_history state bridge now l e :
  isExecutingCommand state = false →
  past (history state) = l ++ [e] →
  history (undo bridge now state).1
  = mkHistory l e (present (history state) :: future (history state))
  ∧ isExecutingCommand (undo bridge now state).1 = false.
Proof.
  intros He Hp. unfold undo. rewrite undo_guard. unfold useCanUndo.
  rewrite He, Hp, length_app. simpl. rewrite Nat.add_1_r. simpl.
  by rewrite Hp, last_snoc, removelast_last.
Qed.

Lemma redo_history state bridge now e l :
  isExecutingCommand state = false →
  future (history state) = e :: l →
  history (redo bridge now state).1
  = mkHistory (past (history state) ++ [present (history state)]) e l
  ∧ isExecutingCommand (redo bridge now state).1 = false.
Proof.
  intros He Hf. unfold redo. rewrite redo_guard. unfold useCanRedo.
  rewrite He, Hf. simpl. by rewrite Hf.
Qed.

(** X7: on the history, undo and redo are inverse to each other.  Whenever
    undo is enabled, undo followed by redo gives back the same past,
    present and future; whenever redo is enabled, so does redo followed by
    undo. *)
Theorem undo_redo_history_round_trip state bridge (now1 now2 : Z) :
  (useCanUndo state = true →
   history (redo bridge now2 (undo bridge now1 state).1).1 = history state)
  ∧ (useCanRedo state = true →
     history (undo bridge now2 (redo bridge now1 state).1).1 = history state).
Proof.
  split.
  - intros [He (l & e & Hp)]%useCanUndo_true.
    destruct (undo_history state bridge now1 l e He Hp) as [Hh Hx].
    destruct (redo_history (undo bridge now1 state).1 bridge now2
                (present (history state)) (future (history state)) Hx)
      as [Hh2 _]; [by rewrite Hh|].
    rewrite Hh2, Hh. simpl. rewrite <- Hp. by destruct (history state).
  - intros [He (e & l & Hf)]%useCanRedo_true.
    destruct (redo_history state bridge now1 e l He Hf) as [Hh Hx].
    destruct (undo_history (redo bridge now1 state).1 bridge now2
                (past (history state)) (present (history state)) Hx)
      as [Hh2 _]; [by rewrite Hh|].
    rewrite Hh2, Hh. simpl. rewrite <- Hf. by destruct (history state).
Qed.

Lemma undo_redo_history_round_trip_witness :
  let s := recordAll (initializeEditor "demo" initialState)
             [sample_recording "hero-title" "Welcome" "Hello";
              sample_recording "hero-subtitle" "" "Subtitle"] in
  history (redo true 1700000000002 (undo true 1700000000001 s).1).1 = history s
  ∧ history (undo true 1700000000003
               (redo true 1700000000002 (undo true 1700000000001 s).1).1).1
    = history (undo true 1700000000001 s).1.
Proof.
  intros s. split.
  - apply (proj1 (undo_redo_history_round_trip s true 1700000000001 1700000000002)).
    reflexivity.
  - apply (proj2 (undo_redo_history_round_trip (undo true 1700000000001 s).1 true
                    1700000000002 1700000000003)).
    reflexivity.
Defined.

(** X8: undo and redo act exactly when [useCanUndo] and [useCanRedo]
    enable them.  When the selector is false the call returns the store
    unchanged and sends nothing; when it is true one entry moves between
    past and future. *)
Theorem undo_redo_follow_selectors state bridge (now : Z) :
  (useCanUndo state = false → undo bridge now state = (state, []))
  ∧ (useCanRedo state = false → redo bridge now state = (state, []))
  ∧ (useCanUndo state = true →
     S (length (past (history (undo bridge now state).1)))
     = length (past (history state))
     ∧ length (future (history (undo bridge now state).1))
       = S (length (future (history state)))
     ∧ Some (present (history (undo bridge now state).1))
       = last (past (history state)))
  ∧ (useCanRedo state = true →
     length (past (history (redo bridge now state).1))
     = S (length (past (history state)))
     ∧ S (length (future (history (redo bridge now state).1)))
       = length (future (history state))
     ∧ Some (present (history (redo bridge now state).1))
       = head (future (history state))).
Proof.
  split_and!.
  - intros Hc. unfold undo. by rewrite undo_guard, Hc.
  - intros Hc. unfold redo. by rewrite redo_guard, Hc.
  - intros [He (l & e & Hp)]%useCanUndo_true.
    destruct (undo_history state bridge now l e He Hp) as [-> _]. simpl.
    rewrite Hp, length_app, last_snoc. simpl. split_and!; [lia|done|done].
  - intros [He (e & l & Hf)]%useCanRedo_true.
    destruct (redo_history state bridge now e l He Hf) as [-> _]. simpl.
    rewrite Hf, length_app. simpl. split_and!; [lia|done|done].
Qed.

Lemma undo_redo_follow_selectors_witness :
  undo true 1700000000001 (initializeEditor "demo" initialState)
  = (initializeEditor "demo" initialState, [])
  ∧ redo true 1700000000001 (initializeEditor "demo" initialState)
    = (initializeEditor "demo" initialState, []).
Proof.
  split.
  - apply (proj1 (undo_redo_follow_selectors (initializeEditor "demo" initialState)
                    true 1700000000001)). reflexivity.
  - apply (proj1 (proj2 (undo_redo_follow_selectors
                    (initializeEditor "demo" initialState) true 1700000000001))).
    reflexivity.
Defined.

End UndoRedo.

Section UndoRedoDrafts.
Import editorStore useEditorState Samples.
Implicit Types (state : EditorState) (bridge : bool) (k : string)
  (drafts : gmap string ContentUpdate) (changes : list EditorChange).

Lemma undoDraftChanges_cons now change changes drafts :
  undoDraftChanges now (change :: changes) drafts
  = undoDraftChanges now changes
      match drafts !! ec_elementId change with
      | Some existing =>
        <[ec_elementId change := with_newValue existing (ec_oldValue change) now]> drafts
      | None => drafts
      end.
Proof. reflexivity. Qed.

Lemma redoDraftChanges_cons now change changes drafts :
  redoDraftChanges now (change :: changes) drafts
  = redoDraftChanges now changes
      match drafts !! ec_elementId change with
      | Some existing =>
        <[ec_elementId change := with_newValue existing (ec_newValue change) now]> drafts
      | None =>
        <[ec_elementId change :=
            plainUpdate (ec_elementId change) (ec_type change) (ec_oldValue change)
              (ec_newValue change) now]> drafts
      end.
Proof. reflexivity. Qed.

Lemma undoDraftChanges_dom now changes drafts :
  dom (undoDraftChanges now changes drafts) = dom drafts.
Proof.
  revert drafts. induction changes as [|change changes IH]; intros drafts; [done|].
  rewrite undoDraftChanges_cons, IH.
  destruct (drafts !! ec_elementId change) as [d|] eqn:E; [|done].
  by apply dom_insert_lookup_L.
Qed.

Lemma redoDraftChanges_dom now changes drafts :
  dom (redoDraftChanges now changes drafts)
  = dom drafts ∪ list_to_set (ec_elementId <$> changes).
Proof.
  revert drafts. induction changes as [|change changes IH]; intros drafts.
  - simpl. by rewrite (right_id_L ∅ (∪)).
  - rewrite redoDraftChanges_cons, IH. simpl.
    destruct (drafts !! ec_elementId change) as [d|] eqn:E;
      rewrite dom_insert_L, (comm_L (∪) {[ec_elementId change]} (dom drafts));
      by rewrite (assoc_L (∪)).
Qed.

Lemma undoDraftChanges_other now changes drafts k :
  k ∉ ec_elementId <$> changes →
  undoDraftChanges now changes drafts !! k = drafts !! k.
Proof.
  revert drafts. induction changes as [|change changes IH]; intros drafts Hk; [done|].
  rewrite undoDraftChanges_cons. rewrite fmap_cons, not_elem_of_cons in Hk.
  destruct Hk as [Hne Hk]. rewrite IH by exact Hk.
  destruct (drafts !! ec_elementId change); [|done].
  by rewrite lookup_insert_ne.
Qed.

Lemma undoDraftChanges_entry now changes drafts change :
  NoDup (ec_elementId <$> changes) →
  change ∈ changes →
  undoDraftChanges now changes drafts !! ec_elementId change
  = (λ d, with_newValue d (ec_oldValue change) now) <$> drafts !! ec_elementId change.
Proof.
  revert drafts. induction changes as [|c0 changes IH]; intros drafts Hnd Hin.
  - by apply elem_of_nil in Hin.
  - rewrite fmap_cons in Hnd. apply NoDup_cons in Hnd as [Hc0 Hnd].
    rewrite undoDraftChanges_cons.
    apply elem_of_cons in Hin as [->|Hin].
    + rewrite undoDraftChanges_other by exact Hc0.
      destruct (drafts !! ec_elementId c0) as [d|] eqn:E; simpl.
      * by rewrite lookup_insert_eq.
      * by rewrite E.
    + rewrite IH by done.
      assert (Hne : ec_elementId c0 ≠ ec_elementId change).
      { intros Heq. apply Hc0. rewrite Heq. by apply list_elem_of_fmap_2. }
      destruct (drafts !! ec_elementId c0); [|done].
      by rewrite lookup_insert_ne.
Qed.

Lemma undo_draft_dom state bridge (now : Z) :
  dom (draftChanges (undo bridge now state).1) = dom (draftChanges state).
Proof.
  unfold undo.
  destruct (Nat.eqb (length (past (history state))) 0 || isExecutingCommand state);
    [done|].
  simpl. apply undoDraftChanges_dom.
Qed.

(** X9: undo never adds or removes a draft entry, and neither undo nor
    redo touches the Original and Published maps or the unsaved and
    unpublished flags; redo adds draft entries only for the elements of
    the entry it replays. *)
Theorem undo_redo_frame state bridge (now : Z) :
  let undone := (undo bridge now state).1 in
  let redone := (redo bridge now state).1 in
  dom (draftChanges undone) = dom (draftChanges state)
  ∧ dom (draftChanges state) ⊆ dom (draftChanges redone)
  ∧ dom (draftChanges redone)
    ⊆ dom (draftChanges state)
      ∪ list_to_set (ec_elementId <$> default [] (head (future (history state))))
  ∧ originalContent undone = originalContent state
  ∧ originalContent redone = originalContent state
  ∧ publishedContent undone = publishedContent state
  ∧ publishedContent redone = publishedContent state
  ∧ hasUnsavedEdits undone = hasUnsavedEdits state
  ∧ hasUnsavedEdits redone = hasUnsavedEdits state
  ∧ hasUnpublishedChanges undone = hasUnpublishedChanges state
  ∧ hasUnpublishedChanges redone = hasUnpublishedChanges state.
Proof.
  intros undone redone. subst undone redone. unfold undo, redo.
  destruct (Nat.eqb (length (past (history state))) 0 || isExecutingCommand state);
    destruct (Nat.eqb (length (future (history state))) 0 || isExecutingCommand state);
    simpl; rewrite ?undoDraftChanges_dom, ?redoDraftChanges_dom;
    split_and!; try reflexivity; apply union_subseteq_l.
Qed.

(** X10: undo of an entry that touches each element once.  Every change of
    the undone entry whose element has a draft entry gets that entry's
    value set back to the change's old value (the other fields but the
    timestamp are kept), draft entries of other elements are left alone,
    and with a bridge one [UPDATE_CONTENT] per change is handed to it, in
    reverse order, carrying the old values. *)
Theorem undo_reverts_entry state bridge (now : Z) :
  useCanUndo state = true →
  NoDup (ec_elementId <$> present (history state)) →
  let undone := undo bridge now state in
  (∀ change d,
     change ∈ present (history state) →
     draftChanges state !! ec_elementId change = Some d →
     draftChanges undone.1 !! ec_elementId change
     = Some (with_newValue d (ec_oldValue change) now))
  ∧ (∀ k, k ∉ ec_elementId <$> present (history state) →
          draftChanges undone.1 !! k = draftChanges state !! k)
  ∧ undone.2
    = if bridge
      then map (λ change,
                  IframeBridge.updateContent (ec_elementId change) (ec_oldValue change))
             (rev (present (history state)))
      else [].
Proof.
  intros Hc Hnd undone. subst undone. unfold undo.
  rewrite undo_guard, Hc. simpl. split_and!.
  - intros change d Hin Hd.
    by rewrite (undoDraftChanges_entry now _ _ change Hnd Hin), Hd.
  - intros k Hk. by apply undoDraftChanges_other.
  - reflexivity.
Qed.

Lemma undo_reverts_entry_witness :
  let s := recordAll (initializeEditor "demo" initialState)
             [sample_recording "hero-title" "Welcome" "Hello"] in
  draftChanges (undo true 1700000000001 s).1 !! "hero-title"
  = Some (plainUpdate "hero-title" text (JStr "Welcome") (JStr "Welcome") 1700000000001).
Proof.
  intros s.
  refine (proj1 (undo_reverts_entry s true 1700000000001 _ _)
            (recordedChange (sample_recording "hero-title" "Welcome" "Hello"))
            (plainUpdate "hero-title" text (JStr "Welcome") (JStr "Hello") 1700000000000)
            _ _).
  - reflexivity.
  - subst s. compute_done.
  - subst s. simpl. constructor.
  - reflexivity.
Defined.

End UndoRedoDrafts.

(** * Further properties of saving and loading *)

Section SavingAndLoading.
Import editorStore useEditorState Samples.
Implicit Types (state : EditorState) (k : string).

Lemma act_unsaved state (a : Action) :
  hasUnsavedEdits (act state a)
  = match a with
    | Record_ _ => true
    | SaveDraft _ response_ok => hasUnsavedEdits state && negb response_ok
    | MarkDraftsSaved _ => false
    | MarkDraftsPublished => hasUnsavedEdits state
    end.
Proof.
  destruct a as [r|now ok|now|]; try reflexivity.
  simpl. unfold saveDraft, render, useHasUnsavedChanges. simpl.
  destruct (hasUnsavedEdits state) eqn:E, ok; simpl; by rewrite ?E.
Qed.

Lemma actAll_app state (l1 l2 : list Action) :
  actAll state (l1 ++ l2) = actAll (actAll state l1) l2.
Proof. unfold actAll. apply fold_left_app. Qed.

Lemma actAll_stays_unsaved state (actions : list Action) :
  Forall (λ a, isSave a = false) actions →
  hasUnsavedEdits state = true →
  hasUnsavedEdits (actAll state actions) = true.
Proof.
  intros Hall. revert state. induction Hall as [|a l Ha _ IH]; intros state Hs; [done|].
  simpl. apply IH. rewrite act_unsaved, Hs. by destruct a as [|? []| |].
Qed.

Lemma actAll_stays_saved state (actions : list Action) :
  Forall (λ a, isRecord a = false) actions →
  hasUnsavedEdits state = false →
  hasUnsavedEdits (actAll state actions) = false.
Proof.
  intros Hall. revert state. induction Hall as [|a l Ha _ IH]; intros state Hs; [done|].
  simpl. apply IH. rewrite act_unsaved, Hs. by destruct a.
Qed.

(** X11: the unsaved flag over recording, saving and publishing.  After
    any run of these actions the flag is set if a change was recorded and
    no successful save came after it, and clear if a save succeeded and no
    change was recorded after it; a failed save and a publish leave it as
    it is. *)
Theorem unsaved_flag_lifecycle state :
  (∀ before r after,
     Forall (λ a, isSave a = false) after →
     hasUnsavedEdits (actAll state (before ++ Record_ r :: after)) = true)
  ∧ (∀ before a after,
       isSave a = true →
       Forall (λ a, isRecord a = false) after →
       hasUnsavedEdits (actAll state (before ++ a :: after)) = false)
  ∧ (∀ now, hasUnsavedEdits (act state (SaveDraft now false)) = hasUnsavedEdits state)
  ∧ hasUnsavedEdits (act state MarkDraftsPublished) = hasUnsavedEdits state.
Proof.
  split_and!.
  - intros before r after Hall. rewrite actAll_app. simpl.
    by apply actAll_stays_unsaved.
  - intros before a after Ha Hall. rewrite actAll_app. simpl.
    apply actAll_stays_saved; [done|]. rewrite act_unsaved.
    destruct a as [|? []| |]; try done. simpl. apply andb_false_r.
  - intros now. rewrite act_unsaved. apply andb_true_r.
  - reflexivity.
Qed.

Lemma unsaved_flag_lifecycle_witness :
  let r := sample_recording "hero-title" "Welcome" "Hello" in
  let r' := sample_recording "hero-title" "Hello" "Hi" in
  hasUnsavedEdits (actAll initialState [Record_ r; SaveDraft 1700000000010 true]) = false
  ∧ hasUnsavedEdits
      (actAll initialState [Record_ r; SaveDraft 1700000000010 true; Record_ r';
                            SaveDraft 1700000000020 false; MarkDraftsPublished]) = true.
Proof.
  intros r r'. split.
  - refine (proj1 (proj2 (unsaved_flag_lifecycle initialState))
              [Record_ r] (SaveDraft 1700000000010 true) [] _ _);
      [reflexivity | constructor].
  - refine (proj1 (unsaved_flag_lifecycle initialState)
              [Record_ r; SaveDraft 1700000000010 true] r'
              [SaveDraft 1700000000020 false; MarkDraftsPublished] _).
    repeat constructor.
Defined.

(** X12: the three outcomes of [saveDraft].  A callback that saw no
    unsaved edits returns at once and leaves the store as it is, even if
    the store has unsaved edits by now; a successful save stamps
    [lastSavedAt] and clears the unsaved flag; a failed one throws and
    changes nothing but [isSaving], which is false after either. *)
Theorem saveDraft_outcomes (r : Render) (now : Z) state :
  (r_hasUnsavedChanges r = false →
   saveDraft r now true state = (state, SaveSkipped)
   ∧ saveDraft r now false state = (state, SaveSkipped))
  ∧ (r_hasUnsavedChanges r = true →
     let saved := saveDraft r now true state in
     let failed := saveDraft r now false state in
     saved.2 = SaveDone
     ∧ lastSavedAt saved.1 = Some now
     ∧ hasUnsavedEdits saved.1 = false
     ∧ isSaving saved.1 = false
     ∧ draftChanges saved.1 = draftChanges state
     ∧ history saved.1 = history state
     ∧ failed.2 = SaveThrew
     ∧ failed.1 = setSavingState false state).
Proof.
  unfold saveDraft. split; intros Hr; rewrite Hr; simpl; [done|].
  split_and!; reflexivity.
Qed.

Lemma saveDraft_outcomes_witness :
  let s := record initialState (sample_recording "hero-title" "Welcome" "Hello") in
  saveDraft (render initialState) 1700000000010 true s = (s, SaveSkipped)
  ∧ hasUnsavedEdits (saveDraft (render s) 1700000000010 false s).1 = true.
Proof.
  intros s. split.
  - apply (proj1 (saveDraft_outcomes (render initialState) 1700000000010 s)).
    reflexivity.
  - destruct (proj2 (saveDraft_outcomes (render s) 1700000000010 s))
      as (_ & _ & _ & _ & _ & _ & _ & Hf); [reflexivity|].
    by rewrite Hf.
Defined.

Section Loading.
Variable Date_getTime : string → Z.
Variable Date_toISOString : Z → string.

Lemma loadDraftContent_drafts (siteId' : string) (now : Z) (siteData : SiteData) state :
  draftChanges
    (loadDraftContent Date_getTime Date_toISOString siteId' now (Some siteData) state).1
  = ∅
  ∧ history
      (loadDraftContent Date_getTime Date_toISOString siteId' now (Some siteData) state).1
    = history state.
Proof.
  unfold loadDraftContent, loadDraftContent_finish. cbv zeta.
  by rewrite (converted_content_imports_nothing Date_getTime now Date_toISOString).
Qed.

(** X13: what a load does to the store.  A successful load of the
    file-based content, whatever it holds, leaves the Draft, Original and
    Published maps empty (drafts of the session are dropped) and both
    change flags clear, while the history is kept; a failed load changes
    nothing but [isLoadingDrafts].  Either way loading is over. *)
Theorem load_replaces_drafts (siteId' : string) (now : Z) (siteData : SiteData) state :
  let loaded :=
    loadDraftContent Date_getTime Date_toISOString siteId' now (Some siteData) state in
  let failed :=
    loadDraftContent Date_getTime Date_toISOString siteId' now None state in
  draftChanges loaded.1 = ∅
  ∧ originalContent loaded.1 = ∅
  ∧ publishedContent loaded.1 = ∅
  ∧ hasUnsavedEdits loaded.1 = false
  ∧ hasUnpublishedChanges loaded.1 = false
  ∧ isLoadingDrafts loaded.1 = false
  ∧ history loaded.1 = history state
  ∧ loaded.2 = Some (convertSiteData Date_toISOString siteId' now siteData)
  ∧ failed = (setLoadingDrafts false state, None).
Proof.
  intros loaded failed. subst loaded failed.
  unfold loadDraftContent, loadDraftContent_finish. cbv zeta.
  rewrite (converted_content_imports_nothing Date_getTime now Date_toISOString).
  split_and!; reflexivity.
Qed.

(** X14: a load keeps the history but empties the Draft map, so an undo
    right after it finds no draft entry to revert: the Draft map stays
    empty, while the history does move when undo was enabled before the
    load. *)
Theorem undo_after_load (bridge : bool) (siteId' : string) (now now1 : Z)
    (siteData : SiteData) state :
  let loaded :=
    (loadDraftContent Date_getTime Date_toISOString siteId' now (Some siteData) state).1 in
  draftChanges (undo bridge now1 loaded).1 = ∅
  ∧ (useCanUndo state = true →
     history (undo bridge now1 loaded).1 ≠ history loaded).
Proof.
  intros loaded. split.
  - apply dom_empty_iff_L. rewrite undo_draft_dom. subst loaded.
    by rewrite (proj1 (loadDraftContent_drafts siteId' now siteData state)), dom_empty_L.
  - intros Hc.
    assert (Hc' : useCanUndo loaded = true) by exact Hc.
    apply useCanUndo_true in Hc' as [He (l & e & Hp)].
    destruct (undo_history loaded bridge now1 l e He Hp) as [Hh _].
    intros Heq. rewrite Heq in Hh. rewrite Hh in Hp. simpl in Hp.
    apply (f_equal length) in Hp. rewrite length_app in Hp. simpl in Hp. lia.
Qed.

Lemma draftRequests_converted (siteId' : string) (now : Z) (siteData : SiteData) :
  draftRequests (convertSiteData Date_toISOString siteId' now siteData) = [].
Proof.
  unfold draftRequests. simpl.
  induction (pages siteData) as [|[page blocks] rest IH]; [done|].
  simpl. rewrite IH, app_nil_r. clear IH.
  induction blocks as [|[k v] blocks IH]; [done|]. exact IH.
Qed.

(** X15: [loadDrafts] never sends anything to the frame.  The content it
    has just loaded carries no draft block, so no [UPDATE_CONTENT] is
    issued, with or without a bridge, whether the load succeeds or not. *)
Theorem loadDrafts_sends_nothing (bridge : bool) (organizationSlug : string) (now : Z)
    (response : option SiteData) state :
  (loadDrafts Date_getTime Date_toISOString bridge organizationSlug now response state).2
  = []
  ∧ (loadDrafts Date_getTime Date_toISOString bridge organizationSlug now response state).1
    = (loadDraftContent Date_getTime Date_toISOString organizationSlug now response
         state).1.
Proof.
  unfold loadDrafts, loadDraftContent, loadDraftContent_finish.
  destruct response as [siteData|]; simpl; [|done].
  split; [|done]. destruct bridge; [|done]. apply draftRequests_converted.
Qed.

End Loading.

End SavingAndLoading.

Section ImportInvariants.
Import editorStore useEditorState Samples.
Variable Date_getTime : string → Z.
Variable now : Z.
Implicit Types (maps : ContentMaps) (blocks : list (string * DraftContentBlock)).

Lemma importBlocks_invariant blocks maps :
  newOriginalContent maps = newPublishedContent maps →
  (∀ k u, newDraftChanges maps !! k = Some u →
          cu_elementId u = k ∧ cu_type u = text ∧ cu_imageId u = None) →
  newOriginalContent (importBlocks Date_getTime now blocks maps)
  = newPublishedContent (importBlocks Date_getTime now blocks maps)
  ∧ ∀ k u, newDraftChanges (importBlocks Date_getTime now blocks maps) !! k = Some u →
           cu_elementId u = k ∧ cu_type u = text ∧ cu_imageId u = None.
Proof.
  revert maps. induction blocks as [|[k0 b] blocks IH]; intros maps Heq Hkeys; [done|].
  rewrite importBlocks_cons. apply IH.
  - unfold importBlock. destruct (shouldImport b); [|done].
    destruct (blockValues b). simpl. by rewrite Heq.
  - intros k u. unfold importBlock. destruct (shouldImport b); [|by apply Hkeys].
    destruct (blockValues b) as [oldValue newValue]. simpl.
    intros Hu. apply lookup_insert_Some in Hu as [[<- <-]|[_ Hu]]; [done|].
    by apply Hkeys.
Qed.

(** X16: invariants of the reconciliation.  Whatever the persisted content,
    the Original and Published maps it builds are equal, every draft entry
    is a plain text change stored under its own element id, and the
    installed [hasUnpublishedChanges] is true exactly when some block with
    unpublished changes or status [draft] was found. *)
Theorem reconciliation_invariants
    (content' : list (string * list (string * DraftContentBlock)))
    (draftData : DraftContentResponse) (state : EditorState) :
  let maps := importContent Date_getTime now content' in
  newOriginalContent maps = newPublishedContent maps
  ∧ (∀ k u, newDraftChanges maps !! k = Some u →
            cu_elementId u = k ∧ cu_type u = text ∧ cu_imageId u = None)
  ∧ (hasUnpublishedChanges (installDrafts Date_getTime draftData maps state) = true
     ↔ ∃ k b, (k, b) ∈ flat_map snd content'
              ∧ (blk_hasUnpublishedChanges b = true ∨ blk_status b = status_draft)).
Proof.
  intros maps. subst maps. rewrite importContent_flat.
  destruct (importBlocks_invariant (flat_map snd content') (mkMaps ∅ ∅ ∅))
    as [Heq Hkeys]; [done | by intros k u; simpl; rewrite lookup_empty |].
  split_and!; [exact Heq | exact Hkeys |].
  simpl. rewrite Nat.ltb_lt.
  set (m := newDraftChanges (importBlocks Date_getTime now (flat_map snd content')
                               (mkMaps ∅ ∅ ∅))).
  assert (Hsome : ∀ k, is_Some (m !! k)
                       ↔ ∃ b, (k, b) ∈ flat_map snd content' ∧ shouldImport b = true).
  { intros k. subst m.
    rewrite (proj1 (importAll_keys Date_getTime now (mkMaps ∅ ∅ ∅) k _)). simpl.
    rewrite lookup_empty. split; [intros [[? [=]]|?]; done | by right]. }
  split.
  - intros Hsize. destruct (map_choose_or_empty m) as [(k & u & Hu)|Hempty].
    + destruct (proj1 (Hsome k)) as (b & Hin & Hb); [by eexists|].
      exists k, b. split; [done|]. by apply shouldImport_spec.
    + rewrite Hempty, map_size_empty in Hsize. lia.
  - intros (k & b & Hin & Hb). apply shouldImport_spec in Hb.
    destruct (proj2 (Hsome k)) as [u Hu]; [by exists b|].
    destruct (decide (size m = 0%nat)) as [Hz|]; [|lia].
    apply map_size_empty_iff in Hz. rewrite Hz, lookup_empty in Hu. done.
Qed.

End ImportInvariants.

Section ImportScenarios.
Import editorStore useEditorState Samples.

Lemma reconciliation_invariants_witness :
  hasUnpublishedChanges
    (installDrafts epoch
       (mkResponse "demo" "Demo" (mkSiteConfig "#000000" true) sample_content
          (mkMetadata None 0 0 0 0 "demo"))
       (importContent epoch 1700000000000 sample_content) initialState) = true.
Proof.
  refine (proj2 (proj2 (proj2 (reconciliation_invariants epoch 1700000000000
            sample_content _ initialState))) _).
  exists "hero-title", edited_block. split; [|by left].
  simpl. constructor.
Defined.

End ImportScenarios.

(** * Further properties of the content-change handler *)

Section ContentReports.
Import editorStore useEditorState Samples.
Implicit Types (state : EditorState) (r : Render) (message : IframeMessage)
  (payload : IframePayload).

Lemma changeTypeOfTag_known (tag : string) :
  tag ∉ knownTags → changeTypeOfTag tag = None.
Proof.
  unfold knownTags. rewrite !not_elem_of_cons. intros (H1 & H2 & H3 & H4 & _).
  unfold changeTypeOfTag. by rewrite !bool_decide_eq_false_2.
Qed.

(** X17: reports that cannot be recorded are dropped without a trace.  A
    [CONTENT_CHANGED] message with no payload, with a missing or empty
    element id, with an [undefined] new content, or with a type tag other
    than text, config, toggle and image leaves the store exactly as it
    was. *)
Theorem malformed_report_ignored r (rnd : string) (now : Z) message state :
  (im_payload message = None →
   handleContentChanged r rnd now message state = state)
  ∧ (∀ payload,
       im_payload message = Some payload →
       ip_elementId payload = None ∨ ip_elementId payload = Some ""
       ∨ ip_newContent payload = JUndefined →
       handleContentChanged r rnd now message state = state)
  ∧ (∀ payload tag,
       im_payload message = Some payload →
       ip_type payload = Some tag →
       tag ∉ knownTags →
       handleContentChanged r rnd now message state = state).
Proof.
  unfold handleContentChanged. split_and!.
  - intros ->. by destruct (r_isExecutingCommand r).
  - intros payload -> Hbad. destruct (r_isExecutingCommand r); [done|].
    destruct Hbad as [->| [->| ->]]; [done|done|].
    destruct (ip_elementId payload); [|done].
    unfold strict_eq. rewrite bool_decide_eq_true_2 by done. simpl.
    by rewrite andb_false_r.
  - intros payload tag -> Htag Hnot. destruct (r_isExecutingCommand r); [done|].
    destruct (ip_elementId payload); [|done].
    rewrite Htag. simpl. rewrite (changeTypeOfTag_known tag Hnot).
    by repeat case_match.
Qed.

Lemma malformed_report_ignored_witness :
  let s := record initialState (sample_recording "hero-title" "Welcome" "Hello") in
  handleContentChanged (render s) "p0o9i8u7y" 1700000000005
    (mkIframeMessage (Some "CONTENT_CHANGED")
       (Some (mkIframePayload None JUndefined None None (Some "hero-title")
                (JStr "Hi") JUndefined (Some "video")))
       (Some "msg_3") (Some 1700000000005))
    s
  = s.
Proof.
  intros s.
  refine (proj2 (proj2 (malformed_report_ignored (render s) "p0o9i8u7y" 1700000000005
            _ s)) _ "video" _ _ _).
  - reflexivity.
  - reflexivity.
  - compute_done.
Defined.

(** X18: what a report that passes the checks records.  Outside a command,
    a report with a non-empty element id, a defined new content that
    differs from the resolved old value, and a known or absent type tag
    (absent means text) becomes one history entry from the resolved old
    value to the new content, the draft entry of the element takes the new
    content, and both change flags are set; the next report for the
    element without [oldContent] therefore resolves to that content. *)
Theorem report_recorded r (rnd : string) (now : Z) message payload
    (elementId : string) (type : ChangeType) state :
  r_isExecutingCommand r = false →
  im_payload message = Some payload →
  ip_elementId payload = Some elementId →
  elementId ≠ "" →
  ip_newContent payload ≠ JUndefined →
  actualOldValue r elementId (ip_oldContent payload) ≠ ip_newContent payload →
  changeTypeOfTag (default "text" (ip_type payload)) = Some type →
  let s := handleContentChanged r rnd now message state in
  present (history s)
  = [toEditorChange rnd now
       (plainUpdate elementId type (actualOldValue r elementId (ip_oldContent payload))
          (ip_newContent payload) now)]
  ∧ past (history s) = past (history state) ++ [present (history state)]
  ∧ future (history s) = []
  ∧ (∃ u, draftChanges s !! elementId = Some u
          ∧ cu_newValue u = ip_newContent payload ∧ cu_type u = type)
  ∧ hasUnsavedEdits s = true
  ∧ hasUnpublishedChanges s = true
  ∧ actualOldValue (render s) elementId JUndefined = ip_newContent payload.
Proof.
  intros Hr Hp He Hne Hnew Hold Htype s. subst s. unfold handleContentChanged.
  assert (Hn : strict_eq (ip_newContent payload) JUndefined = false)
    by (by apply bool_decide_eq_false_2).
  assert (Ho : strict_eq (actualOldValue r elementId (ip_oldContent payload))
                 (ip_newContent payload) = false)
    by (by apply bool_decide_eq_false_2).
  assert (Ht : truthy_str (Some elementId) = true)
    by (by destruct elementId).
  rewrite Hr, Hp, He, Ht, Hn, Ho. simpl. rewrite Htype.
  split_and!; try reflexivity.
  - eexists. split; [unfold addContentChange; simpl; apply lookup_insert_eq|done].
  - unfold actualOldValue, render. simpl. by rewrite lookup_insert_eq.
Qed.

Lemma report_recorded_witness :
  let s := handleContentChanged (render initialState) "k3j5x9q2a" 1700000000000
             content_changed_message initialState in
  hasUnsavedEdits s = true
  ∧ actualOldValue (render s) "hero-title" JUndefined = JStr "Hello".
Proof.
  intros s.
  destruct (report_recorded (render initialState) "k3j5x9q2a" 1700000000000
              content_changed_message
              (mkIframePayload None JUndefined None None (Some "hero-title")
                 (JStr "Hello") JUndefined None)
              "hero-title" text initialState)
    as (_ & _ & _ & _ & Hu & _ & Hnext); try done.
Defined.

Lemma confirmation_of_draft_value r (rnd : string) (now : Z) (elementId : string)
    (content : JsValue) (messageId : string) (timestamp : Z) (u : ContentUpdate) state :
  r_draftChanges r !! elementId = Some u →
  cu_newValue u = content →
  handleContentChanged r rnd now (confirmation elementId content messageId timestamp)
    state
  = state.
Proof.
  intros Hu Hv. unfold handleContentChanged, confirmation. cbn [im_payload ip_elementId
    ip_newContent ip_oldContent ip_type].
  destruct (r_isExecutingCommand r); [done|].
  destruct (truthy_str (Some elementId)); [|done].
  destruct (strict_eq content JUndefined) eqn:Hc; [done|]. cbn [negb andb].
  unfold actualOldValue. rewrite Hu, Hv.
  replace (strict_eq JUndefined JUndefined) with true by done. cbn [negb].
  replace (strict_eq content content) with true
    by (symmetry; by apply bool_decide_eq_true_2).
  done.
Qed.

(** X19: the confirmations that follow an undo or a redo are not recorded.
    When the undone entry is a single change whose element has a draft
    entry, the agent's confirmation of the [UPDATE_CONTENT] that undo
    sent (its old value) is dropped by the handler of the next render,
    although the command is over; so is the confirmation of the new value
    after a redo of a single change. *)
Theorem confirmations_after_undo_redo_ignored (bridge : bool) (now : Z)
    (change : EditorChange) state (rnd messageId : string) (now' timestamp : Z) :
  (useCanUndo state = true →
   present (history state) = [change] →
   is_Some (draftChanges state !! ec_elementId change) →
   let undone := (undo bridge now state).1 in
   handleContentChanged (render undone) rnd now'
     (confirmation (ec_elementId change) (ec_oldValue change) messageId timestamp) undone
   = undone)
  ∧ (useCanRedo state = true →
     head (future (history state)) = Some [change] →
     let redone := (redo bridge now state).1 in
     handleContentChanged (render redone) rnd now'
       (confirmation (ec_elementId change) (ec_newValue change) messageId timestamp)
       redone
     = redone).
Proof.
  split.
  - intros Hc Hp [d Hd] undone.
    assert (Hu : draftChanges undone !! ec_elementId change
                 = Some (with_newValue d (ec_oldValue change) now)).
    { subst undone. unfold undo. rewrite undo_guard, Hc. simpl.
      rewrite Hp. unfold undoDraftChanges. simpl. rewrite Hd.
      apply lookup_insert_eq. }
    eapply confirmation_of_draft_value; [exact Hu|done].
  - intros Hc Hf redone.
    assert (Hu : ∃ u, draftChanges redone !! ec_elementId change = Some u
                      ∧ cu_newValue u = ec_newValue change).
    { subst redone. unfold redo. rewrite redo_guard, Hc. simpl.
      rewrite Hf. unfold redoDraftChanges. simpl.
      destruct (draftChanges state !! ec_elementId change);
        rewrite lookup_insert_eq; eauto. }
    destruct Hu as (u & Hu & Hv).
    eapply confirmation_of_draft_value; [exact Hu|done].
Qed.

Lemma confirmations_after_undo_redo_ignored_witness :
  let s := record (initializeEditor "demo" initialState)
             (sample_recording "hero-title" "Welcome" "Hello") in
  let undone := (undo true 1700000000001 s).1 in
  handleContentChanged (render undone) "p0o9i8u7y" 1700000000005
    (confirmation "hero-title" (JStr "Welcome") "msg_4" 1700000000004) undone
  = undone.
Proof.
  intros s undone.
  refine (proj1 (confirmations_after_undo_redo_ignored true 1700000000001
            (recordedChange (sample_recording "hero-title" "Welcome" "Hello")) s
            "p0o9i8u7y" "msg_4" 1700000000005 1700000000004) _ _ _).
  - reflexivity.
  - reflexivity.
  - by eexists.
Defined.

End ContentReports.

(** * Batches *)

Section Batches.
Import editorStore useEditorState Samples.
Implicit Types (state : EditorState) (updates : list (string * Z * ContentUpdate)).

Local Abbreviation batchIds updates := (map (λ x, cu_elementId x.2) updates).

Local Abbreviation batchDrafts updates m :=
  (fold_left
     (λ (m : gmap string ContentUpdate) '(_, _, update), <[cu_elementId update := update]> m)
     updates m).

Lemma batchDrafts_other updates (m : gmap string ContentUpdate) (elementId : string) :
  elementId ∉ batchIds updates →
  batchDrafts updates m !! elementId = m !! elementId.
Proof.
  revert m. induction updates as [|[[rnd now] u] updates IH]; intros m Hk; [done|].
  simpl in *. apply not_elem_of_cons in Hk as [Hne Hk].
  rewrite IH by done. by rewrite lookup_insert_ne.
Qed.

Lemma batch_present_length updates state :
  length (present (history (addBatchChanges updates state))) = length updates.
Proof. unfold addBatchChanges. simpl. by rewrite length_map. Qed.

(** X20: a batch is one history entry and nothing more.  [addBatchChanges]
    moves the present entry to the past, makes the whole batch the present
    entry (one change per update, in order) and empties the future; the
    draft entry of an element is the last update of the batch for it,
    stored as given, and other draft entries are untouched.  Unlike a
    single recorded change it seeds no baseline and sets neither change
    flag. *)
Theorem batch_is_one_entry updates state :
  let s := addBatchChanges updates state in
  past (history s) = past (history state) ++ [present (history state)]
  ∧ ec_elementId <$> present (history s) = batchIds updates
  ∧ ec_newValue <$> present (history s) = map (λ x, cu_newValue x.2) updates
  ∧ ec_oldValue <$> present (history s) = map (λ x, cu_oldValue x.2) updates
  ∧ future (history s) = []
  ∧ (∀ elementId, elementId ∉ batchIds updates →
       draftChanges s !! elementId = draftChanges state !! elementId)
  ∧ (∀ before x after, updates = before ++ x :: after →
       cu_elementId x.2 ∉ batchIds after →
       draftChanges s !! cu_elementId x.2 = Some x.2)
  ∧ originalContent s = originalContent state
  ∧ publishedContent s = publishedContent state
  ∧ hasUnsavedEdits s = hasUnsavedEdits state
  ∧ hasUnpublishedChanges s = hasUnpublishedChanges state.
Proof.
  intros s. subst s. unfold addBatchChanges. simpl. split_and!; try reflexivity.
  - induction updates as [|[[rnd now] u] updates IH]; [done|]. simpl. by f_equal.
  - induction updates as [|[[rnd now] u] updates IH]; [done|]. simpl. by f_equal.
  - induction updates as [|[[rnd now] u] updates IH]; [done|]. simpl. by f_equal.
  - intros elementId Hk. by apply batchDrafts_other.
  - intros before [[rnd now] u] after -> Hk. rewrite fold_left_app. simpl.
    rewrite batchDrafts_other by done. apply lookup_insert_eq.
Qed.

(** X21: a batch on a saved state is not saved, and undoing it sends its
    old values back in reverse order.  Since the batch does not set
    [hasUnsavedEdits], [saveDraft] of the next render returns without a
    request when the state before the batch had no unsaved edits; [undo]
    restores the history of before the batch, keeps the batch as the redo
    branch, and sends one [UPDATE_CONTENT] per update with its old value,
    the last update first. *)
Theorem batch_unsaved_and_undone updates state (now : Z) (response_ok : bool) :
  isExecutingCommand state = false →
  let s := addBatchChanges updates state in
  (hasUnsavedEdits state = false →
   saveDraft (render s) now response_ok s = (s, SaveSkipped))
  ∧ history (undo true now s).1
    = mkHistory (past (history state)) (present (history state))
        (present (history s) :: [])
  ∧ (undo true now s).2
    = map (λ x, IframeBridge.updateContent (cu_elementId x.2) (cu_oldValue x.2))
        (rev updates).
Proof.
  intros Hx s. split_and!.
  - intros Hu. unfold saveDraft, render, useHasUnsavedChanges. simpl. by rewrite Hu.
  - unfold undo. subst s. simpl. rewrite Hx, length_app. simpl.
    replace (length (past (history state)) + 1)%nat
      with (S (length (past (history state)))) by lia.
    simpl. by rewrite last_snoc, removelast_last.
  - unfold undo. subst s. simpl. rewrite Hx, length_app. simpl.
    replace (length (past (history state)) + 1)%nat
      with (S (length (past (history state)))) by lia.
    simpl. rewrite <- map_rev, map_map. apply map_ext. by intros [[rnd now'] u].
Qed.

Lemma batch_unsaved_and_undone_witness :
  let batch :=
    [("a1b2c3d4e", 1700000000001,
      plainUpdate "hero-title" text (JStr "Welcome") (JStr "Hello") 1700000000001);
     ("f5g6h7i8j", 1700000000001,
      plainUpdate "hero-subtitle" text (JStr "We build") (JStr "We ship") 1700000000001)] in
  (undo true 1700000000002 (addBatchChanges batch (initializeEditor "demo" initialState))).2
  = [IframeBridge.updateContent "hero-subtitle" (JStr "We build");
     IframeBridge.updateContent "hero-title" (JStr "Welcome")].
Proof.
  intros batch.
  exact (proj2 (proj2 (batch_unsaved_and_undone batch (initializeEditor "demo" initialState)
                         1700000000002 true eq_refl))).
Defined.

End Batches.

(** * Further properties of the iframe bridge *)

Section BridgeLifecycle.
Import IframeBridge.
Context {H : Type}.
Implicit Types (b : Bridge H) (c : Call H) (calls : list (Call H)).

Lemma step_uninitialized b c :
  isInitialized b = false → messageQueue b = [] → isReady b = false →
  (step b c).2 = []
  ∧ isInitialized (step b c).1 = false
  ∧ messageQueue (step b c).1 = []
  ∧ isReady (step b c).1 = false.
Proof.
  intros Hi Hq Hr. destruct c; simpl; try done.
  - unfold sendToIframe. by rewrite Hi.
  - by rewrite Hi.
Qed.

(** X22: a bridge created where [window] is undefined is inert.  Whatever
    is called on it, it posts nothing, invokes no handler, queues nothing
    and never becomes ready: requests made during server-side rendering
    are dropped, not kept for later. *)
Theorem server_side_bridge_inert calls :
  let out := run (constructor (H:=H) false) calls in
  out.2 = []
  ∧ messageQueue out.1 = []
  ∧ isReady out.1 = false.
Proof.
  intros out. subst out.
  assert (Hgen : ∀ b, isInitialized b = false → messageQueue b = [] →
                      isReady b = false →
                      (run b calls).2 = [] ∧ messageQueue (run b calls).1 = []
                      ∧ isReady (run b calls).1 = false).
  { induction calls as [|c calls IH]; intros b Hi Hq Hr; [done|].
    rewrite run_cons. simpl.
    destruct (step_uninitialized b c Hi Hq Hr) as (He & Hi1 & Hq1 & Hr1).
    destruct (IH (step b c).1 Hi1 Hq1 Hr1) as (He2 & Hq2 & Hr2).
    by rewrite He, He2. }
  by apply Hgen.
Qed.

Lemma step_ready b c :
  isInitialized b = true → isReady b = true → messageQueue b = [] →
  keepsFrame c = true →
  isInitialized (step b c).1 = true
  ∧ isReady (step b c).1 = true
  ∧ messageQueue (step b c).1 = []
  ∧ iframeRef (step b c).1 = iframeRef b
  ∧ postedMessages (step b c).2
    = match iframeRef b with
      | Some r => if windowAt r c then map (λ m, (r, m)) (sentIn [c]) else []
      | None => []
      end.
Proof.
  intros Hi Hr Hq Hc.
  destruct c as [| | | |win rnd now message|win origin data|]; simpl in *;
    try discriminate; try (split_and!; try done; by repeat case_match).
  - unfold sendToIframe, sendMessage. rewrite Hi, Hr. simpl.
    split_and!; try done. by repeat case_match.
  - rewrite Hi.
    destruct (messageListener_frame win origin data b) as (_ & _ & Hf & Hi').
    destruct (messageListener_empty_queue win origin data b Hq) as [Hp Hq'].
    split_and!.
    + congruence.
    + unfold messageListener.
      destruct (negb (originAllowed b origin)); [done|].
      destruct data as [message|]; [|done].
      destruct (negb (validStructure message)); [done|].
      by destruct (bool_decide (im_type message = Some "IFRAME_READY")).
    + done.
    + done.
    + rewrite Hp. by repeat case_match.
Qed.

(** X23: once the bridge is ready, requests bypass the queue.  On a ready
    bridge with an empty queue, and as long as it is neither destroyed nor
    rebound, readiness and the empty queue are kept; every request is
    posted at once and in order when the bound frame has a window, and
    when no frame is bound the requests are neither posted nor queued. *)
Theorem ready_requests_bypass_queue b calls :
  isInitialized b = true →
  isReady b = true →
  messageQueue b = [] →
  Forall (λ c, keepsFrame c = true) calls →
  let out := run b calls in
  isReady out.1 = true
  ∧ messageQueue out.1 = []
  ∧ (∀ r, iframeRef b = Some r →
          Forall (λ c, windowAt r c = true) calls →
          postedMessages out.2 = map (λ m, (r, m)) (sentIn calls))
  ∧ (iframeRef b = None → postedMessages out.2 = []).
Proof.
  intros Hi Hr Hq Hall out. subst out. revert b Hi Hr Hq.
  induction Hall as [|c calls Hc _ IH]; intros b Hi Hr Hq; [done|].
  rewrite run_cons. simpl.
  destruct (step_ready b c Hi Hr Hq Hc) as (Hi1 & Hr1 & Hq1 & Hf1 & Hp1).
  destruct (IH (step b c).1 Hi1 Hr1 Hq1) as (Hr2 & Hq2 & Hb2 & Hn2).
  split_and!; try done.
  - intros r Hf Hw. apply Forall_cons in Hw as [Hw Hws].
    rewrite postedMessages_app, Hp1, Hf, Hw, (Hb2 r) by congruence.
    rewrite <- map_app. f_equal. unfold sentIn. by destruct c.
  - intros Hf. rewrite postedMessages_app, Hp1, Hf, Hn2 by congruence. done.
Qed.

Lemma invocations_flushMessages win b (queue : list EditorMessage) :
  invocations (flushMessages win b queue) = [].
Proof.
  induction queue as [|m queue IH]; [done|].
  simpl. rewrite invocations_app, IH. unfold sendMessage.
  by repeat case_match.
Qed.

(** X24: one handler per message type, and [off] removes it whoever
    registered it.  For a well-formed message of type [type] from an
    accepted origin: after two registrations for [type] only the second
    handler is called; after [off] or [destroy] none is called; and a
    registration for another type changes nothing for [type]. *)
Theorem handler_registry b (type other : string) (first second : H)
    (win : Ref → bool) (origin : string) (message : IframeMessage) :
  isInitialized b = true →
  originAllowed b origin = true →
  validStructure message = true →
  im_type message = Some type →
  let received b' := invocations (step b' (MessageEvent win origin (Some message))).2 in
  received (on type second (on type first b)) = [(second, message)]
  ∧ received (off type (on type first b)) = []
  ∧ received (destroy (on type first b)) = []
  ∧ (other ≠ type → received (on other second b) = received b)
  ∧ (other ≠ type → received (off other b) = received b).
Proof.
  intros Hi Ho Hv Ht received. subst received. cbv beta.
  assert (Hgen : ∀ b', isInitialized b' = true → allowedOrigins b' = allowedOrigins b →
            invocations (step b' (MessageEvent win origin (Some message))).2
            = match messageHandlers b' !! type with
              | Some handler => [(handler, message)]
              | None => []
              end).
  { intros b' Hi' Ha. simpl. rewrite Hi'. unfold messageListener.
    replace (originAllowed b' origin) with true
      by (unfold originAllowed in *; by rewrite Ha).
    rewrite Hv, Ht. simpl.
    destruct (bool_decide (Some type = Some "IFRAME_READY")); simpl.
    - rewrite invocations_app.
      rewrite invocations_flushMessages.
      by destruct (messageHandlers b' !! type).
    - by destruct (messageHandlers b' !! type). }
  rewrite !Hgen by done. simpl.
  rewrite lookup_insert_eq, lookup_delete_eq, lookup_empty.
  split_and!; try done.
  - intros Hne. by rewrite lookup_insert_ne.
  - intros Hne. by rewrite lookup_delete_ne.
Qed.

End BridgeLifecycle.

Section BridgeLifecycleScenarios.
Import IframeBridge Samples.

Lemma ready_requests_bypass_queue_witness :
  let b := setIframeRef (H:=nat) (Some 0%nat)
             (mkBridge ∅ [] [] None true true) in
  postedMessages (run b three_sends).2 = map (λ m, (0%nat, m)) (sentIn three_sends).
Proof.
  intros b.
  refine (proj1 (proj2 (proj2 (ready_requests_bypass_queue b three_sends
            eq_refl eq_refl eq_refl _))) 0%nat eq_refl _).
  - repeat constructor.
  - repeat constructor.
Defined.

Lemma handler_registry_witness :
  invocations
    (step (on "IFRAME_READY" 2%nat (on "IFRAME_READY" 1%nat (constructor true)))
       (MessageEvent everyWindow "http://localhost:3001" (Some ready_message))).2
  = [(2%nat, ready_message)].
Proof.
  exact (proj1 (handler_registry (constructor true) "IFRAME_READY" "ELEMENT_SELECTED"
                  1%nat 2%nat everyWindow "http://localhost:3001" ready_message
                  eq_refl eq_refl eq_refl eq_refl)).
Defined.

End BridgeLifecycleScenarios.

(** * Further properties of the preview agent *)

(** Properties of the world that every method of the agent keeps, as soon
    as the elementary updates keep them. *)
Section AgentFrame.
Import Dom ClientEditorBridge.
Variable cssQuery : string → Document → option NodeId.
Variable getBoundingClientRect : Document → NodeId → DOMRect.
Variable Inv : World → Prop.
Variable goodStamp : Stamp → Prop.
Implicit Types (w : World) (st : Stamp).

Hypothesis Inv_setPage : ∀ w p, Inv w → Inv (setPage p w).
Hypothesis Inv_setAgent :
  ∀ w a, editorOrigin a = editorOrigin (agent w) → Inv w → Inv (setAgent a w).
Hypothesis Inv_emit : ∀ w e, postedToParent [e] = [] → Inv w → Inv (emit e w).
Hypothesis Inv_post :
  ∀ w st type payload,
    goodStamp st → type ∈ vocabulary → Inv w →
    Inv (emit (PostToParent
                 (mkIframeMessage (Some type) (Some payload)
                    (Some ("msg_" +:+ pretty (now st) +:+ "_" +:+ rnd st))
                    (Some (now st)))) w).

Lemma Inv_sendToEditor w st type payload :
  goodStamp st → type ∈ vocabulary → Inv w → Inv (sendToEditor st type payload w).
Proof. intros Hs Ht Hw. unfold sendToEditor. case_match; [done|]. by apply Inv_post. Qed.

Lemma Inv_onElement w id f : Inv w → Inv (onElement id f w).
Proof. intros Hw. by apply Inv_setPage. Qed.

Lemma Inv_fold {A} (f : World → A → World) (l : list A) w :
  (∀ w' a, Inv w' → Inv (f w' a)) → Inv w → Inv (fold_left f l w).
Proof.
  intros Hf. revert w. induction l as [|a l IH]; intros w Hw; [done|].
  simpl. by apply IH, Hf.
Qed.

Lemma Inv_highlightEditableElements w : Inv w → Inv (highlightEditableElements w).
Proof.
  intros Hw. unfold highlightEditableElements. apply Inv_fold; [|done].
  intros w' a Hw'. case_match; [by apply Inv_onElement|done].
Qed.

Lemma Inv_deselectElement w st : goodStamp st → Inv w → Inv (deselectElement st w).
Proof.
  intros Hs Hw. unfold deselectElement. apply Inv_sendToEditor; [done|compute_done|].
  case_match; [|done]. apply Inv_setAgent; [done|]. by apply Inv_onElement.
Qed.

Lemma Inv_exitEditMode w st : goodStamp st → Inv w → Inv (exitEditMode st w).
Proof.
  intros Hs Hw. unfold exitEditMode. apply Inv_fold; [|done].
  intros w' a Hw'. case_match; [|done].
  assert (Inv (onElement n (setAttribute "contenteditable" "false") w'))
    by (by apply Inv_onElement).
  case_match; [|done]. case_match; [|done].
  apply Inv_sendToEditor; [done|compute_done|done].
Qed.

Lemma Inv_dispatchBlur w st target : goodStamp st → Inv w → Inv (dispatchBlur st target w).
Proof.
  intros Hs Hw. unfold dispatchBlur. apply Inv_fold; [|done].
  intros w' _ Hw'. by apply Inv_exitEditMode.
Qed.

Lemma Inv_blur w st target : goodStamp st → Inv w → Inv (blur st target w).
Proof.
  intros Hs Hw. unfold blur. case_match; [|done].
  by apply Inv_dispatchBlur, Inv_setPage.
Qed.

Lemma Inv_focus w st target : goodStamp st → Inv w → Inv (focus st target w).
Proof.
  intros Hs Hw. unfold focus. case_match; [done|].
  case_match; [apply Inv_dispatchBlur; [done|]|]; by apply Inv_setPage.
Qed.

Lemma Inv_selectElement w st element :
  goodStamp st → Inv w → Inv (selectElement getBoundingClientRect st element w).
Proof.
  intros Hs Hw. unfold selectElement. destruct element as [id|]; [|done].
  set (wa := match selectedElement (agent w) with
             | Some sel => onElement sel (removeAttribute "data-editor-selected") w
             | None => w
             end).
  assert (Hwa : Inv wa).
  { subst wa. case_match; [by apply Inv_onElement|done]. }
  clearbody wa.
  set (wb := setAgent _ (onElement id _ wa)).
  assert (Hwb : Inv wb).
  { subst wb. apply Inv_setAgent; [done|]. by apply Inv_onElement. }
  clearbody wb.
  case_match; [|done]. apply Inv_sendToEditor; [done|compute_done|done].
Qed.

Lemma Inv_updateElementContent w st elementId content :
  goodStamp st → Inv w → Inv (updateElementContent st elementId content w).
Proof.
  intros Hs Hw. unfold updateElementContent. case_match; [|done].
  apply Inv_sendToEditor; [done|compute_done|].
  repeat case_match; try done; by apply Inv_onElement.
Qed.

Lemma Inv_enterEditMode w st elementId :
  goodStamp st → Inv w → Inv (enterEditMode st elementId w).
Proof.
  intros Hs Hw. unfold enterEditMode. repeat case_match; try done.
  apply Inv_setPage, Inv_focus; [done|]. by apply Inv_onElement.
Qed.

Lemma Inv_handleEditorMessage w st message :
  goodStamp st → Inv w →
  Inv (handleEditorMessage cssQuery getBoundingClientRect st message w).
Proof.
  intros Hs Hw. unfold handleEditorMessage.
  destruct (in_type message) as [type|]; [|done].
  repeat case_match; try done;
    first [ by apply Inv_highlightEditableElements, Inv_setAgent
          | by apply Inv_selectElement
          | by apply Inv_updateElementContent
          | by apply Inv_enterEditMode
          | by apply Inv_exitEditMode ].
Qed.

Lemma Inv_clickListener w st target :
  goodStamp st → Inv w → Inv (clickListener getBoundingClientRect st target w).
Proof.
  intros Hs Hw. unfold clickListener. case_match; [done|].
  case_match.
  - apply Inv_selectElement; [done|]. by do 2 (apply Inv_emit; [done|]).
  - case_match; [by apply Inv_deselectElement|done].
Qed.

Lemma Inv_keydown w st target key shiftKey (l : list NodeId) :
  goodStamp st → Inv w →
  Inv (fold_left (λ w _, keydownListener st target key shiftKey w) l w).
Proof.
  intros Hs Hw. apply Inv_fold; [|done]. intros w' _ Hw'. unfold keydownListener.
  case_match; [|done]. apply Inv_blur; [done|]. by apply Inv_emit.
Qed.

End AgentFrame.

Section AgentOrigin.
Import Dom ClientEditorBridge.
Variable cssQuery : string → Document → option NodeId.
Variable getBoundingClientRect : Document → NodeId → DOMRect.
Implicit Types (w : World) (st : Stamp) (events : list Event).

Local Abbreviation step' := (step cssQuery getBoundingClientRect).
Local Abbreviation run' := (run cssQuery getBoundingClientRect).

Lemma handleEditorMessage_editorOrigin w st message :
  editorOrigin (agent (handleEditorMessage cssQuery getBoundingClientRect st message w))
  = editorOrigin (agent w).
Proof.
  apply (Inv_handleEditorMessage cssQuery getBoundingClientRect
           (λ w', editorOrigin (agent w') = editorOrigin (agent w)) (λ _, True));
    try done.
  intros w' a Ha Hw'. simpl. congruence.
Qed.

Lemma step_editorOrigin_pinned w (e : Event) (o : string) :
  editorOrigin (agent w) = Some o → o ≠ "" →
  editorOrigin (agent (step' w e)) = Some o.
Proof.
  intros Ho Hne.
  assert (Ht : truthy_str (Some o) = true) by (by destruct o).
  destruct e as [st target|st origin data|st target|st target key shift]; simpl.
  - apply (Inv_clickListener getBoundingClientRect
             (λ w', editorOrigin (agent w') = Some o) (λ _, True)); try done.
    intros w' a Ha Hw'. simpl. congruence.
  - unfold messageListener. rewrite Ho, Ht. simpl. rewrite Ho, Ht. simpl.
    case_match; [done|]. destruct data as [message|]; [|done].
    by rewrite handleEditorMessage_editorOrigin.
  - apply (Inv_blur (λ w', editorOrigin (agent w') = Some o) (λ _, True)); try done.
  - apply (Inv_keydown (λ w', editorOrigin (agent w') = Some o) (λ _, True)); try done.
Qed.

(** X25: the editor origin is pinned once.  When the agent has stored an
    origin, no sequence of events changes it, and a message event from any
    other origin leaves agent, page and effects exactly as they were. *)
Theorem editor_origin_pinned w events (o : string) :
  editorOrigin (agent w) = Some o →
  o ≠ "" →
  editorOrigin (agent (run cssQuery getBoundingClientRect w events)) = Some o
  ∧ ∀ st origin data,
      origin ≠ o →
      step cssQuery getBoundingClientRect
        (run cssQuery getBoundingClientRect w events) (Message st origin data)
      = run cssQuery getBoundingClientRect w events.
Proof.
  intros Ho Hne.
  assert (Hrun : editorOrigin (agent (run' w events)) = Some o).
  { revert w Ho. induction events as [|e events IH]; intros w Ho; [done|].
    simpl. by apply IH, step_editorOrigin_pinned. }
  split; [done|]. intros st origin data Hd. simpl. unfold messageListener.
  assert (Ht : truthy_str (Some o) = true) by (by destruct o).
  rewrite Hrun, Ht. simpl. rewrite Hrun, Ht. simpl.
  rewrite bool_decide_eq_false_2 by congruence. done.
Qed.

Lemma step_editorOrigin_unset w (e : Event) :
  editorOrigin (agent w) = None → fromLocalEditor e = false →
  editorOrigin (agent (step' w e)) = None.
Proof.
  intros Ho He.
  destruct e as [st target|st origin data|st target|st target key shift]; simpl.
  - apply (Inv_clickListener getBoundingClientRect
             (λ w', editorOrigin (agent w') = None) (λ _, True)); try done.
    intros w' a Ha Hw'. simpl. congruence.
  - simpl in He. unfold messageListener. rewrite Ho, He. simpl. rewrite Ho. simpl.
    destruct data as [message|]; [|done].
    by rewrite handleEditorMessage_editorOrigin.
  - apply (Inv_blur (λ w', editorOrigin (agent w') = None) (λ _, True)); try done.
  - apply (Inv_keydown (λ w', editorOrigin (agent w') = None) (λ _, True)); try done.
Qed.

(** X26: the origin check only works for a local editor.  As long as no
    message event comes from an origin that contains [localhost:3000], the
    agent stores no origin, and every message event is then handled
    whatever its origin. *)
Theorem origin_check_needs_local_editor st (embedded : bool) (p : Page) events :
  Forall (λ e, fromLocalEditor e = false) events →
  let w := run' (constructor st embedded p) events in
  editorOrigin (agent w) = None
  ∧ ∀ st' origin message,
      includes "localhost:3000" origin = false →
      step' w (Message st' origin (Some message))
      = handleEditorMessage cssQuery getBoundingClientRect st' message w.
Proof.
  intros Hall w.
  assert (Hw : editorOrigin (agent w) = None).
  { subst w.
    assert (H0 : editorOrigin (agent (constructor st embedded p)) = None).
    { unfold constructor, detectEditorMode, sendToEditor. by destruct embedded. }
    revert H0. generalize (constructor st embedded p) as w0.
    induction Hall as [|e events He _ IH]; intros w0 H0; [done|].
    simpl. by apply IH, step_editorOrigin_unset. }
  split; [done|]. intros st' origin message Hi. simpl. unfold messageListener.
  rewrite Hw, Hi. simpl. by rewrite Hw.
Qed.

End AgentOrigin.

Section AgentMessages.
Import Dom ClientEditorBridge.
Variable cssQuery : string → Document → option NodeId.
Variable getBoundingClientRect : Document → NodeId → DOMRect.
Implicit Types (w : World) (st : Stamp) (events : list Event).

Local Abbreviation step' := (step cssQuery getBoundingClientRect).
Local Abbreviation run' := (run cssQuery getBoundingClientRect).
Local Abbreviation allWellFormed := (λ w, Forall wellFormed (postedToParent (effects w))).
Local Abbreviation clockOf := (λ st, now st ≠ 0).

Lemma wellFormed_post w st (type : string) (payload : IframePayload) :
  now st ≠ 0 → type ∈ vocabulary → allWellFormed w →
  allWellFormed
    (emit (PostToParent
             (mkIframeMessage (Some type) (Some payload)
                (Some ("msg_" +:+ pretty (now st) +:+ "_" +:+ rnd st))
                (Some (now st)))) w).
Proof.
  intros Hs Ht Hw. simpl. unfold postedToParent in *. rewrite omap_app. simpl.
  apply Forall_app. split; [done|]. constructor; [|done].
  split_and!; [|done|by eexists].
  assert (Hty : truthy_str (Some type) = true).
  { unfold vocabulary in Ht. rewrite !elem_of_cons in Ht.
    destruct Ht as [->|[->|[->|[->|Ht]]]]; try done. by apply elem_of_nil in Ht. }
  unfold IframeBridge.validStructure. cbn [im_type im_messageId im_timestamp].
  rewrite Hty. simpl. destruct (now st); done.
Qed.

Lemma wellFormed_emit w (e : Effect) :
  postedToParent [e] = [] → allWellFormed w → allWellFormed (emit e w).
Proof.
  intros He Hw. simpl. unfold postedToParent in *. by rewrite omap_app, He, app_nil_r.
Qed.

Lemma wellFormed_step w (e : Event) :
  clockSet e = true → allWellFormed w → allWellFormed (step' w e).
Proof.
  intros Hc Hw.
  assert (Hs : ∀ st, negb (Z.eqb (now st) 0) = true → now st ≠ 0).
  { intros st Hst. apply negb_true_iff in Hst. lia. }
  destruct e as [st target|st origin data|st target|st target key shift]; simpl in *.
  - apply (Inv_clickListener getBoundingClientRect allWellFormed clockOf);
      auto using wellFormed_post, wellFormed_emit.
  - unfold messageListener.
    set (w1 := if negb (truthy_str (editorOrigin (agent w)))
                  && includes "localhost:3000" origin
               then setAgent (mkAgent (isInEditorMode (agent w)) (Some origin)
                                (selectedElement (agent w))) w
               else w).
    assert (Hw1 : allWellFormed w1) by (subst w1; by case_match).
    clearbody w1. case_match; [done|]. destruct data as [message|]; [|done].
    apply (Inv_handleEditorMessage cssQuery getBoundingClientRect allWellFormed clockOf);
      auto using wellFormed_post, wellFormed_emit.
  - apply (Inv_blur allWellFormed clockOf); auto using wellFormed_post, wellFormed_emit.
  - apply (Inv_keydown allWellFormed clockOf); auto using wellFormed_post, wellFormed_emit.
Qed.

(** X27: whatever the agent posts, the editor's bridge accepts.  When the
    clock never reads zero, every message that the agent has posted to the
    parent window after any sequence of events has a non-empty type among
    [IFRAME_READY], [ELEMENT_SELECTED], [ELEMENT_DESELECTED] and
    [CONTENT_CHANGED], a non-empty message id, a non-zero timestamp and a
    payload, so that it passes the structure check of the iframe
    bridge. *)
Theorem posted_messages_well_formed st (embedded : bool) (p : Page) events :
  now st ≠ 0 →
  Forall (λ e, clockSet e = true) events →
  Forall wellFormed
    (postedToParent (effects (run' (constructor st embedded p) events))).
Proof.
  intros Hs Hall.
  assert (H0 : allWellFormed (constructor st embedded p)).
  { unfold constructor, detectEditorMode. destruct embedded; [|by constructor].
    unfold sendToEditor. simpl.
    apply (wellFormed_post (mkWorld (mkAgent true None None) p []) st "IFRAME_READY");
      [done|compute_done|by constructor]. }
  revert H0. generalize (constructor st embedded p) as w.
  induction Hall as [|e events He _ IH]; intros w Hw; [done|].
  simpl. by apply IH, wellFormed_step.
Qed.

(** X28: an [UPDATE_CONTENT] is confirmed with the content it carried,
    applied or not.  For an editor id without quote, backslash, line
    break or NUL (so that the selector built from it matches exactly the
    elements carrying that id): in editor mode, when an element has the
    id, the agent posts [CONTENT_CHANGED] with that id and the requested
    content as new content and no old content, and keeps its own fields;
    when the element is no image and the content is no string the page is
    left as it was, and the confirmation is posted all the same.  When no
    element has the id nothing happens. *)
Theorem update_confirmed_as_requested st (elementId : string) (content : JsValue) w :
  plainId elementId = true →
  let w' := updateElementContent st (Some elementId) content w in
  (∀ element,
     isInEditorMode (agent w) = true →
     querySelector (editorIdSelector elementId) (document (page w)) = Some element →
     postedToParent (effects w')
     = postedToParent (effects w)
       ++ [useEditorState.confirmation elementId content
             ("msg_" +:+ pretty (now st) +:+ "_" +:+ rnd st) (now st)]
     ∧ agent w' = agent w
     ∧ (tagName element ≠ "IMG" → (∀ s, content ≠ JStr s) → page w' = page w))
  ∧ (querySelector (editorIdSelector elementId) (document (page w)) = None → w' = w).
Proof.
  intros _ w'. subst w'. unfold updateElementContent. simpl. split.
  - intros element Hm ->.
    set (w1 := match node_id element with
               | Some id => _
               | None => w
               end).
    assert (Hw1 : agent w1 = agent w ∧ effects w1 = effects w
                  ∧ (tagName element ≠ "IMG" → (∀ s, content ≠ JStr s) →
                     page w1 = page w)).
    { subst w1. destruct (node_id element) as [id|]; [|done].
      destruct (bool_decide (tagName element = "IMG")) eqn:Htag.
      - apply bool_decide_eq_true in Htag. rewrite andb_true_r.
        case_match; [done|]. destruct content; done.
      - rewrite andb_false_r. destruct content; try done.
        split_and!; try done. intros _ Hc. by destruct (Hc s). }
    destruct Hw1 as (Ha & He & Hp). clearbody w1.
    unfold sendToEditor. rewrite Ha, Hm. simpl. rewrite He.
    split_and!; try done. unfold postedToParent. by rewrite omap_app.
  - by intros ->.
Qed.

End AgentMessages.

Section AgentMessageScenarios.
Import Dom ClientEditorBridge Samples.

Lemma editor_origin_pinned_witness :
  let w := mkWorld (mkAgent true (Some "http://localhost:3000") None) sample_page [] in
  editorOrigin (agent (run noCss noLayout w [Click sample_stamp 3%nat]))
  = Some "http://localhost:3000".
Proof.
  intros w.
  refine (proj1 (editor_origin_pinned noCss noLayout w [Click sample_stamp 3%nat]
                   "http://localhost:3000" eq_refl _)).
  discriminate.
Defined.

Lemma origin_check_needs_local_editor_witness :
  editorOrigin
    (agent (run noCss noLayout (constructor sample_stamp true sample_page)
              [Message sample_stamp "https://editor.example.com"
                 (Some editor_ready_command);
               Click sample_stamp 3%nat]))
  = None.
Proof.
  refine (proj1 (origin_check_needs_local_editor noCss noLayout sample_stamp true
                   sample_page _ _)).
  repeat constructor.
Defined.

Lemma posted_messages_well_formed_witness :
  Forall wellFormed
    (postedToParent
       (effects (run noCss noLayout (constructor sample_stamp true sample_page)
                   [Message sample_stamp "http://localhost:3000"
                      (Some update_command);
                    Click sample_stamp 3%nat]))).
Proof.
  refine (posted_messages_well_formed noCss noLayout sample_stamp true sample_page _ _ _).
  - discriminate.
  - repeat constructor.
Defined.

Lemma update_confirmed_as_requested_witness :
  let w := mkWorld (mkAgent true None None) sample_page [] in
  postedToParent
    (effects (updateElementContent sample_stamp (Some "hero-title") (JStr "Changed") w))
  = [useEditorState.confirmation "hero-title" (JStr "Changed")
       ("msg_" +:+ pretty 1700000000300 +:+ "_" +:+ "r4t5y6u7i") 1700000000300].
Proof.
  intros w.
  refine (proj1 (proj1 (update_confirmed_as_requested sample_stamp "hero-title"
                          (JStr "Changed") w _) heading _ _)).
  - reflexivity.
  - reflexivity.
  - reflexivity.
Defined.

End AgentMessageScenarios.

(** * The confirmation of an undo *)

Section UndoConfirmation.
Import editorStore useEditorState Samples.


End UndoConfirmation.
